(** * Chirun course builder: item tree, content derivation, URL arithmetic
      and the processing pipeline.

    A shallow embedding of [makeCourse/item.py] and [chirun/cli.py].
    Python objects live in an explicit store ([heap]) so that the parent
    back-reference of an item and the identity test [item == self] keep
    their meaning; dictionaries are [gmap string pyval]; exceptions are
    values of [exn] carried by [result]. *)

From Stdlib Require Import ZArith Ascii String List Lia DecimalString.
From stdpp Require Import gmap strings list fin_maps.

Set Warnings "-register-all".
Set Default Proof Using "Type".

Local Open Scope string_scope.
Local Open Scope list_scope.
Local Open Scope Z_scope.

(** ** Python values, exceptions *)

(** The record describing one item in the course structure, as the YAML
    loader hands it over: [{type, title?, source?, hidden?, content?}].
    An absent key is [None]. *)
Inductive data := mkData {
  d_type : option string;
  d_title : option string;
  d_source : option string;
  d_hidden : option bool;
  d_content : option (list data)
}.

(** The values that occur in the course configuration and in the YAML
    mappings built by [Item.yaml].  [PyRecord] is a mapping of the
    item-record shape; [PyObj] stands for an object with no further
    structure here (an [argparse] namespace, a [Path]). *)
Inductive pyval :=
  | PyNone
  | PyBool (b : bool)
  | PyInt (z : Z)
  | PyStr (s : string)
  | PyList (l : list pyval)
  | PyDict (m : gmap string pyval)
  | PyRecord (d : data)
  | PyObj (repr : string).

Inductive exn :=
  | KeyError (key : string)
  | NameError (name : string)
  | AttributeError (attr : string)
  | TypeError (msg : string)
  | ValueError (msg : string)
  | FileNotFoundError (path : string)
  | NotImplementedError (msg : string)
  | RecursionError
  | InvalidAddress (a : nat)
  | Exception (msg : string).

Inductive result (A : Type) :=
  | Ok (a : A)
  | Raise (e : exn).
Arguments Ok {A} a.
Arguments Raise {A} e.

#[global] Instance result_ret : MRet result := fun A a => Ok a.
#[global] Instance result_bind : MBind result := fun A B f m =>
  match m with
  | Ok a => f a
  | Raise e => Raise e
  end.
#[global] Instance result_fmap : FMap result := fun A B f m =>
  match m with
  | Ok a => Ok (f a)
  | Raise e => Raise e
  end.

(** [d[k]]: subscription of a dictionary raises [KeyError] on a missing key. *)
Definition subscript (d : gmap string pyval) (k : string) : result pyval :=
  match d !! k with
  | Some v => Ok v
  | None => Raise (KeyError k)
  end.

(** ** Python strings *)

Definition nl : string := String (ascii_of_nat 10) EmptyString.

Definition py_len (s : string) : Z := Z.of_nat (String.length s).

Fixpoint str_take (n : nat) (s : string) : string :=
  match n, s with
  | S n', String c s' => String c (str_take n' s')
  | _, _ => EmptyString
  end.

Fixpoint str_drop (n : nat) (s : string) : string :=
  match n, s with
  | S n', String _ s' => str_drop n' s'
  | _, _ => s
  end.

(** A slice bound as Python reads it: a negative bound counts from the
    end, and the result is clipped to the string. *)
Definition slice_bound (s : string) (k : Z) : nat :=
  if k <? 0 then Z.to_nat (Z.max 0 (py_len s + k)) else Z.to_nat k.

(** [s[:k]] and [s[k:]]. *)
Definition slice_to (s : string) (k : Z) : string := str_take (slice_bound s k) s.
Definition slice_from (s : string) (k : Z) : string := str_drop (slice_bound s k) s.

(** [sep.join(l)] *)
Fixpoint str_join (sep : string) (l : list string) : string :=
  match l with
  | [] => EmptyString
  | [x] => x
  | x :: l' => x +:+ sep +:+ str_join sep l'
  end.

(** [[x] * k]: a non-positive factor gives the empty list. *)
Definition list_times {A} (x : A) (k : Z) : list A := repeat x (Z.to_nat k).

(** [s.startswith(p)], returning what follows the prefix. *)
Fixpoint strip_prefix (p s : string) : option string :=
  match p, s with
  | EmptyString, _ => Some s
  | String a p', String b s' => if Ascii.eqb a b then strip_prefix p' s' else None
  | String _ _, EmptyString => None
  end.

(** Number of (possibly overlapping) occurrences of [p] in [s]. *)
Fixpoint occurrences (p s : string) : nat :=
  ((match strip_prefix p s with Some _ => 1 | None => 0 end) +
   match s with
   | EmptyString => 0
   | String _ s' => occurrences p s'
   end)%nat.

(** ** The [re] module, as far as [get_content] uses it *)

Module re.

(** [re.S] / [re.DOTALL] *)
Definition S : Z := 16.

(** The pieces of a pattern: [^], a literal run, and the lazy [.*?]. *)
Inductive atom :=
  | Bol
  | Lit (s : string)
  | LazyDotStar.

Definition pattern := list atom.

Definition dotall (flags : Z) : bool := Z.testbit flags 4.

(** [.] matches everything but a newline, unless DOTALL is set. *)
Definition dot_matches (flags : Z) (c : ascii) : bool :=
  dotall flags || negb (Ascii.eqb c (ascii_of_nat 10)).

(** Backtracking match of [p] at the head of [s]; [pos] is the offset of
    [s] in the subject ([^] matches at offset 0 only, MULTILINE being
    unset throughout).  Returns the unmatched rest and its offset. *)
Fixpoint match_here (flags : Z) (p : pattern) (pos : nat) (s : string)
    : option (nat * string) :=
  match p with
  | [] => Some (pos, s)
  | Bol :: p' =>
      match pos with
      | O => match_here flags p' pos s
      | _ => None
      end
  | Lit l :: p' =>
      match strip_prefix l s with
      | Some s' => match_here flags p' (pos + String.length l)%nat s'
      | None => None
      end
  | LazyDotStar :: p' =>
      (fix star (pos : nat) (s : string) {struct s} : option (nat * string) :=
         match match_here flags p' pos s with
         | Some r => Some r
         | None =>
             match s with
             | EmptyString => None
             | String c s' =>
                 if dot_matches flags c then star (Datatypes.S pos) s' else None
             end
         end) pos s
  end.

(** The scan of [re.sub]: leftmost matches, left to right, at most
    [count] of them when [count] is not 0.  [fuel] bounds the number of
    scan steps; [sub] below supplies enough of it. *)
Fixpoint sub_scan (fuel : nat) (flags : Z) (p : pattern) (repl : string)
    (limited : bool) (left : nat) (pos : nat) (s : string) : string :=
  match fuel with
  | O => s
  | Datatypes.S fuel' =>
      if limited && Nat.eqb left 0 then s
      else
        match match_here flags p pos s with
        | Some (pos', s') =>
            if Nat.eqb pos' pos then
              (* empty match: substitute, then copy one character *)
              match s with
              | EmptyString => repl
              | String c s'' =>
                  repl +:+ String c
                    (sub_scan fuel' flags p repl limited (Nat.pred left) (Datatypes.S pos) s'')
              end
            else
              repl +:+ sub_scan fuel' flags p repl limited (Nat.pred left) pos' s'
        | None =>
            match s with
            | EmptyString => EmptyString
            | String c s'' =>
                String c (sub_scan fuel' flags p repl limited left (Datatypes.S pos) s'')
            end
        end
  end.

(** [re.sub(pattern, repl, string, count=0, flags=0)] *)
Definition sub (p : pattern) (repl s : string) (count : Z) (flags : Z) : string :=
  sub_scan (Datatypes.S (String.length s)) flags p repl
           (negb (count =? 0)) (Z.to_nat count) 0 s.

End re.

(** [r'^---.*?---\n'] *)
Definition front_matter_re : re.pattern :=
  [re.Bol; re.Lit "---"; re.LazyDotStar; re.Lit ("---" +:+ nl)].

(** ** [os.path] (POSIX flavour) *)

Module os_path.

Definition is_sep (c : ascii) : bool := Ascii.eqb c "/"%char.
Definition is_dot (c : ascii) : bool := Ascii.eqb c "."%char.

(** [p.rfind(c)] as an option: the index of the last [c]. *)
Fixpoint rfind_from (f : ascii → bool) (i : nat) (s : string) : option nat :=
  match s with
  | EmptyString => None
  | String c s' =>
      match rfind_from f (Datatypes.S i) s' with
      | Some j => Some j
      | None => if f c then Some i else None
      end
  end.
Definition rfind (f : ascii → bool) (s : string) : option nat := rfind_from f 0 s.

(** Is there a character other than [.] in [s[lo:hi]]? *)
Definition has_non_dot (s : string) (lo hi : nat) : bool :=
  existsb (fun c => negb (is_dot c))
          (list_ascii_of_string (str_take (hi - lo) (str_drop lo s))).

(** [os.path.splitext]: the extension starts at the last dot of the last
    path component, leading dots of that component not counting. *)
Definition splitext (p : string) : string * string :=
  let filename_index :=
    match rfind is_sep p with
    | Some i => Datatypes.S i
    | None => O
    end in
  match rfind is_dot p with
  | Some dot_index =>
      if (filename_index <=? dot_index)%nat && has_non_dot p filename_index dot_index
      then (str_take dot_index p, str_drop dot_index p)
      else (p, EmptyString)
  | None => (p, EmptyString)
  end.

Definition ends_with_sep (s : string) : bool :=
  match rfind is_sep s with
  | Some i => Nat.eqb (Datatypes.S i) (String.length s)
  | None => false
  end.

(** [os.path.join(a, b)] *)
Definition join2 (a b : string) : string :=
  match b with
  | String c _ =>
      if is_sep c then b
      else if (String.length a =? 0)%nat || ends_with_sep a then a +:+ b
      else a +:+ "/" +:+ b
  | EmptyString =>
      if (String.length a =? 0)%nat || ends_with_sep a then a else a +:+ "/"
  end.

(** [os.path.join(a, *rest)] *)
Definition join (a : string) (rest : list string) : string :=
  fold_left join2 rest a.

End os_path.


(** ** Dictionaries *)

Abbreviation dict := (gmap string pyval).

(** [d.update({k1: v1, ...})]: later entries win. *)
Definition dict_update (d : dict) (kvs : list (string * pyval)) : dict :=
  fold_left (fun d kv => <[kv.1 := kv.2]> d) kvs d.

(** A dictionary display [{k1: v1, ...}]. *)
Definition dict_of (kvs : list (string * pyval)) : dict := dict_update ∅ kvs.

(** ** The item tree ([makeCourse/item.py]) *)

(** The concrete classes registered in [item_types]. *)
Inductive item_class :=
  | Introduction
  | Part
  | Chapter
  | Url
  | Slides
  | Recap.

#[global] Instance item_class_eq_dec : EqDecision item_class.
Proof. solve_decision. Defined.

(** Class attribute [type]. *)
Definition type (c : item_class) : string :=
  match c with
  | Introduction => "introduction"
  | Part => "part"
  | Chapter => "chapter"
  | Url => "url"
  | Slides => "slides"
  | Recap => "recap"
  end.

(** Class attribute [title], the default title of an instance. *)
Definition class_title (c : item_class) : string :=
  match c with
  | Introduction => "index"
  | Part => "Untitled part"
  | Chapter => "Untitled chapter"
  | Url => "Untitled URL"
  | Slides => "Untitled Slides"
  | Recap => "Untitled Recap"
  end.

(** Class attribute [template_file]. *)
Definition template_file (c : item_class) : string :=
  match c with
  | Introduction => "index.html"
  | Part => "part.html"
  | Chapter => "chapter.html"
  | Url => "part.html"
  | Slides => "slides.html"
  | Recap => "chapter.html"
  end.

Definition item_types : gmap string item_class :=
  list_to_map [
    ("introduction", Introduction);
    ("part", Part);
    ("chapter", Chapter);
    ("url", Url);
    ("slides", Slides);
    ("recap", Recap)
  ].

(** Objects are named by their address in the store. *)
Abbreviation addr := nat.

(** An [Item] instance: the attributes [__init__] assigns, and its class. *)
Record Item := mkItem {
  cls : item_class;
  parent : option addr;
  item_data : data;
  title : string;
  slug : string;
  source : string;
  is_hidden : bool;
  content : list addr
}.

Definition set_content (cs : list addr) (it : Item) : Item :=
  {| cls := cls it; parent := parent it; item_data := item_data it;
     title := title it; slug := slug it; source := source it;
     is_hidden := is_hidden it; content := cs |}.

(** The store of item objects; a new object takes the next free address. *)
Abbreviation heap := (list Item).

Definition deref (h : heap) (a : addr) : result Item :=
  match h !! a with
  | Some it => Ok it
  | None => Raise (InvalidAddress a)
  end.

Section Loading.

(** [slugify] comes from the package's [__init__], which is not part of
    the sources at hand; it is a parameter of the development. *)
Variable slugify : string → string.

(** The scalar attributes [Item.__init__] assigns; [content] is filled
    in once the children are loaded. *)
Definition init_item (c : item_class) (d : data) (parent : option addr) : Item :=
  let ttl := default (class_title c) (d_title d) in
  {| cls := c; parent := parent; item_data := d;
     title := ttl; slug := slugify ttl;
     source := default "" (d_source d);
     is_hidden := default false (d_hidden d);
     content := [] |}.

(** [load_item(course, data, parent)] with [Item.__init__] inlined:
    the class is looked up in [item_types], the object is created, its
    scalar attributes are set, and then the children are loaded with the
    new object as their parent and stored in [content]. *)
Fixpoint load_item (d : data) (parent : option addr) (h : heap)
    : result (addr * heap) :=
  match d with
  | mkData dty _ _ _ dcontent =>
      match dty with
      | None => Raise (KeyError "type")
      | Some ty =>
          match item_types !! ty with
          | None => Raise (KeyError ty)
          | Some c =>
              let self := length h in
              let obj := init_item c d parent in
              let load_all :=
                fix load_all (ds : list data) (h : heap) {struct ds}
                    : result (list addr * heap) :=
                  match ds with
                  | [] => Ok ([], h)
                  | d' :: ds' =>
                      match load_item d' (Some self) h with
                      | Raise e => Raise e
                      | Ok (a, h1) =>
                          match load_all ds' h1 with
                          | Raise e => Raise e
                          | Ok (cs, h2) => Ok (a :: cs, h2)
                          end
                      end
                  end in
              match
                match dcontent with
                | Some ds => load_all ds (h ++ [obj])
                | None => Ok ([], h ++ [obj])
                end
              with
              | Raise e => Raise e
              | Ok (cs, h') => Ok (self, <[self := set_content cs obj]> h')
              end
          end
      end
  end.

(** [[load_item(course, obj, parent) for obj in ds]] *)
Fixpoint load_items (ds : list data) (parent : option addr) (h : heap)
    : result (list addr * heap) :=
  match ds with
  | [] => Ok ([], h)
  | d :: ds' =>
      match load_item d parent h with
      | Raise e => Raise e
      | Ok (a, h1) =>
          match load_items ds' parent h1 with
          | Raise e => Raise e
          | Ok (cs, h2) => Ok (a :: cs, h2)
          end
      end
  end.

End Loading.

(** ** The course object ([chirun/cli.py]) *)

(** What the core reads of a [Theme]. *)
Record Theme := mkTheme {
  path : string;
  yaml_of_theme : pyval;
  alt_themes_yaml : pyval
}.

(** The build context.  [store] holds the item objects that [structure]
    and the items' [parent] and [content] attributes refer to. *)
Record Course := mkCourse {
  args_absolute : bool;
  force_relative_build : bool;
  force_theme : option Theme;
  theme : Theme;
  root_dir : string;
  build_dir : string;
  config : dict;
  structure : list addr;
  store : heap
}.

Definition with_config (cfg : dict) (c : Course) : Course :=
  {| args_absolute := args_absolute c;
     force_relative_build := force_relative_build c;
     force_theme := force_theme c; theme := theme c;
     root_dir := root_dir c; build_dir := build_dir c;
     config := cfg; structure := structure c; store := store c |}.

Definition with_structure (st : list addr) (h : heap) (c : Course) : Course :=
  {| args_absolute := args_absolute c;
     force_relative_build := force_relative_build c;
     force_theme := force_theme c; theme := theme c;
     root_dir := root_dir c; build_dir := build_dir c;
     config := config c; structure := st; store := h |}.

(** ** Item properties and methods *)

(** [Item.out_path], with the overrides of [Part] (a property) and
    [Introduction] (a class attribute). *)
Definition out_path (h : heap) (self : Item) : result (list string) :=
  match cls self with
  | Introduction => Ok ["index"]
  | Part => Ok [slug self]
  | Chapter | Url | Slides | Recap =>
      match parent self with
      | Some p => pobj ← deref h p; Ok [slug pobj; slug self]
      | None => Ok [slug self]
      end
  end.

(** [Item.out_file]: [os.path.join( *self.out_path)] *)
Definition out_file (h : heap) (self : Item) : result string :=
  segs ← out_path h self;
  match segs with
  | [] => Raise (TypeError "join() missing 1 required positional argument")
  | a :: rest => Ok (os_path.join a rest)
  end.

(** [Item.url] *)
Definition url (h : heap) (self : Item) : result string :=
  segs ← out_path h self; Ok (str_join "/" segs).

(** [Item.url_clean] *)
Definition url_clean (h : heap) (self : Item) : result string :=
  segs ← out_path h self; Ok (str_join "-" segs).

(** The keys of the mapping [Item.yaml] starts from. *)
Definition base_fields : list string :=
  ["title"; "author"; "code"; "year"; "slug"; "theme"; "alt_themes"].

(** [Item.yaml] *)
Definition Item_yaml (c : Course) (self : Item) (active : bool) : result dict :=
  author ← subscript (config c) "author";
  code ← subscript (config c) "code";
  year ← subscript (config c) "year";
  let item_yaml := dict_of [
    ("title", PyStr (title self));
    ("author", author);
    ("code", code);
    ("year", year);
    ("slug", PyStr (slug self));
    ("theme", yaml_of_theme (theme c));
    ("alt_themes", alt_themes_yaml (theme c))
  ] in
  Ok (if active then <["active" := PyInt 1]> item_yaml else item_yaml).

(** [Url.yaml]: built from scratch, the base is not called. *)
Definition Url_yaml (self : Item) (active : bool) : result dict :=
  Ok (dict_of [
    ("title", PyStr (title self));
    ("external_url", PyStr (source self))
  ]).

(** [Chapter.yaml] *)
Definition Chapter_yaml (c : Course) (self : Item) (active : bool) : result dict :=
  item_yaml ← Item_yaml c self active;
  build_pdf ← subscript (config c) "build_pdf";
  u ← url (store c) self;
  u' ← url (store c) self;
  Ok (dict_update item_yaml [
    ("build_pdf", build_pdf);
    ("file", PyStr (u +:+ ".html"));
    ("pdf", PyStr (u' +:+ ".pdf"));
    ("sidebar", PyBool true)
  ]).

(** [Slides.yaml] *)
Definition Slides_yaml (c : Course) (self : Item) (active : bool) : result dict :=
  item_yaml ← Chapter_yaml c self active;
  u ← url (store c) self;
  Ok (dict_update item_yaml [
    ("file", PyStr (u +:+ ".html"));
    ("slides", PyStr (u +:+ ".slides.html"));
    ("pdf", PyStr (u +:+ ".pdf"));
    ("sidebar", PyBool true)
  ]).

(** [Recap.yaml] *)
Definition Recap_yaml (c : Course) (self : Item) (active : bool) : result dict :=
  item_yaml ← Chapter_yaml c self active;
  u ← url (store c) self;
  Ok (dict_update item_yaml [
    ("build_pdf", PyBool false);
    ("file", PyStr (u +:+ ".html"));
    ("sidebar", PyBool false)
  ]).

(** [[f(x) for x in xs]] where [f] may raise. *)
Fixpoint for_each {A B} (f : A → result B) (xs : list A) : result (list B) :=
  match xs with
  | [] => Ok []
  | x :: xs' => y ← f x; ys ← for_each f xs'; Ok (y :: ys)
  end.

(** The objects a list of references stands for, each with its address. *)
Definition deref_all (h : heap) (l : list addr) : result (list (addr * Item)) :=
  for_each (fun j => item ← deref h j; Ok (j, item)) l.

(** [item.yaml(active)], dispatched on the class of the object at [i].
    [Part.yaml] calls the method on the children of the part; [depth] is
    the interpreter's bound on the depth of such calls. *)
Fixpoint yaml (depth : nat) (c : Course) (i : addr) (active : bool) : result dict :=
  match depth with
  | O => Raise RecursionError
  | S depth' =>
      self ← deref (store c) i;
      match cls self with
      | Introduction => Item_yaml c self active
      | Part =>
          item_yaml ← Item_yaml c self active;
          items ← deref_all (store c) (content self);
          chapters ← for_each (fun item => yaml depth' c item.1 false)
                        (List.filter (fun item => negb (is_hidden item.2)) items);
          Ok (dict_update item_yaml [
            ("part-slug", PyStr (slug self));
            ("chapters", PyList (PyDict <$> chapters))
          ])
      | Url => Url_yaml self active
      | Chapter => Chapter_yaml c self active
      | Slides => Slides_yaml c self active
      | Recap => Recap_yaml c self active
      end
  end.

(** *** Content derivation *)

(** The names bound at module level in [item.py], and what a name in the
    body of [get_content] can be bound to. *)
Definition module_globals : list string :=
  ["logging"; "os"; "re"; "slugify"; "yaml_header"; "plastex"; "logger";
   "Item"; "Part"; "Url"; "Chapter"; "Slides"; "Recap"; "Introduction";
   "item_types"; "load_item"].

Inductive binding :=
  | BItem (it : Item)
  | BOther.

(** The environment of the body of [get_content]: parameters and local
    variables first, then the module's globals.  (No builtin is called
    [ch].) *)
Definition get_content_env (self : Item) : list (string * binding) :=
  [("self", BItem self); ("force_local", BOther); ("out_format", BOther);
   ("_", BOther); ("ext", BOther); ("mdContents", BOther)]
  ++ map (fun n => (n, BOther)) module_globals.

Fixpoint lookup_name (n : string) (env : list (string * binding)) : result binding :=
  match env with
  | [] => Raise (NameError n)
  | (m, b) :: env' => if String.eqb n m then Ok b else lookup_name n env'
  end.

(** [x.title] and [x.source] for whatever a name is bound to. *)
Definition attr_title (b : binding) : result string :=
  match b with
  | BItem it => Ok (title it)
  | BOther => Raise (AttributeError "title")
  end.
Definition attr_source (b : binding) : result string :=
  match b with
  | BItem it => Ok (source it)
  | BOther => Raise (AttributeError "source")
  end.

(** ["Error: Unrecognised source type for {}: {}.".format(t, s)] *)
Definition unrecognised_source_message (t s : string) : string :=
  "Error: Unrecognised source type for " +:+ t +:+ ": " +:+ s +:+ ".".

Section Content.

(** The files under the course directory; an absent file is [None]. *)
Variable read_file : string → option string.
(** [course.burnInExtras] and [course.load_latex_content], both outside
    the core. *)
Variable burnInExtras : string → bool → string → string.
Variable load_latex_content : Item → string.
(** [yaml_header] of the package's [__init__]. *)
Variable yaml_header : dict → string.

(** The front-matter removal of [get_content]:
    [re.sub(r'^---.*?---\n', '', mdContents, re.S)], whose fourth
    positional argument is [count]. *)
Definition strip_front_matter (mdContents : string) : string :=
  if String.eqb (slice_to mdContents 3) "---"
  then re.sub front_matter_re "" mdContents re.S 0
  else mdContents.

(** [Item.get_content] *)
Definition get_content (c : Course) (self : Item)
    (force_local : bool) (out_format : string) : result string :=
  let ext := (os_path.splitext (source self)).2 in
  if String.eqb ext ".md" then
    let file := os_path.join (root_dir c) [source self] in
    match read_file file with
    | None => Raise (FileNotFoundError file)
    | Some mdContents =>
        Ok (burnInExtras (strip_front_matter mdContents) force_local out_format)
    end
  else if String.eqb ext ".tex" then
    Ok (load_latex_content self)
  else
    ch ← lookup_name "ch" (get_content_env self);
    t ← attr_title ch;
    ch' ← lookup_name "ch" (get_content_env self);
    s ← attr_source ch';
    Raise (Exception (unrecognised_source_message t s)).

(** The header [Chapter.markdown] builds before it is serialised. *)
Definition Chapter_header (depth : nat) (c : Course) (i : addr) : result dict :=
  self ← deref (store c) i;
  header ← yaml depth c i false;
  match parent self with
  | Some p =>
      pobj ← deref (store c) p;
      let header := <["part" := PyStr (title pobj)]> header in
      let header := <["part-slug" := PyStr (slug pobj)]> header in
      items ← deref_all (store c) (content pobj);
      chapters ← for_each (fun item => yaml depth c item.1 (Nat.eqb item.1 i))
                    (List.filter (fun item => negb (is_hidden item.2)) items);
      Ok (<["chapters" := PyList (PyDict <$> chapters)]> header)
  | None =>
      items ← deref_all (store c) (structure c);
      chapters ← for_each (fun item => yaml depth c item.1 (Nat.eqb item.1 i))
                    (List.filter
                       (fun item => negb (String.eqb (type (cls item.2)) "introduction")
                                    && negb (is_hidden item.2)) items);
      Ok (<["chapters" := PyList (PyDict <$> chapters)]> header)
  end.

(** [Chapter.markdown], inherited by [Slides] and [Recap]. *)
Definition Chapter_markdown (depth : nat) (c : Course) (i : addr)
    (force_local : bool) (out_format : string) : result string :=
  self ← deref (store c) i;
  header ← Chapter_header depth c i;
  body ← get_content c self force_local out_format;
  Ok (yaml_header header +:+ nl +:+ nl +:+ body).

(** The header [Introduction.markdown] builds. *)
Definition Introduction_header (depth : nat) (c : Course) (i : addr) : result dict :=
  header ← yaml depth c i false;
  items ← deref_all (store c) (structure c);
  let struct :=
    List.filter
      (fun item => negb (String.eqb (type (cls item.2)) "introduction")
                   && negb (is_hidden item.2)) items in
  links ← for_each (fun s => yaml depth c s.1 false) struct;
  let header := <["links" := PyList (PyDict <$> links)]> header in
  match struct with
  | s :: _ =>
      if String.eqb (type (cls s.2)) "part"
      then Ok (<["isPart" := PyInt 1]> header)
      else Ok header
  | [] => Ok header
  end.

(** [Introduction.markdown] *)
Definition Introduction_markdown (depth : nat) (c : Course) (i : addr)
    : result string :=
  self ← deref (store c) i;
  header ← Introduction_header depth c i;
  body ← get_content c self false "html";
  Ok (yaml_header header +:+ nl +:+ nl +:+ body).

(** [item.markdown(force_local, out_format)], by class; [Url] has no
    page and answers [None]. *)
Definition markdown (depth : nat) (c : Course) (i : addr)
    (force_local : bool) (out_format : string) : result (option string) :=
  self ← deref (store c) i;
  match cls self with
  | Introduction => Some <$> Introduction_markdown depth c i
  | Part => h ← yaml depth c i false; Ok (Some (yaml_header h))
  | Url => Ok None
  | Chapter | Slides | Recap =>
      Some <$> Chapter_markdown depth c i force_local out_format
  end.

End Content.

(** ** Web root and URLs ([Chirun.get_web_root], [Chirun.make_relative_url]) *)

(** Truth value of a Python object. *)
Definition truthy (v : pyval) : bool :=
  match v with
  | PyNone => false
  | PyBool b => b
  | PyInt z => negb (z =? 0)
  | PyStr s => negb (String.eqb s "")
  | PyList l => match l with [] => false | _ => true end
  | PyDict m => negb (bool_decide (m = ∅))
  | PyRecord _ => true
  | PyObj _ => true
  end.

(** [len(v)] *)
Definition len (v : pyval) : result Z :=
  match v with
  | PyStr s => Ok (py_len s)
  | PyList l => Ok (Z.of_nat (length l))
  | PyDict m => Ok (Z.of_nat (size m))
  | _ => Raise (TypeError "object has no len()")
  end.

Definition string_of_Z (z : Z) : string :=
  DecimalString.NilEmpty.string_of_int (Z.to_int z).

(** A relative [pathlib] path, as the sequence of its parts; its
    [parents] are its proper prefixes, longest first, down to [Path('.')]. *)
Abbreviation PurePath := (list string).

Definition parents (p : PurePath) : list PurePath :=
  map (fun k => firstn k p) (rev (seq 0 (length p))).

Section Web.

(** [str((build_dir / theme_path).resolve())]: depends on the file
    system and the working directory. *)
Variable resolve : string → string → string.
(** [str(v)] for the values that are neither [None], a string, an
    integer nor a boolean. *)
Variable str_of_object : pyval → string.

(** [str(v)], what a replacement field of [str.format] shows. *)
Definition py_str (v : pyval) : string :=
  match v with
  | PyNone => "None"
  | PyBool true => "True"
  | PyBool false => "False"
  | PyInt z => string_of_Z z
  | PyStr s => s
  | _ => str_of_object v
  end.

(** [template.format( **kwargs )] as Python's formatter computes it.  It
    stands for the part of the format language that is not spelled out
    below: format specifications, conversions, attribute and index
    lookups, positional fields. *)
Variable str_format : string → list (string * pyval) → result string.

Definition is_name_start (c : ascii) : bool :=
  let n := nat_of_ascii c in
  ((65 <=? n)%nat && (n <=? 90)%nat) || ((97 <=? n)%nat && (n <=? 122)%nat)
  || Ascii.eqb c "_"%char.

Definition is_name_char (c : ascii) : bool :=
  let n := nat_of_ascii c in
  is_name_start c || ((48 <=? n)%nat && (n <=? 57)%nat).

(** [template.format( **kwargs )], read from left to right.  Literal text
    is copied, [{{] and [}}] are the escaped braces, and a replacement
    field [{name}] whose name is an identifier shows [str] of the keyword
    argument of that name, or raises [KeyError].  From the first
    replacement field of any other form on, the rest of the template is
    left to [str_format].  [field] is the name being read and the
    template from its opening brace on, if the scan is inside a
    replacement field. *)
Fixpoint format_scan (kwargs : list (string * pyval))
    (field : option (string * string)) (s : string) : result string :=
  match s, field with
  | EmptyString, None => Ok EmptyString
  | EmptyString, Some _ => Raise (ValueError "expected '}' before end of string")
  | String c s', Some (name, whole) =>
      if Ascii.eqb c "}"%char then
        if String.eqb name "" then str_format whole kwargs
        else
          match List.find (fun kv => String.eqb kv.1 name) kwargs with
          | Some kv => rest ← format_scan kwargs None s'; Ok (py_str kv.2 +:+ rest)
          | None => Raise (KeyError name)
          end
      else if (if String.eqb name "" then is_name_start c else is_name_char c)
      then format_scan kwargs (Some (name +:+ String c EmptyString, whole)) s'
      else str_format whole kwargs
  | String c s', None =>
      if Ascii.eqb c "{"%char then
        match s' with
        | String c' s'' =>
            if Ascii.eqb c' "{"%char
            then rest ← format_scan kwargs None s''; Ok (String c rest)
            else format_scan kwargs (Some (EmptyString, s)) s'
        | EmptyString => Raise (ValueError "Single '{' encountered in format string")
        end
      else if Ascii.eqb c "}"%char then
        match s' with
        | String c' s'' =>
            if Ascii.eqb c' "}"%char
            then rest ← format_scan kwargs None s''; Ok (String c rest)
            else Raise (ValueError "Single '}' encountered in format string")
        | EmptyString => Raise (ValueError "Single '}' encountered in format string")
        end
      else rest ← format_scan kwargs None s'; Ok (String c rest)
  end.

(** [self.force_theme.path if self.force_theme else self.theme.path] *)
Definition theme_path (c : Course) : string :=
  match force_theme c with
  | Some t => path t
  | None => path (theme c)
  end.

(** [d.get(k)] *)
Definition dict_get (d : dict) (k : string) : pyval := default PyNone (d !! k).

(** [Chirun.get_web_root]; the course comes back with [root_url] stored
    in its configuration. *)
Definition get_web_root (c : Course) : result (string * Course) :=
  let base := dict_get (config c) "base_dir" in
  let code := dict_get (config c) "code" in
  let year := dict_get (config c) "year" in
  c ← match config c !! "root_url" with
      | Some _ => Ok c
      | None =>
          let root_url := "/{base}/" in
          let root_url := if truthy code then root_url +:+ "{code}/" else root_url in
          themes ← subscript (config c) "themes";
          n ← len themes;
          let root_url := if 1 <? n then root_url +:+ "{theme}/" else root_url in
          Ok (with_config (<["root_url" := PyStr root_url]> (config c)) c)
      end;
  if negb (args_absolute c) || force_relative_build c then
    Ok (resolve (build_dir c) (theme_path c) +:+ "/", c)
  else
    match dict_get (config c) "root_url" with
    | PyStr template =>
        root ← format_scan
          [("base", base); ("code", code); ("year", year);
           ("theme", PyStr (theme_path c))] None template;
        Ok (root, c)
    | _ => Raise (AttributeError "format")
    end.

(** [Chirun.make_relative_url(item, url)].  The item enters through
    [item.out_file], a relative path. *)
Definition make_relative_url (c : Course) (item_out_file : PurePath) (url : string)
    : result (string * Course) :=
  '(root, c) ← get_web_root c;
  if args_absolute c then
    if negb (String.eqb (slice_to url (py_len root - 1)) (slice_from root 1))
    then Ok (root +:+ url, c)
    else Ok ("/" +:+ url, c)
  else
    let levels := Z.of_nat (length (parents item_out_file)) - 1 in
    let url :=
      if String.eqb (slice_to url (py_len root - 1)) (slice_from root 1)
      then slice_from url (py_len root - 1)
      else url in
    match force_theme c with
    | Some t =>
        Ok (str_join "/" (list_times ".." (levels + 1)) +:+ "/" +:+ path t +:+ "/" +:+ url, c)
    | None =>
        if 0 <? levels
        then Ok (str_join "/" (list_times ".." levels) +:+ "/" +:+ url, c)
        else Ok (url, c)
    end.

End Web.

(** ** Loading the structure ([Chirun.load_structure]) *)

(** Modelled from the spec: [is_index] is an attribute of the item classes
    of [chirun/item.py], which is not among the sources at hand; the
    loader "scans the resulting list for any item with type
    introduction". *)
Definition is_index (it : Item) : bool :=
  String.eqb (type (cls it)) "introduction".

(** The entries of [config['structure']] are item records. *)
Definition as_record (v : pyval) : result data :=
  match v with
  | PyRecord d => Ok d
  | _ => Raise (TypeError "structure entry is not an item record")
  end.

(** [{'type': 'introduction'}] *)
Definition index_record : data :=
  mkData (Some "introduction") None None None None.

Section Structure.

Variable slugify : string → string.

(** [Chirun.load_structure] *)
Definition load_structure (c : Course) : result Course :=
  v ← subscript (config c) "structure";
  match v with
  | PyList objs =>
      records ← for_each as_record objs;
      '(st, h) ← load_items slugify records None (store c);
      items ← deref_all h st;
      if existsb (fun item => is_index item.2) items
      then Ok (with_structure st h c)
      else
        '(a, h') ← load_item slugify index_record None h;
        Ok (with_structure (st ++ [a]) h' c)
  | _ => Raise (TypeError "structure is not a list")
  end.

End Structure.

(** ** The processing pipeline ([Chirun.process]) *)

Inductive processor_class :=
  | SlugCollisionProcess
  | LastBuiltProcess
  | PDFProcess
  | NotebookProcess
  | RenderProcess.

#[global] Instance processor_class_eq_dec : EqDecision processor_class.
Proof. solve_decision. Defined.

Definition processor_classes : list processor_class :=
  [SlugCollisionProcess; LastBuiltProcess; PDFProcess; NotebookProcess;
   RenderProcess].

Section Pipeline.

(** Whatever the processors act on (output files, caches, logs). *)
Variable World : Type.
(** The [process] module is outside the core: a processor is known by
    its [num_runs] and by what [visit] does to the world. *)
Variable num_runs : processor_class → Z.
Variable visit : processor_class → addr → World → result World.

(** [for item in self.structure: processor.visit(item)] *)
Fixpoint visit_items (p : processor_class) (items : list addr) (w : World)
    : result World :=
  match items with
  | [] => Ok w
  | item :: items' => w' ← visit p item w; visit_items p items' w'
  end.

(** [for n in range(k): ...] *)
Fixpoint run_passes (p : processor_class) (k : nat) (items : list addr) (w : World)
    : result World :=
  match k with
  | O => Ok w
  | S k' => w' ← visit_items p items w; run_passes p k' items w'
  end.

Fixpoint run_processors (ps : list processor_class) (items : list addr) (w : World)
    : result World :=
  match ps with
  | [] => Ok w
  | p :: ps' =>
      w' ← run_passes p (Z.to_nat (num_runs p)) items w;
      run_processors ps' items w'
  end.

(** [Chirun.process] (the log messages left out) *)
Definition process (c : Course) (w : World) : result World :=
  run_processors processor_classes (structure c) w.

(** The visits the pipeline is meant to make, in order: for each
    processor of the pipeline, [num_runs] times over, every item of the
    top-level structure. *)
Definition visit_schedule (c : Course) : list (processor_class * addr) :=
  p ← processor_classes;
  _ ← seq 0 (Z.to_nat (num_runs p));
  item ← structure c;
  [(p, item)].

(** Making a list of visits one after the other, stopping at the first
    that raises. *)
Fixpoint run_visits (vs : list (processor_class * addr)) (w : World) : result World :=
  match vs with
  | [] => Ok w
  | (p, item) :: vs' => w' ← visit p item w; run_visits vs' w'
  end.

End Pipeline.

(** ** The manifest ([Chirun.save_manifest]) *)

Section Manifest.

(** [item.content_tree()] belongs to [chirun/item.py]. *)
Variable content_tree : heap → addr → pyval.
(** [yaml.dump] and [json.dump], as the text they write. *)
Variable yaml_dump : dict → result string.
Variable json_dump : dict → result string.

(** [del d[k]] *)
Definition del (d : dict) (k : string) : result dict :=
  match d !! k with
  | Some _ => Ok (delete k d)
  | None => Raise (KeyError k)
  end.

(** The changes [save_manifest] makes to [self.config], which [manifest]
    is another name of. *)
Definition manifest_of (c : Course) : result dict :=
  let manifest := config c in
  let manifest :=
    dict_update manifest
      [("structure", PyList (content_tree (store c) <$> structure c))] in
  manifest ← del manifest "args";
  del manifest "static_dir".

(** [Chirun.save_manifest]: the course and the files after a normal
    return. *)
Definition save_manifest (c : Course) (files : gmap string string)
    : result (Course * gmap string string) :=
  let manifest_path := os_path.join (build_dir c) ["MANIFEST.yml"] in
  manifest ← manifest_of c;
  let c := with_config manifest c in
  y ← yaml_dump manifest;
  let files := <[manifest_path := y]> files in
  j ← json_dump manifest;
  let files := <[os_path.join (build_dir c) ["MANIFEST.json"] := j]> files in
  Ok (c, files).

End Manifest.

(** ** More of [makeCourse/item.py] *)

(** [Item.__str__] *)
Definition Item_str (self : Item) : string :=
  type (cls self) +:+ " " +:+ title self.

(** [Item.markdown], the method of the base class. *)
Definition Item_markdown (self : Item) : result (option string) :=
  Raise (NotImplementedError "Item does not implement the markdown method").

(** [os.path.basename]: what follows the last separator. *)
Definition basename (p : string) : string :=
  match os_path.rfind os_path.is_sep p with
  | Some i => str_drop (S i) p
  | None => p
  end.

(** [Item.in_file] (the [splitext] it also calls has no effect on the
    result). *)
Definition in_file (self : Item) : string := basename (source self).

(** [Item.base_file] *)
Definition base_file (self : Item) : string :=
  (os_path.splitext (in_file self)).1.

(** ** Configuration and themes ([chirun/cli.py]) *)

(** A [pathlib] path as the program builds it: [Path(s)], or [p / name]. *)
Inductive Path :=
  | Path_of (s : string)
  | Path_div (p : Path) (name : string).

(** The command-line arguments the configuration code reads. *)
Record Args := mkArgs {
  args_dir : string;
  args_config_file : option string;
  args_single_file : option string
}.

(** Truth value of an optional string argument: [None] and [''] are
    false. *)
Definition given (o : option string) : bool :=
  match o with
  | Some s => negb (String.eqb s "")
  | None => false
  end.

(** [Chirun.mathjax_url] *)
Definition mathjax_url : string :=
  "https://cdn.jsdelivr.net/npm/mathjax@3/es5/tex-mml-chtml.js".

(** [Chirun.get_root_dir] *)
Definition get_root_dir (args : Args) : Path := Path_of (args_dir args).

(** [Chirun.get_config_file] *)
Definition get_config_file (args : Args) : Path :=
  if given (args_config_file args)
  then Path_of (default "" (args_config_file args))
  else Path_div (get_root_dir args) "config.yml".

(** [Chirun.get_main_file] *)
Definition get_main_file (args : Args) : Path :=
  if given (args_single_file args)
  then Path_of (default "" (args_single_file args))
  else get_config_file args.

(** The structure entry [load_config] writes for a single file. *)
Definition standalone_entry (single_file : string) : pyval :=
  PyDict (dict_of [
    ("type", PyStr "standalone");
    ("sidebar", PyBool false);
    ("topbar", PyBool false);
    ("footer", PyBool true);
    ("source", PyStr single_file)
  ]).

Section Config.

(** The objects stored in the configuration as they are: a path, and the
    argument namespace. *)
Variable path_object : Path → pyval.
Variable args_object : Args → pyval.
(** [datetime.datetime.now().year] *)
Variable current_year : Z.
(** The file system: whether a path exists, and what [yaml.load] makes of
    the file there. *)
Variable exists_ : Path → bool.
Variable load_yaml : Path → pyval.
(** [str(path)] *)
Variable str_of_path : Path → string.
(** [d.update(v)] for a [v] that is neither a plain mapping nor [None]. *)
Variable update_from_iterable : dict → pyval → result dict.

(** [Chirun.default_config] *)
Definition default_config (args : Args) : dict :=
  let root_dir := get_root_dir args in
  dict_of [
    ("static_dir", path_object (Path_div root_dir "static"));
    ("build_pdf", PyBool true);
    ("num_pdf_runs", PyInt 1);
    ("year", PyInt current_year);
    ("format_version", PyInt 2);
    ("mathjax_url", PyStr mathjax_url);
    ("themes", PyList [PyDict (dict_of [
        ("title", PyStr "Default");
        ("source", PyStr "default");
        ("path", PyStr ".")])])
  ].

(** [d.update(v)]: the entries of a mapping [v] replace those of [d]. *)
Definition update (d : dict) (v : pyval) : result dict :=
  match v with
  | PyDict m => Ok (m ∪ d)
  | PyNone => Raise (TypeError "'NoneType' object is not iterable")
  | _ => update_from_iterable d v
  end.

(** [Chirun.load_config], as the value it leaves in [self.config]. *)
Definition load_config (args : Args) : result dict :=
  let config := default_config args in
  let config_file := get_config_file args in
  config ←
    (if exists_ config_file then update config (load_yaml config_file)
     else
       match args_single_file args with
       | None =>
           Raise (Exception ("The config file " +:+ str_of_path config_file
                             +:+ " does not exist."))
       | Some _ => Ok config
       end);
  let config :=
    if given (args_single_file args)
    then dict_update config
           [("structure",
             PyList [standalone_entry (default "" (args_single_file args))])]
    else config in
  Ok (<["args" := args_object args]> config).

(** Where the package lives: [Path(__file__).parent] and
    [Path(chirun.__file__).parent]. *)
Variable module_dir : Path.
Variable package_dir : Path.

(** [Path(v)] *)
Definition to_path (v : pyval) : result Path :=
  match v with
  | PyStr s => Ok (Path_of s)
  | _ => Raise (TypeError "expected str, bytes or os.PathLike object")
  end.

(** [Chirun.theme_directories], as the list of the paths it yields. *)
Definition theme_directories (args : Args) (config : dict) : result (list Path) :=
  first ←
    match config !! "themes_dir" with
    | Some v => p ← to_path v; Ok [p]
    | None => Ok []
    end;
  Ok (first ++ [Path_div (get_root_dir args) "themes";
                Path_div module_dir "themes";
                Path_div package_dir "themes";
                Path_of "themes"]).

(** The loop of [find_theme] over the directories. *)
Fixpoint first_existing (name : string) (dirs : list Path) : option Path :=
  match dirs with
  | [] => None
  | d :: dirs' =>
      if exists_ (Path_div d name) then Some (Path_div d name)
      else first_existing name dirs'
  end.

(** [Chirun.find_theme]; [path / name] needs [name] to be a string. *)
Definition find_theme (args : Args) (config : dict) (name : pyval) : result Path :=
  dirs ← theme_directories args config;
  match name with
  | PyStr name =>
      match first_existing name dirs with
      | Some p => Ok p
      | None => Raise (Exception ("Couldn't find theme " +:+ name))
      end
  | _ => Raise (TypeError "unsupported operand type(s) for /")
  end.

(** [Theme(self, name, source, theme_data)], of the [theme] module. *)
Variable new_theme : pyval → Path → pyval → Theme.

(** [theme_data['source']] *)
Definition theme_source (theme_data : pyval) : result pyval :=
  match theme_data with
  | PyDict m => subscript m "source"
  | PyRecord d =>
      match d_source d with
      | Some s => Ok (PyStr s)
      | None => Raise (KeyError "source")
      end
  | _ => Raise (TypeError "theme entry is not a mapping")
  end.

(** [Chirun.load_themes], as the list it leaves in [self.themes]. *)
Definition load_themes (args : Args) (config : dict) : result (list Theme) :=
  themes ← subscript config "themes";
  match themes with
  | PyList l =>
      for_each (fun theme_data =>
                  name ← theme_source theme_data;
                  source ← find_theme args config name;
                  Ok (new_theme name source theme_data)) l
  | PyStr s =>
      if String.eqb s "" then Ok []
      else Raise (TypeError "string indices must be integers")
  | PyDict m =>
      if bool_decide (m = ∅) then Ok []
      else Raise (TypeError "string indices must be integers")
  | PyRecord (mkData None None None None None) => Ok []
  | PyRecord _ => Raise (TypeError "string indices must be integers")
  | PyNone | PyBool _ | PyInt _ | PyObj _ =>
      Raise (TypeError "object is not iterable")
  end.

End Config.

(** * Stand-ins and examples *)

(** ** Stand-ins for the collaborators, to run the code on examples *)

(** A slug function for the examples: lower-case letters, and a hyphen
    for a space. *)
Definition sample_slugify_char (c : ascii) : ascii :=
  let n := nat_of_ascii c in
  if (65 <=? n)%nat && (n <=? 90)%nat then ascii_of_nat (n + 32)
  else if Ascii.eqb c " "%char then "-"%char
  else c.

Fixpoint sample_slugify (s : string) : string :=
  match s with
  | EmptyString => EmptyString
  | String c s' => String (sample_slugify_char c) (sample_slugify s')
  end.

Definition sample_theme : Theme :=
  {| path := "."; yaml_of_theme := PyDict ∅; alt_themes_yaml := PyList [] |}.

Definition sample_config (structure : list data) : dict :=
  dict_of [
    ("static_dir", PyObj "PosixPath('course/static')");
    ("build_pdf", PyBool true);
    ("num_pdf_runs", PyInt 1);
    ("year", PyInt 2024);
    ("format_version", PyInt 2);
    ("themes", PyList [PyDict (dict_of [("title", PyStr "Default");
                                        ("source", PyStr "default");
                                        ("path", PyStr ".")])]);
    ("author", PyStr "A. Lecturer");
    ("code", PyStr "code");
    ("base_dir", PyStr "base");
    ("structure", PyList (PyRecord <$> structure));
    ("args", PyObj "Namespace()")
  ].

Definition sample_course (absolute : bool) (structure : list data) : Course :=
  {| args_absolute := absolute;
     force_relative_build := false;
     force_theme := None;
     theme := sample_theme;
     root_dir := "course";
     build_dir := "/base/code";
     config := sample_config structure;
     structure := [];
     store := [] |}.

(** The Markdown source of the front-matter example. *)
Definition front_matter_example : string :=
  "---" +:+ nl +:+ "title: x" +:+ nl +:+ "---" +:+ nl +:+ "Body".

Definition sample_item (src : string) : Item :=
  {| cls := Chapter; parent := None;
     item_data := mkData (Some "chapter") None (Some src) None None;
     title := "Untitled chapter"; slug := "untitled-chapter";
     source := src; is_hidden := false; content := [] |}.

(** The structure of the end-to-end example: a part holding one chapter
    whose source is [a.md]. *)
Definition part_with_chapter : data :=
  mkData (Some "part") None None None
    (Some [mkData (Some "chapter") None (Some "a.md") None None]).

Definition part_with_chapter_store : heap :=
  Eval vm_compute in
    match load_item sample_slugify part_with_chapter None [] with
    | Ok (_, h) => h
    | Raise _ => []
    end.

(** The example course once loaded: the part at 0, its chapter at 1, and
    the index item the loader adds at 2. *)
Definition loaded_course : Course :=
  with_structure [0; 2]%nat
    (part_with_chapter_store
       ++ [init_item sample_slugify Introduction index_record None])
    (sample_course false [part_with_chapter]).

(** A part that holds an introduction. *)
Definition part_with_introduction : data :=
  mkData (Some "part") (Some "Unit 1") None None
    (Some [mkData (Some "introduction") (Some "Welcome") None None None]).

Definition chapter_titled (t : string) : data :=
  mkData (Some "chapter") (Some t) None None None.

Definition part_titled (t : string) (children : list data) : data :=
  mkData (Some "part") (Some t) None None (Some children).

Definition url_record : data :=
  mkData (Some "url") (Some "Forum") (Some "https://example.org/") None None.

Definition sample_resolve (build_dir theme_path : string) : string := build_dir.
Definition sample_str_of_object (v : pyval) : string := "<object>".

(** The examples use plain field names only; the stand-in for the rest
    of the format language is never reached by them. *)
Definition sample_str_format (template : string) (kwargs : list (string * pyval))
    : result string :=
  Raise (ValueError template).

(** The sample course once [get_web_root] has stored the root template. *)
Definition sample_course_rooted (absolute : bool) : Course :=
  with_config (<["root_url" := PyStr "/{base}/{code}/"]> (sample_config []))
              (sample_course absolute []).

(** An [out_file] two levels down: [unit-1/intro/index.html]. *)
Definition two_levels_deep : PurePath := ["unit-1"; "intro"; "index.html"].

Definition sample_content_tree (h : heap) (a : addr) : pyval :=
  match h !! a with
  | Some it => PyStr (title it)
  | None => PyNone
  end.

(** ** A course with every kind of item *)

(** A part holding a chapter, hidden slides, a recap and a link, followed
    by a chapter at the top level. *)
Definition rich_structure : list data :=
  [mkData (Some "part") (Some "Unit 1") None None
     (Some [mkData (Some "chapter") (Some "Intro") (Some "a.md") None None;
            mkData (Some "slides") (Some "Deck") (Some "deck.tex") (Some true) None;
            mkData (Some "recap") (Some "Recap") (Some "r.md") None None;
            mkData (Some "url") (Some "Forum") (Some "https://example.org/") None None]);
   mkData (Some "chapter") (Some "Appendix") (Some "notes/app.md") None None].

(** The store after loading it: the part at 0, its children at 1 to 4,
    the top-level chapter at 5, and the index item at 6. *)
Definition rich_store : heap :=
  Eval vm_compute in
    match load_items sample_slugify rich_structure None [] with
    | Ok (_, h) => h ++ [init_item sample_slugify Introduction index_record None]
    | Raise _ => []
    end.

Definition rich_course : Course :=
  with_structure [0; 5; 6]%nat rich_store (sample_course false rich_structure).

(** A record tree with a child of a type that is not registered. *)
Definition part_with_standalone : data :=
  mkData (Some "part") None None None
    (Some [mkData (Some "chapter") None None None None;
           mkData (Some "standalone") None None None None]).

(** Stand-ins for the configuration code. *)
Definition sample_args : Args :=
  {| args_dir := "course"; args_config_file := None; args_single_file := None |}.

Definition sample_single_args : Args :=
  {| args_dir := "course"; args_config_file := None;
     args_single_file := Some "notes.md" |}.

Fixpoint sample_str_of_path (p : Path) : string :=
  match p with
  | Path_of s => s
  | Path_div q name => sample_str_of_path q +:+ "/" +:+ name
  end.

Definition sample_path_object (p : Path) : pyval := PyObj (sample_str_of_path p).
Definition sample_args_object (a : Args) : pyval := PyObj "Namespace()".

Definition sample_loaded_yaml : dict :=
  dict_of [("author", PyStr "A. Lecturer"); ("build_pdf", PyBool false);
           ("themes_dir", PyStr "my-themes")].

Definition sample_update (d : dict) (v : pyval) : result dict :=
  Raise (TypeError "not a mapping").

(** A world that counts the visits made, and a PDF processor that fails. *)
Definition counting_visit (p : processor_class) (item : addr) (w : nat) : result nat :=
  Ok (S w).

Definition failing_pdf_visit (p : processor_class) (item : addr) (w : nat)
    : result nat :=
  match p with
  | PDFProcess => Raise (Exception "pdf")
  | _ => Ok (S w)
  end.

(** * Vocabulary of the statements *)

(** The objects [new], stored from address [base] on, refer to their
    children within [new], and each child refers back to its parent. *)
Definition closed_from (base : nat) (new : heap) : Prop :=
  ∀ k it ch, new !! k = Some it → ch ∈ content it →
    ∃ k' child, ch = (base + k')%nat ∧ new !! k' = Some child
                ∧ parent child = Some (base + k)%nat.

(** Parent/child consistency of a store. *)
Definition parent_child_consistent (h : heap) : Prop :=
  ∀ i it ch, h !! i = Some it → ch ∈ content it →
    ∃ child, h !! ch = Some child ∧ parent child = Some i.

Section LoadedItems.

Variable slugify : string → string.

(** What [load_item] makes of a record [d] loaded under [p]. *)
Definition loaded_as (d : data) (p : option addr) (it : Item) : Prop :=
  ∃ ty c, d_type d = Some ty ∧ item_types !! ty = Some c
          ∧ it = set_content (content it) (init_item slugify c d p).

(** What a successful [load_item] and [load_items] leave in the store:
    the old objects untouched, the new ones appended. *)
Definition load_item_post (d : data) (p : option addr) (h : heap)
    (a : addr) (h' : heap) : Prop :=
  a = length h ∧
  ∃ it rest, h' = h ++ it :: rest ∧ loaded_as d p it
             ∧ closed_from (length h) (it :: rest).

Definition load_items_post (ds : list data) (p : option addr) (h : heap)
    (cs : list addr) (h' : heap) : Prop :=
  ∃ new, h' = h ++ new ∧ closed_from (length h) new
         ∧ Forall2 (fun a d => ∃ k it, a = (length h + k)%nat
                                ∧ new !! k = Some it ∧ loaded_as d p it) cs ds.

(** The store [load_structure] builds for the example structure. *)
Definition example_store : heap :=
  [set_content [1%nat] (init_item slugify Part part_with_chapter None);
   init_item slugify Chapter
     (mkData (Some "chapter") None (Some "a.md") None None) (Some 0%nat);
   init_item slugify Introduction index_record None].

End LoadedItems.

(** The number of index items among the objects [st] refers to. *)
Definition index_items (h : heap) (st : list addr) : nat :=
  length (List.filter
            (fun a => match h !! a with Some it => is_index it | None => false end)
            st).

(** The number of records whose type is [introduction]. *)
Definition introduction_records (ds : list data) : nat :=
  length (List.filter
            (fun d => bool_decide (d_type d = Some "introduction")) ds).

(** Every record of the tree names a registered type. *)
Fixpoint well_typed (d : data) : bool :=
  match d with
  | mkData ty _ _ _ co =>
      match ty with
      | Some t => bool_decide (is_Some (item_types !! t))
      | None => false
      end
      && match co with
         | Some ds => forallb well_typed ds
         | None => true
         end
  end.

Section Example.

Variable slugify : string → string.
Variable read_file : string → option string.
Variable burnInExtras : string → bool → string → string.
Variable load_latex_content : Item → string.
Variable yaml_header : dict → string.

(** What the example comes to: the course [c'] with the part at 0 and
    the chapter at 1, the header of the chapter's markdown, and the entry
    of the chapter in the header's [chapters] list. *)
Definition chapter_in_part (c : Course) (depth : nat) (text : string)
    (force_local : bool) (out_format : string) : Prop :=
  ∃ c' part chapter header entry,
    load_structure slugify c = Ok c'
    ∧ structure c' = [0; 2]%nat
    ∧ store c' !! 0%nat = Some part ∧ cls part = Part ∧ content part = [1%nat]
    ∧ store c' !! 1%nat = Some chapter ∧ cls chapter = Chapter
    ∧ parent chapter = Some 0%nat ∧ source chapter = "a.md"
    ∧ Chapter_header (S depth) c' 1 = Ok header
    ∧ header !! "part-slug" = Some (PyStr (slug part))
    ∧ header !! "chapters" = Some (PyList [PyDict entry])
    ∧ entry !! "active" = Some (PyInt 1)
    ∧ entry !! "slug" = Some (PyStr (slug chapter))
    ∧ Chapter_markdown read_file burnInExtras load_latex_content yaml_header
        (S depth) c' 1 force_local out_format
      = Ok (yaml_header header +:+ nl +:+ nl
            +:+ burnInExtras (strip_front_matter text) force_local out_format).

End Example.

(** [n] times [../] *)
Fixpoint dotdots (n : nat) : string :=
  match n with
  | O => ""
  | S n' => "../" +:+ dotdots n'
  end.

Section RoundTrip.

Variable resolve : string → string → string.
Variable str_of_object : pyval → string.
Variable str_format : string → list (string * pyval) → result string.

(** What C3 comes to for a course [c] whose web root is [/base/code/]
    and an item whose [out_file] is [out_file]. *)
Definition relative_round_trip (c c' : Course) (out_file : PurePath) : Prop :=
  (args_absolute c = false →
     (∀ u, make_relative_url resolve str_of_object str_format c out_file
             ("base/code/" +:+ u)
           = Ok (dotdots (length (parents out_file) - 1) +:+ u, c'))
     ∧ (length (parents out_file) = 3%nat →
          make_relative_url resolve str_of_object str_format c out_file
            "base/code/foo/bar.html"
          = Ok ("../../foo/bar.html", c')
          ∧ make_relative_url resolve str_of_object str_format c out_file
              "/base/code/foo/bar.html"
            = Ok ("../..//base/code/foo/bar.html", c')))
  ∧ (args_absolute c = true →
       make_relative_url resolve str_of_object str_format c out_file
         "../../foo/bar.html"
       = Ok ("/base/code/../../foo/bar.html", c')
       ∧ occurrences "/base/code/" "/base/code/../../foo/bar.html" = 1%nat
       ∧ make_relative_url resolve str_of_object str_format c out_file
           "foo/bar.html"
         = Ok ("/base/code/foo/bar.html", c')
       ∧ make_relative_url resolve str_of_object str_format c out_file
           "base/code/foo/bar.html"
         = Ok ("/base/code/foo/bar.html", c')
       ∧ occurrences "/base/code/" "/base/code/foo/bar.html" = 1%nat).

End RoundTrip.

(** The visits of [k] passes of one processor. *)
Definition passes (p : processor_class) (k : nat) (items : list addr)
    : list (processor_class * addr) :=
  _ ← seq 0 k; item ← items; [(p, item)].

(** The items one processor visits, in order. *)
Definition visits_of (p : processor_class) (vs : list (processor_class * addr))
    : list addr :=
  (List.filter (fun v => bool_decide (v.1 = p)) vs).*2.

(** The number of records in a record tree. *)
Fixpoint data_size (d : data) : nat :=
  match d with
  | mkData _ _ _ _ co =>
      S (match co with
         | Some ds => list_sum (map data_size ds)
         | None => 0
         end)
  end.

(** The references of [l] to objects that are not hidden. *)
Definition visible (h : heap) (l : list addr) : list addr :=
  List.filter
    (fun j => match h !! j with
              | Some it => negb (is_hidden it)
              | None => false
              end) l.

(** The top-level items that navigation lists: not an introduction, not
    hidden. *)
Definition navigable (c : Course) : list addr :=
  List.filter
    (fun j => match store c !! j with
              | Some it => negb (String.eqb (type (cls it)) "introduction")
                           && negb (is_hidden it)
              | None => false
              end) (structure c).

(** No newline in [s]. *)
Definition single_line (s : string) : bool :=
  forallb (fun c => negb (Ascii.eqb c (ascii_of_nat 10))) (list_ascii_of_string s).

(** The records of a tree in the order [load_item] meets them: a record,
    then the records of its sub-trees from left to right. *)
Fixpoint records (d : data) : list data :=
  d :: match d with
       | mkData _ _ _ _ co =>
           match co with
           | Some ds => concat (map records ds)
           | None => []
           end
       end.

(** The record names a registered type. *)
Definition registered (r : data) : bool :=
  match d_type r with
  | Some t => bool_decide (is_Some (item_types !! t))
  | None => false
  end.

(** * Properties *)

(** ** Front matter *)

Lemma sub_scan_off_start fuel flags p repl limited left pos s :
  re.sub_scan fuel flags (re.Bol :: p) repl limited left (S pos) s = s.
Proof.
  revert left pos s. induction fuel as [|fuel IH]; intros left pos s; [done|].
  simpl. destruct (limited && Nat.eqb left 0); [done|].
  destruct s as [|c s]; [done|]. by rewrite IH.
Qed.

(** With the flags that [get_content] passes, the pattern does not reach
    past the end of the first line. *)
Lemma front_matter_re_first_line rest :
  re.match_here 0 front_matter_re 0 ("---" +:+ nl +:+ rest) = None.
Proof. reflexivity. Qed.

Lemma strip_front_matter_delimiter_line rest :
  strip_front_matter ("---" +:+ nl +:+ rest) = "---" +:+ nl +:+ rest.
Proof.
  unfold strip_front_matter, re.sub.
  change (slice_to ("---" +:+ nl +:+ rest) 3) with "---".
  rewrite String.eqb_refl.
  cbn [String.length re.sub_scan].
  change (negb (re.S =? 0) && Nat.eqb (Z.to_nat re.S) 0) with false. cbv iota.
  rewrite front_matter_re_first_line.
  change ("---" +:+ nl +:+ rest) with (String "-" (String "-" (String "-" (nl +:+ rest)))).
  cbv iota. unfold front_matter_re. by rewrite sub_scan_off_start.
Qed.

(** Had [re.S] been passed as [flags], the block would go. *)
Example front_matter_with_dotall_flag :
  re.sub front_matter_re "" front_matter_example 0 re.S = "Body".
Proof. reflexivity. Qed.

Section ContentFacts.

Variable read_file : string → option string.
Variable burnInExtras : string → bool → string → string.
Variable load_latex_content : Item → string.

(** C1, on the code: a Markdown source that opens with a front-matter
    delimiter line, such as the three-line header [---], [title: x],
    [---] followed by [Body], reaches the enrichment step whole:
    [get_content] removes nothing of the block, because [re.S] lands in
    the [count] parameter of [re.sub] and [.] stops at the line end. *)
Theorem get_content_front_matter_kept (c : Course) (self : Item)
    (force_local : bool) (out_format rest : string) :
  (os_path.splitext (source self)).2 = ".md" →
  read_file (os_path.join (root_dir c) [source self])
    = Some ("---" +:+ nl +:+ rest) →
  get_content read_file burnInExtras load_latex_content c self
              force_local out_format
    = Ok (burnInExtras ("---" +:+ nl +:+ rest) force_local out_format).
Proof.
  intros Hext Hfile. unfold get_content. rewrite Hext. cbn [String.eqb].
  change (String.eqb ".md" ".md") with true. cbv iota.
  rewrite Hfile. by rewrite strip_front_matter_delimiter_line.
Qed.

(** C6, on the code: for a source whose extension is neither [.md] nor
    [.tex], [get_content] raises [NameError] for the name [ch], which
    nothing binds; the message that names the item and its source is
    never built. *)
Theorem get_content_unsupported_source (c : Course) (self : Item)
    (force_local : bool) (out_format : string) :
  (os_path.splitext (source self)).2 ≠ ".md" →
  (os_path.splitext (source self)).2 ≠ ".tex" →
  get_content read_file burnInExtras load_latex_content c self
              force_local out_format
    = Raise (NameError "ch").
Proof.
  intros Hmd Htex. unfold get_content.
  destruct (String.eqb_spec (os_path.splitext (source self)).2 ".md"); [done|].
  destruct (String.eqb_spec (os_path.splitext (source self)).2 ".tex"); [done|].
  reflexivity.
Qed.

End ContentFacts.

Lemma get_content_front_matter_kept_witness :
  get_content (fun _ => Some front_matter_example) (fun s _ _ => s)
              (fun _ => "") (sample_course false []) (sample_item "a.md")
              false "html"
  = Ok front_matter_example
  ∧ front_matter_example ≠ "Body".
Proof.
  split; [|done].
  apply (get_content_front_matter_kept (fun _ => Some front_matter_example)
           (fun s _ _ => s) (fun _ => "") (sample_course false [])
           (sample_item "a.md") false "html"
           ("title: x" +:+ nl +:+ "---" +:+ nl +:+ "Body")); reflexivity.
Defined.

Lemma get_content_unsupported_source_witness :
  get_content (fun _ => None) (fun s _ _ => s) (fun _ => "")
              (sample_course false []) (sample_item "notes.txt") false "html"
  = Raise (NameError "ch").
Proof.
  apply (get_content_unsupported_source (fun _ => None) (fun s _ _ => s)
           (fun _ => "") (sample_course false []) (sample_item "notes.txt")
           false "html"); vm_compute; discriminate.
Defined.

(** ** The loader *)

(** Induction on a record with its sub-records. *)
Lemma data_induction (P : data → Prop) :
  (∀ ty ti so hi co, Forall P (default [] co) → P (mkData ty ti so hi co)) →
  ∀ d, P d.
Proof.
  intros step. fix IH 1. intros [ty ti so hi co]. apply step.
  destruct co as [ds|]; [|constructor]. cbn [default from_option id].
  induction ds as [|d ds IHds]; constructor; [apply IH|exact IHds].
Qed.

Lemma closed_from_nil base : closed_from base [].
Proof. intros k it ch H. by rewrite lookup_nil in H. Qed.

Lemma closed_from_app base new1 new2 :
  closed_from base new1 →
  closed_from (base + length new1) new2 →
  closed_from base (new1 ++ new2).
Proof.
  intros H1 H2 k it ch Hk Hch.
  destruct (decide (k < length new1)%nat) as [Hlt|Hge].
  - rewrite lookup_app_l in Hk by done.
    destruct (H1 k it ch Hk Hch) as (k' & child & -> & Hk' & Hp).
    exists k', child. split_and!; [done| |done].
    by apply lookup_app_l_Some.
  - rewrite lookup_app_r in Hk by lia.
    destruct (H2 _ it ch Hk Hch) as (k' & child & -> & Hk' & Hp).
    exists (length new1 + k')%nat, child. split_and!; [lia| |].
    + rewrite lookup_app_r by lia. by replace (length new1 + k' - length new1)%nat with k' by lia.
    + rewrite Hp. f_equal. lia.
Qed.

Lemma consistent_app h new :
  parent_child_consistent h →
  closed_from (length h) new →
  parent_child_consistent (h ++ new).
Proof.
  intros Hh Hnew i it ch Hi Hch.
  destruct (decide (i < length h)%nat) as [Hlt|Hge].
  - rewrite lookup_app_l in Hi by done.
    destruct (Hh i it ch Hi Hch) as (child & Hc & Hp).
    exists child. split; [|done]. by apply lookup_app_l_Some.
  - rewrite lookup_app_r in Hi by lia.
    destruct (Hnew _ it ch Hi Hch) as (k' & child & -> & Hk' & Hp).
    exists child. split.
    + rewrite lookup_app_r by lia. by replace (length h + k' - length h)%nat with k' by lia.
    + rewrite Hp. f_equal. lia.
Qed.

Section LoaderFacts.

Variable slugify : string → string.

(** The children loop inside [load_item] is [load_items]. *)
Lemma load_item_unfold d p h :
  load_item slugify d p h =
    match d_type d with
    | None => Raise (KeyError "type")
    | Some ty =>
        match item_types !! ty with
        | None => Raise (KeyError ty)
        | Some c =>
            match load_items slugify (default [] (d_content d))
                    (Some (length h)) (h ++ [init_item slugify c d p]) with
            | Raise e => Raise e
            | Ok (cs, h') =>
                Ok (length h,
                    <[length h := set_content cs (init_item slugify c d p)]> h')
            end
        end
    end.
Proof.
  destruct d as [ty ti so hi co]. cbn [load_item d_type d_content].
  destruct ty as [ty|]; [|done].
  destruct (item_types !! ty) as [c|]; [|done].
  destruct co as [ds|]; [|done]. cbn [default from_option id].
  generalize (h ++ [init_item slugify c (mkData (Some ty) ti so hi (Some ds)) p]).
  generalize (init_item slugify c (mkData (Some ty) ti so hi (Some ds)) p).
  intros obj h0.
  match goal with
  | |- match ?f ds h0 with _ => _ end = _ =>
      assert (∀ h1, f ds h1 = load_items slugify ds (Some (length h)) h1) as ->
  end; [|done].
  induction ds as [|d' ds IH]; intros h1; [done|].
  cbn [load_items]. destruct (load_item slugify d' (Some (length h)) h1) as [[a h2]|e]; [|done].
  by rewrite IH.
Qed.

Lemma load_items_spec ds :
  Forall (fun d => ∀ p h a h', load_item slugify d p h = Ok (a, h') →
                     load_item_post slugify d p h a h') ds →
  ∀ p h cs h', load_items slugify ds p h = Ok (cs, h') →
    load_items_post slugify ds p h cs h'.
Proof.
  induction 1 as [|d ds Hd _ IH]; intros p h cs h' Hload; cbn [load_items] in Hload.
  - inversion Hload; subst. exists []. rewrite app_nil_r.
    split_and!; [done|apply closed_from_nil|constructor].
  - destruct (load_item slugify d p h) as [[a h1]|e] eqn:E1; [|done].
    destruct (load_items slugify ds p h1) as [[cs' h2]|e] eqn:E2; [|done].
    inversion Hload; subst; clear Hload.
    destruct (Hd _ _ _ _ E1) as (-> & it & rest & -> & Hit & Hcl1).
    destruct (IH _ _ _ _ E2) as (new2 & -> & Hcl2 & Hall).
    exists ((it :: rest) ++ new2). split_and!.
    + by rewrite <- app_assoc.
    + apply closed_from_app; [done|]. by rewrite length_app in Hcl2.
    + constructor.
      * exists 0%nat, it. split_and!; [lia|done|done].
      * eapply Forall2_impl; [exact Hall|].
        intros a d' (k & it' & -> & Hk & Hl).
        exists (length (it :: rest) + k)%nat, it'. split_and!; [|  |done].
        -- rewrite length_app. lia.
        -- rewrite lookup_app_r by lia.
           by replace (length (it :: rest) + k - length (it :: rest))%nat with k by lia.
Qed.

Lemma load_item_spec d p h a h' :
  load_item slugify d p h = Ok (a, h') → load_item_post slugify d p h a h'.
Proof.
  revert p h a h'. induction d as [ty ti so hi co IH] using data_induction.
  intros p h a h'. rewrite load_item_unfold. cbn [d_type d_content].
  destruct ty as [ty|]; [|done].
  destruct (item_types !! ty) as [c|] eqn:Hc; [|done].
  set (d := mkData (Some ty) ti so hi co).
  destruct (load_items slugify (default [] co) (Some (length h))
              (h ++ [init_item slugify c d p])) as [[cs h1]|e] eqn:E; [|done].
  intros Hload; inversion Hload; subst a h'; clear Hload.
  destruct (load_items_spec _ IH _ _ _ _ E) as (new & -> & Hcl & Hall).
  split; [done|].
  exists (set_content cs (init_item slugify c d p)), new. split_and!.
  - rewrite <- app_assoc. cbn [app].
    rewrite insert_app_r_alt by lia. by rewrite Nat.sub_diag.
  - exists ty, c. by split_and!.
  - rewrite length_app in Hcl, Hall. cbn [length] in Hcl, Hall.
    intros k it ch Hk Hch. destruct k as [|k]; cbn in Hk.
    + inversion Hk; subst it; clear Hk. cbn in Hch.
      destruct (proj1 (list_elem_of_lookup _ _) Hch) as [j Hj].
      destruct (Forall2_lookup_l _ _ _ _ _ Hall Hj) as (d' & _ & k' & child & -> & Hk' & Hl).
      exists (S k'), child. split_and!; [lia|done|].
      destruct Hl as (ty' & c' & _ & _ & ->). cbn. f_equal. lia.
    + destruct (Hcl k it ch Hk Hch) as (k' & child & -> & Hk' & Hp).
      exists (S k'), child. split_and!; [lia|done|]. rewrite Hp. f_equal. lia.
Qed.

Lemma load_items_ok ds p h cs h' :
  load_items slugify ds p h = Ok (cs, h') → load_items_post slugify ds p h cs h'.
Proof.
  apply load_items_spec, Forall_forall. intros d _ ????. apply load_item_spec.
Qed.

End LoaderFacts.

Lemma item_types_type ty c : item_types !! ty = Some c → ty = type c.
Proof.
  intros H. apply elem_of_list_to_map_2 in H.
  repeat (apply elem_of_cons in H as [H|H]; [by inversion H|]).
  by apply elem_of_nil in H.
Qed.

Lemma item_types_registered c : item_types !! type c = Some c.
Proof. by destruct c. Qed.

Lemma deref_all_ok h st :
  Forall (fun a => is_Some (h !! a)) st →
  ∃ items, deref_all h st = Ok items ∧ items.*1 = st
           ∧ Forall (fun item => h !! item.1 = Some item.2) items.
Proof.
  induction 1 as [|a st [it Ha] _ (items & IH & Hfst & Hall)].
  - by exists [].
  - exists ((a, it) :: items). split_and!; [|by cbn; f_equal|by constructor].
    unfold deref_all in *. cbn [for_each]. rewrite IH.
    unfold deref. by rewrite Ha.
Qed.

Section StructureFacts.

Variable slugify : string → string.

Lemma loaded_as_is_index d p it :
  loaded_as slugify d p it →
  is_index it = bool_decide (d_type d = Some "introduction").
Proof.
  intros (ty & c & Hty & Hc & ->). rewrite Hty. unfold is_index. cbn.
  apply item_types_type in Hc as ->.
  by destruct c.
Qed.

Lemma loaded_as_parent d p it : loaded_as slugify d p it → parent it = p.
Proof. by intros (ty & c & _ & _ & ->). Qed.

(** The index record always loads, as one new object. *)
Lemma load_index_record h :
  load_item slugify index_record None h
  = Ok (length h, h ++ [init_item slugify Introduction index_record None]).
Proof.
  rewrite load_item_unfold.
  change (d_type index_record) with (Some (type Introduction)). cbv beta iota.
  rewrite item_types_registered.
  change (default [] (d_content index_record)) with (@nil data).
  cbn [load_items]. rewrite insert_app_r_alt by lia.
  by rewrite Nat.sub_diag.
Qed.

Lemma index_items_app h st1 st2 :
  index_items h (st1 ++ st2) = (index_items h st1 + index_items h st2)%nat.
Proof. unfold index_items. by rewrite List.filter_app, length_app. Qed.

Lemma index_items_grow h new st :
  Forall (fun a => is_Some (h !! a)) st →
  index_items (h ++ new) st = index_items h st.
Proof.
  unfold index_items. induction 1 as [|a st [it Ha] _ IH]; [done|].
  cbn [List.filter]. rewrite (lookup_app_l_Some _ _ _ _ Ha), Ha.
  destruct (is_index it); cbn [length]; by rewrite IH.
Qed.

Lemma index_items_loaded h st ds :
  Forall2 (fun a d => ∃ it, h !! a = Some it ∧ loaded_as slugify d None it) st ds →
  index_items h st = introduction_records ds.
Proof.
  unfold index_items, introduction_records.
  induction 1 as [|a d st ds (it & Ha & Hl) _ IH]; [done|].
  cbn [List.filter]. rewrite Ha, (loaded_as_is_index _ _ _ Hl).
  destruct (bool_decide _); cbn [length]; by rewrite IH.
Qed.

Lemma index_items_exists h st :
  Forall (fun a => is_Some (h !! a)) st →
  ∀ items, deref_all h st = Ok items →
    existsb (fun item => is_index item.2) items = negb (index_items h st =? 0)%nat.
Proof.
  intros Hst items Hitems.
  destruct (deref_all_ok _ _ Hst) as (items' & E & Hfst & Hall).
  rewrite E in Hitems. inversion Hitems; subst items'; clear Hitems E.
  subst st. clear Hst. unfold index_items.
  induction Hall as [|[a it] items Ha _ IH]; [done|].
  cbn [fmap list_fmap fst snd existsb List.filter] in *. rewrite Ha.
  destruct (is_index it); [done|]. cbn. exact IH.
Qed.

Lemma for_each_as_record objs records :
  for_each as_record objs = Ok records → objs = PyRecord <$> records.
Proof.
  revert records. induction objs as [|v objs IH]; intros records H; cbn in H.
  - by inversion H.
  - destruct v; try done. cbn in H.
    destruct (for_each as_record objs) as [rs|e]; [|done].
    cbn in H. inversion H; subst. cbn. f_equal. by apply IH.
Qed.

End StructureFacts.

Lemma consistent_nil : parent_child_consistent [].
Proof. intros i it ch H. by rewrite lookup_nil in H. Qed.

Section TreeInvariant.

Variable slugify : string → string.

(** C9: in the store [load_item] leaves, every element of an item's
    [content] has that item as its [parent], and the item just loaded
    has the [parent] it was loaded with: [None] at the top level. *)
Theorem load_item_parent_child (d : data) (p : option addr) (h : heap)
    (a : addr) (h' : heap) :
  parent_child_consistent h →
  load_item slugify d p h = Ok (a, h') →
  parent_child_consistent h' ∧ ∃ it, h' !! a = Some it ∧ parent it = p.
Proof.
  intros Hh Hload.
  destruct (load_item_spec _ _ _ _ _ _ Hload) as (-> & it & rest & -> & Hit & Hcl).
  split; [by apply consistent_app|].
  exists it. split; [|by eapply loaded_as_parent].
  rewrite lookup_app_r by lia. by rewrite Nat.sub_diag.
Qed.

(** The same for a whole list of records, as [load_structure] loads it. *)
Lemma load_items_parent_child ds p h cs h' :
  parent_child_consistent h →
  load_items slugify ds p h = Ok (cs, h') →
  parent_child_consistent h'
  ∧ Forall (fun a => ∃ it, h' !! a = Some it ∧ parent it = p) cs.
Proof.
  intros Hh Hload.
  destruct (load_items_ok _ _ _ _ _ _ Hload) as (new & -> & Hcl & Hall).
  split; [by apply consistent_app|].
  clear Hload.
  induction Hall as [|a d cs ds (k & it & -> & Hk & Hl) _ IH]; constructor; [|done].
  exists it. split; [|by eapply loaded_as_parent].
  rewrite lookup_app_r by lia.
  by replace (length h + k - length h)%nat with k by lia.
Qed.

End TreeInvariant.

Lemma load_item_parent_child_witness :
  parent_child_consistent part_with_chapter_store
  ∧ ∃ it, part_with_chapter_store !! 0%nat = Some it ∧ parent it = None.
Proof.
  apply (load_item_parent_child sample_slugify part_with_chapter None []
           0%nat part_with_chapter_store).
  - exact consistent_nil.
  - reflexivity.
Defined.

Section StructureInvariant.

Variable slugify : string → string.

#[local] Arguments load_item : simpl never.
#[local] Arguments load_items : simpl never.

(** C2, as the code has it: after [load_structure] the number of index
    items in the top-level structure is the number of [introduction]
    records given, or one when none was given; so there is at least one,
    found by iterating the structure, and exactly one whenever the
    records hold at most one.  Every record accounts for one item, in
    order, and when no record is an introduction the loader appends, at
    the end, an index item made from [{'type': 'introduction'}]. *)
Theorem load_structure_index (c c' : Course) :
  load_structure slugify c = Ok c' →
  ∃ records st,
    config c !! "structure" = Some (PyList (PyRecord <$> records))
    ∧ Forall2 (fun a d => ∃ it, store c' !! a = Some it
                            ∧ loaded_as slugify d None it) st records
    ∧ index_items (store c') (structure c')
      = Nat.max 1 (introduction_records records)
    ∧ (∃ a it, a ∈ structure c' ∧ store c' !! a = Some it
               ∧ is_index it = true)
    ∧ ((0 < introduction_records records)%nat → structure c' = st)
    ∧ (introduction_records records = 0%nat →
         ∃ a, structure c' = st ++ [a]
              ∧ store c' !! a
                = Some (init_item slugify Introduction index_record None)).
Proof.
  unfold load_structure, subscript. intros H.
  destruct (config c !! "structure") as [v|] eqn:Hcfg; [|done]. cbn in H.
  destruct v as [| | | |objs| | |]; try done.
  destruct (for_each as_record objs) as [records|] eqn:Hrec; [|done].
  apply for_each_as_record in Hrec as ->. cbn in H.
  destruct (load_items slugify records None (store c)) as [[st h]|] eqn:Hload;
    [|done]. cbn in H.
  destruct (load_items_ok _ _ _ _ _ _ Hload) as (new & -> & Hcl & Hall).
  assert (Forall2 (fun a d => ∃ it, (store c ++ new) !! a = Some it
                              ∧ loaded_as slugify d None it) st records) as Hst.
  { eapply Forall2_impl; [exact Hall|]. intros a d (k & it & -> & Hk & Hl).
    exists it. split; [|done]. rewrite lookup_app_r by lia.
    by replace (length (store c) + k - length (store c))%nat with k by lia. }
  assert (Forall (fun a => is_Some ((store c ++ new) !! a)) st) as Hsome.
  { clear -Hst. induction Hst as [|???? (it & Ha & _)]; constructor; eauto. }
  pose proof (index_items_loaded _ _ _ _ Hst) as Hcount.
  destruct (deref_all_ok _ _ Hsome) as (items & Hitems & _ & _).
  rewrite Hitems in H. cbn in H.
  rewrite (index_items_exists _ _ Hsome _ Hitems), Hcount in H.
  exists records, st. split; [done|].
  destruct (introduction_records records) as [|n] eqn:Hn; cbn in H.
  - rewrite load_index_record in H. cbn in H. inversion H; subst c'; clear H.
    cbn [store structure with_structure].
    assert ((store c ++ new ++ [init_item slugify Introduction index_record None])
              !! length (store c ++ new)
            = Some (init_item slugify Introduction index_record None)) as Hidx.
    { rewrite app_assoc, lookup_app_r by lia. by rewrite Nat.sub_diag. }
    rewrite <- app_assoc. split_and!.
    + eapply Forall2_impl; [exact Hst|]. intros a d (it & Ha & Hl).
      exists it. split; [|done]. rewrite app_assoc. by apply lookup_app_l_Some.
    + rewrite index_items_app. rewrite app_assoc.
      rewrite index_items_grow by done. rewrite Hcount.
      unfold index_items. cbn [List.filter]. rewrite <- app_assoc, Hidx. done.
    + exists (length (store c ++ new)), (init_item slugify Introduction index_record None).
      split_and!; [|done|done].
      apply elem_of_app. right. by apply list_elem_of_singleton.
    + lia.
    + intros _. eexists. split; [done|exact Hidx].
  - inversion H; subst c'; clear H. cbn [store structure with_structure].
    split_and!; [done| |  |done|done].
    + rewrite Hcount. lia.
    + assert (index_items (store c ++ new) st ≠ 0%nat) as Hne by lia.
      clear -Hne Hsome. unfold index_items in Hne.
      induction Hsome as [|a st [it Ha] _ IH]; [done|].
      cbn [List.filter] in Hne. rewrite Ha in Hne.
      destruct (is_index it) eqn:Hi.
      * exists a, it. split_and!; [|done|done]. apply elem_of_cons. by left.
      * destruct (IH Hne) as (a' & it' & Hin & Ha' & Hi').
        exists a', it'. split_and!; [|done|done]. apply elem_of_cons. by right.
Qed.

End StructureInvariant.

Example load_structure_example :
  load_structure sample_slugify (sample_course false [part_with_chapter])
  = Ok loaded_course.
Proof. vm_compute. reflexivity. Qed.

Lemma load_structure_index_witness :
  ∃ records st,
    config (sample_course false [part_with_chapter]) !! "structure"
      = Some (PyList (PyRecord <$> records))
    ∧ Forall2 (fun a d => ∃ it, store loaded_course !! a = Some it
                            ∧ loaded_as sample_slugify d None it) st records
    ∧ index_items (store loaded_course) (structure loaded_course)
      = Nat.max 1 (introduction_records records)
    ∧ (∃ a it, a ∈ structure loaded_course ∧ store loaded_course !! a = Some it
               ∧ is_index it = true)
    ∧ ((0 < introduction_records records)%nat → structure loaded_course = st)
    ∧ (introduction_records records = 0%nat →
         ∃ a, structure loaded_course = st ++ [a]
              ∧ store loaded_course !! a
                = Some (init_item sample_slugify Introduction index_record None)).
Proof.
  apply (load_structure_index sample_slugify
           (sample_course false [part_with_chapter]) loaded_course).
  vm_compute. reflexivity.
Defined.

(** Two introduction records give two index items: the loader adds an
    index item when there is none, and removes none. *)
Lemma load_structure_two_introductions :
  ∃ c', load_structure sample_slugify
          (sample_course false [index_record; index_record]) = Ok c'
        ∧ structure c' = [0; 1]%nat
        ∧ index_items (store c') (structure c') = 2%nat
        ∧ index_items (store c') (structure c') ≠ 1%nat.
Proof.
  eexists. split; [vm_compute; reflexivity|]. split_and!; [reflexivity..|].
  vm_compute. discriminate.
Qed.

(** ** Output paths *)

(** An introduction keeps the path [index] under a parent too: it is not
    [[parent.slug, slug]]. *)
Lemma out_path_nested_introduction :
  ∃ h part intro,
    load_item sample_slugify part_with_introduction None [] = Ok (0%nat, h)
    ∧ h !! 0%nat = Some part ∧ h !! 1%nat = Some intro
    ∧ parent intro = Some 0%nat
    ∧ out_path h intro = Ok ["index"]
    ∧ out_path h intro ≠ Ok [slug part; slug intro].
Proof.
  eexists _, _, _. split; [vm_compute; reflexivity|].
  split_and!; try reflexivity. discriminate.
Qed.

Section OutPath.

Variable slugify : string → string.

(** C4, as the code has it: an introduction has the fixed path [index];
    a part has [[slug]], with or without a parent; any other item has
    [[slug]] without a parent and [[parent.slug, slug]] with one.  A
    top-level chapter titled [Intro] gets [['intro']], and under a part
    whose slug is [unit-1] it gets [['unit-1', 'intro']]. *)
Theorem out_path_by_class (h : heap) (self : Item) :
  (cls self = Introduction → out_path h self = Ok ["index"])
  ∧ (cls self = Part → out_path h self = Ok [slug self])
  ∧ (cls self ≠ Introduction → parent self = None →
       out_path h self = Ok [slug self])
  ∧ (cls self ≠ Introduction → cls self ≠ Part →
       ∀ p pobj, parent self = Some p → h !! p = Some pobj →
         out_path h self = Ok [slug pobj; slug self])
  ∧ (slugify "Intro" = "intro" →
       (∃ h' it, load_item slugify (chapter_titled "Intro") None [] = Ok (0%nat, h')
                 ∧ h' !! 0%nat = Some it ∧ out_path h' it = Ok ["intro"])
       ∧ ∀ t, slugify t = "unit-1" →
           ∃ h' it, load_item slugify (part_titled t [chapter_titled "Intro"]) None []
                      = Ok (0%nat, h')
                    ∧ h' !! 1%nat = Some it ∧ parent it = Some 0%nat
                    ∧ out_path h' it = Ok ["unit-1"; "intro"]).
Proof.
  unfold out_path. split_and!.
  - by intros ->.
  - by intros ->.
  - intros Hc Hp. rewrite Hp. by destruct (cls self).
  - intros Hi Hp p pobj Hpar Hobj. rewrite Hpar. unfold deref. rewrite Hobj.
    by destruct (cls self).
  - intros Hintro. split.
    + eexists _, _. split; [vm_compute; reflexivity|].
      split; [reflexivity|]. cbn. by rewrite Hintro.
    + intros t Ht. eexists _, _. split; [vm_compute; reflexivity|].
      split; [reflexivity|]. split; [reflexivity|]. cbn. by rewrite Hintro, Ht.
Qed.

End OutPath.

Lemma out_path_by_class_witness :
  ∃ h it, load_item sample_slugify (part_titled "Unit 1" [chapter_titled "Intro"])
            None [] = Ok (0%nat, h)
          ∧ h !! 1%nat = Some it ∧ parent it = Some 0%nat
          ∧ out_path h it = Ok ["unit-1"; "intro"].
Proof.
  refine (proj2 (proj2 (proj2 (proj2 (proj2
            (out_path_by_class sample_slugify [] (sample_item "a.md"))))) _)
            "Unit 1" _);
    reflexivity.
Defined.

(** ** YAML mappings *)

#[local] Arguments dict_update : simpl never.
#[local] Arguments dict_of : simpl never.

Lemma dict_update_subseteq (base d : dict) kvs :
  base ⊆ d →
  Forall (fun kv => base !! kv.1 = None) kvs →
  base ⊆ dict_update d kvs.
Proof.
  unfold dict_update. intros Hsub Hall. revert d Hsub.
  induction Hall as [|[k v] kvs Hk _ IH]; intros d Hsub; [done|].
  cbn [fold_left]. apply IH. by apply insert_subseteq_r.
Qed.

Lemma not_base_field k :
  k ∉ "active" :: base_fields ↔
  k ≠ "active" ∧ k ≠ "title" ∧ k ≠ "author" ∧ k ≠ "code" ∧ k ≠ "year"
  ∧ k ≠ "slug" ∧ k ≠ "theme" ∧ k ≠ "alt_themes".
Proof.
  unfold base_fields. rewrite !not_elem_of_cons. rewrite elem_of_nil. tauto.
Qed.

(** The keys of the mapping [Item.yaml] returns. *)
Lemma Item_yaml_keys c self active base :
  Item_yaml c self active = Ok base →
  (∀ k, k ∈ base_fields → is_Some (base !! k))
  ∧ (∀ k, k ∉ "active" :: base_fields → base !! k = None)
  ∧ (active = true → base !! "active" = Some (PyInt 1)).
Proof.
  unfold Item_yaml, subscript.
  destruct (config c !! "author") as [author|]; [|done].
  destruct (config c !! "code") as [code|]; [|done].
  destruct (config c !! "year") as [year|]; [|done].
  cbn. intros H; inversion H; subst base; clear H.
  unfold dict_of, dict_update. cbn [fold_left fst snd]. split_and!.
  - intros k Hk. unfold base_fields in Hk.
    assert (is_Some ((<["alt_themes":=alt_themes_yaml (theme c)]>
               (<["theme":=yaml_of_theme (theme c)]>
                  (<["slug":=PyStr (slug self)]>
                     (<["year":=year]>
                        (<["code":=code]>
                           (<["author":=author]>
                              (<["title":=PyStr (title self)]> (∅ : dict)))))))) !! k)) as Hs.
    { repeat (apply elem_of_cons in Hk as [->|Hk];
                [repeat (rewrite lookup_insert_ne by done);
                 rewrite lookup_insert_eq; by eexists|]).
      by apply elem_of_nil in Hk. }
    destruct active; [|done].
    apply lookup_insert_is_Some. destruct (decide ("active" = k)); tauto.
  - intros k Hk. apply not_base_field in Hk as (?&?&?&?&?&?&?&?).
    destruct active; rewrite ?lookup_insert_ne by done; apply lookup_empty.
  - intros ->. apply lookup_insert_eq.
Qed.

Lemma Item_yaml_fresh c self active base k :
  Item_yaml c self active = Ok base →
  k ∉ "active" :: base_fields → base !! k = None.
Proof. intros H. apply Item_yaml_keys in H as (_ & H & _). apply H. Qed.

Ltac fresh_keys H :=
  repeat (first [apply List.Forall_nil | apply List.Forall_cons]);
  cbn [fst]; apply (Item_yaml_fresh _ _ _ _ _ H), not_base_field; done.

Lemma Chapter_yaml_extends c self active m :
  Chapter_yaml c self active = Ok m →
  ∃ base, Item_yaml c self active = Ok base ∧ base ⊆ m.
Proof.
  unfold Chapter_yaml. destruct (Item_yaml c self active) as [base|] eqn:Hb; [|done].
  cbn. destruct (subscript (config c) "build_pdf") as [b|]; [|done]. cbn.
  destruct (url (store c) self) as [u|]; [|done]. cbn.
  intros H; inversion H; subst m; clear H. exists base. split; [done|].
  apply dict_update_subseteq; [done|]. fresh_keys Hb.
Qed.

Section YamlLayers.

Variables (depth : nat) (c : Course) (i : addr) (self : Item) (active : bool).

(** C7, as the code has it: for an item of any class but [Url], the
    mapping [yaml(active)] returns contains the base mapping of
    [Item.yaml] unchanged, field for field (title, author, code, year,
    slug, theme, alt_themes), and carries the marker [active: 1] when
    [active] is true.  [Url.yaml] does not call the base: it returns
    [title] and [external_url] only, whatever [active] is. *)
Theorem yaml_extends_base :
  store c !! i = Some self →
  (cls self ≠ Url →
     ∀ m, yaml depth c i active = Ok m →
       ∃ base, Item_yaml c self active = Ok base
               ∧ base ⊆ m
               ∧ (∀ k, k ∈ base_fields → is_Some (base !! k) ∧ m !! k = base !! k)
               ∧ (active = true → m !! "active" = Some (PyInt 1)))
  ∧ (cls self = Url → depth ≠ 0%nat →
       yaml depth c i active
       = Ok (dict_of [("title", PyStr (title self));
                      ("external_url", PyStr (source self))])).
Proof.
  intros Hself. split.
  - intros Hcls m Hm.
    assert (∃ base, Item_yaml c self active = Ok base ∧ base ⊆ m) as (base & Hb & Hsub).
    { destruct depth as [|depth']; [done|]. cbn [yaml] in Hm.
      unfold deref in Hm. rewrite Hself in Hm. cbn in Hm.
      destruct (cls self) eqn:Hc; try done.
      - by exists m.
      - destruct (Item_yaml c self active) as [base|] eqn:Hb; [|done]. cbn in Hm.
        destruct (deref_all (store c) (content self)) as [items|]; [|done]. cbn in Hm.
        destruct (for_each _ _) as [chapters|]; [|done]. cbn in Hm.
        inversion Hm; subst m; clear Hm. exists base. split; [done|].
        apply dict_update_subseteq; [done|]. fresh_keys Hb.
      - by apply Chapter_yaml_extends.
      - unfold Slides_yaml in Hm.
        destruct (Chapter_yaml c self active) as [cy|] eqn:Hcy; [|done]. cbn in Hm.
        destruct (url (store c) self) as [u|]; [|done]. cbn in Hm.
        inversion Hm; subst m; clear Hm.
        apply Chapter_yaml_extends in Hcy as (base & Hb & Hsub).
        exists base. split; [done|].
        apply dict_update_subseteq; [done|]. fresh_keys Hb.
      - unfold Recap_yaml in Hm.
        destruct (Chapter_yaml c self active) as [cy|] eqn:Hcy; [|done]. cbn in Hm.
        destruct (url (store c) self) as [u|]; [|done]. cbn in Hm.
        inversion Hm; subst m; clear Hm.
        apply Chapter_yaml_extends in Hcy as (base & Hb & Hsub).
        exists base. split; [done|].
        apply dict_update_subseteq; [done|]. fresh_keys Hb. }
    exists base. destruct (Item_yaml_keys _ _ _ _ Hb) as (Hkeys & _ & Hact).
    split_and!; [done|done| |].
    + intros k Hk. destruct (Hkeys k Hk) as [v Hv]. split; [by exists v|].
      rewrite Hv. by apply (lookup_weaken base).
    + intros Ha. apply (lookup_weaken base); [by apply Hact|done].
  - intros Hcls Hd. destruct depth as [|depth']; [done|]. cbn [yaml].
    unfold deref. rewrite Hself. cbn. by rewrite Hcls.
Qed.

End YamlLayers.

(** [Url.yaml] leaves the base fields out, and the [active] marker too. *)
Lemma yaml_url_without_base_fields :
  ∃ c self base,
    load_structure sample_slugify (sample_course false [url_record]) = Ok c
    ∧ store c !! 0%nat = Some self ∧ cls self = Url
    ∧ Item_yaml c self true = Ok base
    ∧ base !! "author" = Some (PyStr "A. Lecturer")
    ∧ yaml 1 c 0 true
      = Ok (dict_of [("title", PyStr "Forum");
                     ("external_url", PyStr "https://example.org/")])
    ∧ dict_of [("title", PyStr "Forum");
               ("external_url", PyStr "https://example.org/")] !! "author" = None
    ∧ dict_of [("title", PyStr "Forum");
               ("external_url", PyStr "https://example.org/")] !! "active" = None.
Proof.
  eexists _, _, _. split; [vm_compute; reflexivity|].
  split; [reflexivity|]. split; [reflexivity|].
  split; [vm_compute; reflexivity|].
  split_and!; vm_compute; reflexivity.
Qed.

Lemma yaml_extends_base_witness :
  ∃ self m,
    store loaded_course !! 1%nat = Some self
    ∧ yaml 1 loaded_course 1 true = Ok m
    ∧ ∃ base, Item_yaml loaded_course self true = Ok base
              ∧ base ⊆ m
              ∧ (∀ k, k ∈ base_fields → is_Some (base !! k) ∧ m !! k = base !! k)
              ∧ (true = true → m !! "active" = Some (PyInt 1)).
Proof.
  eexists _, _. split; [reflexivity|].
  split; [vm_compute; reflexivity|].
  apply (proj1 (yaml_extends_base 1 loaded_course 1 _ true eq_refl));
    [discriminate|vm_compute; reflexivity].
Defined.

(** ** The end-to-end example *)

Lemma Item_yaml_ok c self active author code year :
  config c !! "author" = Some author →
  config c !! "code" = Some code →
  config c !! "year" = Some year →
  Item_yaml c self active
  = Ok (let item_yaml := dict_of [
            ("title", PyStr (title self)); ("author", author); ("code", code);
            ("year", year); ("slug", PyStr (slug self));
            ("theme", yaml_of_theme (theme c));
            ("alt_themes", alt_themes_yaml (theme c))] in
        if active then <["active" := PyInt 1]> item_yaml else item_yaml).
Proof.
  intros Ha Hc Hy. unfold Item_yaml, subscript. by rewrite Ha, Hc, Hy.
Qed.

Lemma Chapter_yaml_ok c self active author code year build_pdf u :
  config c !! "author" = Some author →
  config c !! "code" = Some code →
  config c !! "year" = Some year →
  config c !! "build_pdf" = Some build_pdf →
  url (store c) self = Ok u →
  ∃ base, Item_yaml c self active = Ok base
    ∧ Chapter_yaml c self active
      = Ok (dict_update base [
              ("build_pdf", build_pdf); ("file", PyStr (u +:+ ".html"));
              ("pdf", PyStr (u +:+ ".pdf")); ("sidebar", PyBool true)]).
Proof.
  intros Ha Hc Hy Hb Hu. eexists. split; [by apply Item_yaml_ok|].
  unfold Chapter_yaml, subscript.
  rewrite (Item_yaml_ok _ _ _ _ _ _ Ha Hc Hy), Hb, Hu. reflexivity.
Qed.

Lemma dict_update_lookup_fresh (d : dict) kvs k :
  Forall (fun kv => kv.1 ≠ k) kvs → dict_update d kvs !! k = d !! k.
Proof.
  unfold dict_update. intros H. revert d.
  induction H as [|[k' v] kvs Hk _ IH]; intros d; [done|].
  cbn [fold_left]. rewrite IH. by apply lookup_insert_ne.
Qed.

Section EndToEnd.

Variable slugify : string → string.
Variable read_file : string → option string.
Variable burnInExtras : string → bool → string → string.
Variable load_latex_content : Item → string.
Variable yaml_header : dict → string.

Lemma load_structure_part_with_chapter c :
  store c = [] →
  config c !! "structure" = Some (PyList [PyRecord part_with_chapter]) →
  load_structure slugify c = Ok (with_structure [0; 2]%nat (example_store slugify) c).
Proof.
  intros Hstore Hcfg. unfold load_structure, subscript. rewrite Hcfg, Hstore.
  reflexivity.
Qed.

(** C5: for the structure [[{type: part, content: [{type: chapter,
    source: "a.md"}]}]], loaded into a course whose configuration has the
    fields every item mapping needs, the header of the chapter's markdown
    has [part-slug] equal to the slug of the part, and a [chapters] list
    of one entry, the chapter itself (same slug), marked [active]; the
    markdown is that header serialised, a blank line, and the enriched
    text of [a.md]. *)
Theorem chapter_in_part_markdown (c : Course) (depth : nat)
    (author code year build_pdf : pyval) (text : string)
    (force_local : bool) (out_format : string) :
  store c = [] →
  config c !! "structure" = Some (PyList [PyRecord part_with_chapter]) →
  config c !! "author" = Some author →
  config c !! "code" = Some code →
  config c !! "year" = Some year →
  config c !! "build_pdf" = Some build_pdf →
  read_file (os_path.join (root_dir c) ["a.md"]) = Some text →
  chapter_in_part slugify read_file burnInExtras load_latex_content yaml_header
    c depth text force_local out_format.
Proof.
  intros Hstore Hcfg Ha Hc Hy Hb Hfile.
  set (c' := with_structure [0; 2]%nat (example_store slugify) c).
  set (chapter := init_item slugify Chapter
         (mkData (Some "chapter") None (Some "a.md") None None) (Some 0%nat)).
  set (part := set_content [1%nat] (init_item slugify Part part_with_chapter None)).
  assert (url (store c') chapter = Ok (slug part +:+ "/" +:+ slug chapter)) as Hu
    by reflexivity.
  destruct (Chapter_yaml_ok c' chapter false _ _ _ _ _ Ha Hc Hy Hb Hu)
    as (base0 & Hbase0 & Hy0).
  destruct (Chapter_yaml_ok c' chapter true _ _ _ _ _ Ha Hc Hy Hb Hu)
    as (base1 & Hbase1 & Hy1).
  assert (yaml (S depth) c' 1 false = Chapter_yaml c' chapter false) as Hyaml0
    by reflexivity.
  assert (yaml (S depth) c' 1 true = Chapter_yaml c' chapter true) as Hyaml1
    by reflexivity.
  assert (Chapter_header (S depth) c' 1
          = header ← yaml (S depth) c' 1 false;
            chapters ← (y ← yaml (S depth) c' 1 true; Ok [y]);
            Ok (<["chapters" := PyList (PyDict <$> chapters)]>
                  (<["part-slug" := PyStr (slug part)]>
                     (<["part" := PyStr (title part)]> header)))) as Hheader.
  { unfold Chapter_header. change (deref (store c') 1) with (Ok chapter).
    cbn [mbind result_bind]. destruct (yaml (S depth) c' 1 false); [|done].
    cbn [mbind result_bind]. change (parent chapter) with (Some 0%nat). cbv iota.
    change (deref (store c') 0) with (Ok part). cbn [mbind result_bind].
    change (deref_all (store c') (content part)) with (Ok [(1%nat, chapter)]).
    cbn [mbind result_bind]. reflexivity. }
  rewrite Hyaml0, Hyaml1, Hy0, Hy1 in Hheader. cbn [mbind result_bind] in Hheader.
  unfold chapter_in_part. eexists c', part, chapter, _, _.
  split; [by apply load_structure_part_with_chapter|].
  do 8 (split; [reflexivity|]).
  split; [exact Hheader|].
  split; [by rewrite lookup_insert_ne, lookup_insert_eq|].
  split; [by rewrite lookup_insert_eq|].
  split.
  { rewrite dict_update_lookup_fresh by (repeat constructor; done).
    by apply (Item_yaml_keys _ _ _ _ Hbase1). }
  split.
  { rewrite dict_update_lookup_fresh by (repeat constructor; done).
    rewrite (Item_yaml_ok c' _ _ _ _ _ Ha Hc Hy) in Hbase1.
    inversion Hbase1; subst base1. cbn zeta.
    rewrite lookup_insert_ne by done. unfold dict_of, dict_update. cbn [fold_left fst snd].
    repeat (rewrite lookup_insert_ne by done). by rewrite lookup_insert_eq. }
  unfold Chapter_markdown. change (deref (store c') 1) with (Ok chapter).
  cbn [mbind result_bind]. rewrite Hheader. cbn [mbind result_bind].
  unfold get_content. change (source chapter) with "a.md".
  change ((os_path.splitext "a.md").2) with ".md".
  change (String.eqb ".md" ".md") with true. cbv iota.
  change (root_dir c') with (root_dir c). by rewrite Hfile.
Qed.

End EndToEnd.

Lemma chapter_in_part_markdown_witness :
  chapter_in_part sample_slugify (fun _ => Some "Plain text.") (fun s _ _ => s)
    (fun _ => "") (fun _ => "---") (sample_course false [part_with_chapter])
    0 "Plain text." false "html".
Proof.
  apply (chapter_in_part_markdown sample_slugify (fun _ => Some "Plain text.")
           (fun s _ _ => s) (fun _ => "") (fun _ => "---")
           (sample_course false [part_with_chapter]) 0
           (PyStr "A. Lecturer") (PyStr "code") (PyInt 2024) (PyBool true)
           "Plain text." false "html"); vm_compute; reflexivity.
Defined.

(** ** URLs *)

Lemma str_app_cons ch (a b : string) : String ch a +:+ b = String ch (a +:+ b).
Proof. reflexivity. Qed.

Lemma str_app_nil (b : string) : "" +:+ b = b.
Proof. reflexivity. Qed.

Lemma str_take_app r u : str_take (String.length r) (r +:+ u) = r.
Proof.
  induction r as [|ch r IH]; [by destruct u|].
  rewrite str_app_cons. cbn [String.length str_take]. by rewrite IH.
Qed.

Lemma str_drop_app r u : str_drop (String.length r) (r +:+ u) = u.
Proof.
  induction r as [|ch r IH]; [done|].
  rewrite str_app_cons. by cbn [String.length str_drop].
Qed.

Lemma slice_bound_root ch r s :
  slice_bound s (py_len (String ch r) - 1) = String.length r.
Proof.
  unfold slice_bound, py_len. cbn [String.length].
  destruct (Z.ltb_spec (Z.of_nat (S (String.length r)) - 1) 0); lia.
Qed.

Lemma slice_from_one ch r : slice_from (String ch r) 1 = r.
Proof. reflexivity. Qed.

Lemma str_app_assoc (a b c : string) : (a +:+ b) +:+ c = a +:+ (b +:+ c).
Proof. induction a as [|ch a IH]; [done|]. by rewrite !str_app_cons, IH. Qed.

Lemma str_join_dotdots n u :
  str_join "/" (repeat ".." (S n)) +:+ "/" +:+ u = dotdots (S n) +:+ u.
Proof.
  induction n as [|n IH]; [done|].
  change (repeat ".." (S (S n))) with (".." :: repeat ".." (S n)).
  change (str_join "/" (".." :: repeat ".." (S n)))
    with (".." +:+ "/" +:+ str_join "/" (repeat ".." (S n))).
  rewrite !str_app_assoc, IH. reflexivity.
Qed.

Section WebFacts.

Variable resolve : string → string → string.
Variable str_of_object : pyval → string.
Variable str_format : string → list (string * pyval) → result string.

Lemma get_web_root_frame c root c' :
  get_web_root resolve str_of_object str_format c = Ok (root, c') →
  args_absolute c' = args_absolute c ∧ force_theme c' = force_theme c.
Proof.
  unfold get_web_root.
  destruct (config c !! "root_url") as [v|].
  - cbn [mbind result_bind].
    destruct (negb (args_absolute c) || force_relative_build c).
    + by intros [= _ <-].
    + destruct (dict_get (config c) "root_url"); try done.
      destruct (format_scan _ _ _ _ _); [|done]. by intros [= _ <-].
  - destruct (subscript (config c) "themes") as [themes|]; [|done].
    cbn [mbind result_bind]. destruct (len themes) as [n|]; [|done].
    cbn [mbind result_bind].
    set (c1 := with_config _ c).
    change (args_absolute c1) with (args_absolute c).
    change (force_relative_build c1) with (force_relative_build c).
    destruct (negb (args_absolute c) || force_relative_build c).
    + by intros [= _ <-].
    + destruct (dict_get (config c1) "root_url"); try done.
      destruct (format_scan _ _ _ _ _); [|done]. by intros [= _ <-].
Qed.

(** Relative mode: a URL that carries the root without its first
    character loses that prefix and gains one [../] per level. *)
Lemma make_relative_url_relative c c' out_file ch r u :
  get_web_root resolve str_of_object str_format c = Ok (String ch r, c') →
  args_absolute c = false →
  force_theme c = None →
  make_relative_url resolve str_of_object str_format c out_file (r +:+ u)
  = Ok (dotdots (length (parents out_file) - 1) +:+ u, c').
Proof.
  intros Hroot Habs Hft. unfold make_relative_url. rewrite Hroot.
  cbn [mbind result_bind].
  destruct (get_web_root_frame _ _ _ Hroot) as [-> ->]. rewrite Habs, Hft.
  unfold slice_to, slice_from. rewrite !slice_bound_root, str_take_app, str_drop_app.
  change (str_drop (slice_bound (String ch r) 1) (String ch r)) with r.
  rewrite String.eqb_refl.
  destruct (length (parents out_file)) as [|[|n]]; [done|done|].
  replace (Z.of_nat (S (S n)) - 1)%Z with (Z.of_nat (S n)) by lia.
  destruct (Z.ltb_spec 0 (Z.of_nat (S n))); [|lia].
  unfold list_times. rewrite Nat2Z.id, str_join_dotdots.
  by replace (S (S n) - 1)%nat with (S n) by lia.
Qed.

(** Relative mode, for a URL that does not carry the root in that form. *)
Lemma make_relative_url_relative_other c c' out_file root url :
  get_web_root resolve str_of_object str_format c = Ok (root, c') →
  args_absolute c = false →
  force_theme c = None →
  slice_to url (py_len root - 1) ≠ slice_from root 1 →
  (0 < length (parents out_file) - 1)%nat →
  make_relative_url resolve str_of_object str_format c out_file url
  = Ok (dotdots (length (parents out_file) - 1) +:+ url, c').
Proof.
  intros Hroot Habs Hft Hne Hlev. unfold make_relative_url. rewrite Hroot.
  cbn [mbind result_bind].
  destruct (get_web_root_frame _ _ _ Hroot) as [-> ->]. rewrite Habs, Hft.
  destruct (String.eqb_spec (slice_to url (py_len root - 1)) (slice_from root 1))
    as [?|_]; [done|].
  destruct (length (parents out_file)) as [|[|n]]; [cbn in Hlev; lia|cbn in Hlev; lia|].
  replace (Z.of_nat (S (S n)) - 1)%Z with (Z.of_nat (S n)) by lia.
  destruct (Z.ltb_spec 0 (Z.of_nat (S n))); [|lia].
  unfold list_times. rewrite Nat2Z.id, str_join_dotdots.
  by replace (S (S n) - 1)%nat with (S n) by lia.
Qed.

(** Absolute mode: the root is put in front, unless the URL carries the
    root without its first character, in which case a [/] is. *)
Lemma make_relative_url_absolute c c' out_file root url :
  get_web_root resolve str_of_object str_format c = Ok (root, c') →
  args_absolute c = true →
  make_relative_url resolve str_of_object str_format c out_file url
  = Ok (if String.eqb (slice_to url (py_len root - 1)) (slice_from root 1)
        then "/" +:+ url else root +:+ url, c').
Proof.
  intros Hroot Habs. unfold make_relative_url. rewrite Hroot.
  cbn [mbind result_bind].
  destruct (get_web_root_frame _ _ _ Hroot) as [-> _]. rewrite Habs.
  by destruct (String.eqb _ _).
Qed.

(** C3, as the code has it.  With web root [/base/code/] and no forced
    theme: in relative mode a URL that carries the root without its
    leading slash, [base/code/...], loses that prefix and gets [../] once
    per level, the levels being [len(item.out_file.parents) - 1]; for two
    levels [base/code/foo/bar.html] becomes [../../foo/bar.html], while
    [/base/code/foo/bar.html], with the leading slash, is not recognised
    and keeps its prefix.  In absolute mode the relative fragment
    [../../foo/bar.html] that came out of the first step becomes
    [/base/code/../../foo/bar.html], with one copy of the root; so do
    [foo/bar.html] and [base/code/foo/bar.html], which both become
    [/base/code/foo/bar.html]. *)
Theorem make_relative_url_round_trip (c c' : Course) (out_file : PurePath) :
  get_web_root resolve str_of_object str_format c = Ok ("/base/code/", c') →
  force_theme c = None →
  relative_round_trip resolve str_of_object str_format c c' out_file.
Proof.
  intros Hroot Hft. split.
  - intros Habs. split.
    + intros u. by apply (make_relative_url_relative c c' out_file "/" "base/code/" u).
    + intros Hlen. split.
      * pose proof (make_relative_url_relative c c' out_file "/" "base/code/"
                      "foo/bar.html" Hroot Habs Hft) as H.
        rewrite Hlen in H. exact H.
      * rewrite (make_relative_url_relative_other c c' out_file "/base/code/")
          by (try done; rewrite Hlen; cbn; lia).
        by rewrite Hlen.
  - intros Habs. split_and!; [|reflexivity| | |reflexivity].
    + by rewrite (make_relative_url_absolute c c' out_file "/base/code/").
    + by rewrite (make_relative_url_absolute c c' out_file "/base/code/").
    + by rewrite (make_relative_url_absolute c c' out_file "/base/code/").
Qed.

End WebFacts.

(** With the leading slash the root prefix is not recognised: the URL of
    the claim does not come out as [../../foo/bar.html]. *)
Lemma make_relative_url_leading_slash :
  get_web_root sample_resolve sample_str_of_object sample_str_format (sample_course false [])
  = Ok ("/base/code/", sample_course_rooted false)
  ∧ Z.of_nat (length (parents two_levels_deep)) - 1 = 2
  ∧ make_relative_url sample_resolve sample_str_of_object sample_str_format (sample_course false [])
      two_levels_deep "/base/code/foo/bar.html"
    = Ok ("../..//base/code/foo/bar.html", sample_course_rooted false)
  ∧ "../..//base/code/foo/bar.html" ≠ "../../foo/bar.html".
Proof.
  split; [vm_compute; reflexivity|]. split; [reflexivity|].
  split; [vm_compute; reflexivity|]. discriminate.
Qed.

Lemma make_relative_url_round_trip_witness :
  make_relative_url sample_resolve sample_str_of_object sample_str_format
    (sample_course false []) two_levels_deep "base/code/foo/bar.html"
  = Ok ("../../foo/bar.html", sample_course_rooted false)
  ∧ make_relative_url sample_resolve sample_str_of_object sample_str_format
      (sample_course true []) two_levels_deep "../../foo/bar.html"
    = Ok ("/base/code/../../foo/bar.html", sample_course_rooted true).
Proof.
  split.
  - assert (get_web_root sample_resolve sample_str_of_object sample_str_format
              (sample_course false [])
            = Ok ("/base/code/", sample_course_rooted false)) as Hroot
      by (vm_compute; reflexivity).
    destruct (make_relative_url_round_trip sample_resolve sample_str_of_object
                sample_str_format (sample_course false [])
                (sample_course_rooted false) two_levels_deep Hroot eq_refl)
      as [Hrel _].
    destruct (Hrel eq_refl) as [_ Hthree].
    exact (proj1 (Hthree eq_refl)).
  - assert (get_web_root sample_resolve sample_str_of_object sample_str_format
              (sample_course true [])
            = Ok ("/base/code/", sample_course_rooted true)) as Hroot
      by (vm_compute; reflexivity).
    destruct (make_relative_url_round_trip sample_resolve sample_str_of_object
                sample_str_format (sample_course true [])
                (sample_course_rooted true) two_levels_deep Hroot eq_refl)
      as [_ Habs].
    exact (proj1 (Habs eq_refl)).
Defined.

(** ** The pipeline *)

Section PipelineFacts.

Variable World : Type.
Variable num_runs : processor_class → Z.
Variable visit : processor_class → addr → World → result World.

Abbreviation run := (run_visits World visit).

Lemma run_visits_app vs1 vs2 w :
  run (vs1 ++ vs2) w = run vs1 w ≫= run vs2.
Proof.
  revert w. induction vs1 as [|[p item] vs1 IH]; intros w; [done|].
  cbn [app run_visits]. destruct (visit p item w) as [w'|e]; [|done].
  cbn [mbind result_bind]. apply IH.
Qed.

Lemma visit_items_run (p : processor_class) (items : list addr) w :
  visit_items World visit p items w = run ((p,.) <$> items) w.
Proof.
  revert w. induction items as [|item items IH]; intros w; [done|].
  cbn [visit_items fmap list_fmap run_visits].
  destruct (visit p item w) as [w'|e]; [|done]. apply IH.
Qed.

Lemma bind_singleton_pair (p : processor_class) (items : list addr) :
  (item ← items; [(p, item)]) = (p,.) <$> items.
Proof.
  induction items as [|item items IH]; [done|]. rewrite bind_cons, IH. done.
Qed.

Lemma bind_const {A B} (l : list A) (g : list B) :
  (_ ← l; g) = concat (replicate (length l) g).
Proof.
  induction l as [|x l IH]; [done|]. rewrite bind_cons, IH. done.
Qed.

Lemma passes_concat (p : processor_class) k (items : list addr) :
  passes p k items = concat (replicate k ((p,.) <$> items)).
Proof.
  unfold passes. by rewrite bind_const, length_seq, bind_singleton_pair.
Qed.

Lemma passes_S (p : processor_class) k (items : list addr) :
  passes p (S k) items = ((p,.) <$> items) ++ passes p k items.
Proof. by rewrite !passes_concat. Qed.

Lemma run_passes_run p k items w :
  run_passes World visit p k items w = run (passes p k items) w.
Proof.
  revert w. induction k as [|k IH]; intros w; [done|].
  rewrite passes_S, run_visits_app. cbn [run_passes].
  rewrite visit_items_run. destruct (run ((p,.) <$> items) w); [|done].
  apply IH.
Qed.

Lemma run_processors_run ps items w :
  run_processors World num_runs visit ps items w
  = run (p ← ps; passes p (Z.to_nat (num_runs p)) items) w.
Proof.
  revert w. induction ps as [|p ps IH]; intros w; [done|].
  cbn [run_processors mbind list_bind]. rewrite run_visits_app, run_passes_run.
  destruct (run _ w); [|done]. apply IH.
Qed.

Lemma visits_of_app p vs1 vs2 :
  visits_of p (vs1 ++ vs2) = visits_of p vs1 ++ visits_of p vs2.
Proof. unfold visits_of. by rewrite List.filter_app, fmap_app. Qed.

Lemma visits_of_pass p q (items : list addr) :
  visits_of p ((q,.) <$> items) = if bool_decide (q = p) then items else [].
Proof.
  unfold visits_of. destruct (bool_decide (q = p)) eqn:E.
  - induction items as [|item items IH]; [done|].
    cbn [fmap list_fmap List.filter fst]. rewrite E.
    cbn [fmap list_fmap snd] in *. by rewrite IH.
  - induction items as [|item items IH]; [done|].
    cbn [fmap list_fmap List.filter fst]. by rewrite E.
Qed.

Lemma visits_of_passes p q k items :
  visits_of p (passes q k items)
  = if bool_decide (q = p) then concat (replicate k items) else [].
Proof.
  induction k as [|k IH]; [by destruct (bool_decide _)|].
  rewrite passes_S, visits_of_app, IH, visits_of_pass.
  by destruct (bool_decide (q = p)).
Qed.

Lemma filter_concat_replicate {A} (f : A → bool) k (l : list A) :
  length (List.filter f (concat (replicate k l)))
  = (k * length (List.filter f l))%nat.
Proof.
  induction k as [|k IH]; [done|].
  cbn [replicate concat]. rewrite List.filter_app, length_app, IH. lia.
Qed.

(** C8: [process] makes exactly the visits of the schedule, in its order:
    processor after processor in the order of [processor_classes], and
    for each processor [num_runs] passes, each over the top-level
    structure in its declared order.  So the items a processor visits are
    the structure repeated [num_runs] times, and every item of the
    structure is visited [num_runs] times by it (three times for
    [num_runs = 3]). *)
Theorem process_visits (c : Course) (w : World) :
  process World num_runs visit c w = run (visit_schedule num_runs c) w
  ∧ (∀ p, visits_of p (visit_schedule num_runs c)
          = concat (replicate (Z.to_nat (num_runs p)) (structure c)))
  ∧ (∀ p item,
       Z.of_nat (length (List.filter (Nat.eqb item)
                           (visits_of p (visit_schedule num_runs c))))
       = Z.max 0 (num_runs p)
         * Z.of_nat (length (List.filter (Nat.eqb item) (structure c))))
  ∧ (visit_schedule num_runs c).*1
    = (p ← processor_classes;
       replicate (Z.to_nat (num_runs p) * length (structure c)) p).
Proof.
  assert (visit_schedule num_runs c
          = (p ← processor_classes; passes p (Z.to_nat (num_runs p)) (structure c)))
    as Hsched by reflexivity.
  assert (∀ p, visits_of p (visit_schedule num_runs c)
               = concat (replicate (Z.to_nat (num_runs p)) (structure c))) as Hvisits.
  { intros p. rewrite Hsched. unfold processor_classes. cbn [mbind list_bind].
    rewrite !visits_of_app, !visits_of_passes. cbn [visits_of List.filter fmap list_fmap].
    destruct p; cbn; by rewrite ?app_nil_r. }
  split_and!.
  - unfold process. by rewrite run_processors_run.
  - exact Hvisits.
  - intros p item. rewrite Hvisits, filter_concat_replicate. lia.
  - rewrite Hsched. unfold processor_classes. cbn [mbind list_bind].
    rewrite !fmap_app, !passes_concat.
    assert (∀ (p : processor_class) k,
              (concat (replicate k ((p,.) <$> structure c))).*1
                   = replicate (k * length (structure c)) p) as Hfst.
    { intros p k. induction k as [|k IH]; [done|].
      cbn [replicate concat]. rewrite fmap_app, IH.
      cbn [Nat.mul]. rewrite replicate_add. f_equal.
      generalize (structure c). intros l. induction l as [|x l IHl]; [done|].
      cbn. by f_equal. }
    by rewrite !Hfst.
Qed.

End PipelineFacts.

(** ** The manifest *)

Section ManifestFacts.

Variable content_tree : heap → addr → pyval.
Variable yaml_dump : dict → result string.
Variable json_dump : dict → result string.

Lemma manifest_of_ok c manifest :
  manifest_of content_tree c = Ok manifest →
  manifest
  = delete "static_dir"
      (delete "args"
         (<["structure" := PyList (content_tree (store c) <$> structure c)]>
            (config c)))
  ∧ is_Some (config c !! "args") ∧ is_Some (config c !! "static_dir").
Proof.
  unfold manifest_of, del, dict_update. cbn [fold_left fst snd].
  rewrite lookup_insert_ne by done.
  destruct (config c !! "args") as [a|] eqn:Ha; [|done]. cbn [mbind result_bind].
  rewrite lookup_delete_ne, lookup_insert_ne by done.
  destruct (config c !! "static_dir") as [s|] eqn:Hs; [|done].
  intros [= <-]. by split_and!.
Qed.

(** C10: when [save_manifest] returns, the configuration of the course
    (the very mapping the manifest was built in) has no [args] and no
    [static_dir] key, its [structure] entry is the list of the items'
    content trees, and every other key is as it was; nothing else of the
    course has changed. *)
Theorem save_manifest_config (c c' : Course) (files files' : gmap string string) :
  save_manifest content_tree yaml_dump json_dump c files = Ok (c', files') →
  config c' !! "args" = None
  ∧ config c' !! "static_dir" = None
  ∧ config c' !! "structure"
    = Some (PyList (content_tree (store c) <$> structure c))
  ∧ (∀ k, k ≠ "args" → k ≠ "static_dir" → k ≠ "structure" →
          config c' !! k = config c !! k)
  ∧ c' = with_config (config c') c.
Proof.
  unfold save_manifest.
  destruct (manifest_of content_tree c) as [manifest|] eqn:Hm; [|done].
  cbn [mbind result_bind].
  destruct (yaml_dump manifest) as [y|]; [|done]. cbn [mbind result_bind].
  destruct (json_dump manifest) as [j|]; [|done]. cbn [mbind result_bind].
  intros [= <- _]. apply manifest_of_ok in Hm as (-> & _ & _).
  cbn [config with_config]. split_and!.
  - rewrite lookup_delete_ne by done. apply lookup_delete_eq.
  - apply lookup_delete_eq.
  - rewrite !lookup_delete_ne by done. apply lookup_insert_eq.
  - intros k Ha Hs Hst. rewrite !lookup_delete_ne by done.
    by rewrite lookup_insert_ne.
  - reflexivity.
Qed.

End ManifestFacts.

Lemma save_manifest_config_witness :
  ∃ c' files',
    save_manifest sample_content_tree (fun _ => Ok "yaml") (fun _ => Ok "json")
      loaded_course ∅ = Ok (c', files')
    ∧ config c' !! "args" = None
    ∧ config c' !! "static_dir" = None
    ∧ config c' !! "structure"
      = Some (PyList (sample_content_tree (store loaded_course)
                        <$> structure loaded_course))
    ∧ (∀ k, k ≠ "args" → k ≠ "static_dir" → k ≠ "structure" →
            config c' !! k = config loaded_course !! k)
    ∧ c' = with_config (config c') loaded_course.
Proof.
  eexists _, _.
  assert (∀ A (x y : A) (P : Prop), x = y → (x = y → P) → x = y ∧ P) as Hcut
    by (intros A x y P H1 H2; split; [exact H1|exact (H2 H1)]).
  apply Hcut; [vm_compute; reflexivity|].
  apply (save_manifest_config sample_content_tree (fun _ => Ok "yaml")
           (fun _ => Ok "json") loaded_course _ ∅ _).
Defined.

(** ** When the loader and the manifest writer return *)

Section Totality.

Variable slugify : string → string.

Lemma load_items_total ds :
  Forall (fun d => well_typed d = true →
            ∀ p h, ∃ a h', load_item slugify d p h = Ok (a, h')) ds →
  forallb well_typed ds = true →
  ∀ p h, ∃ cs h', load_items slugify ds p h = Ok (cs, h').
Proof.
  induction 1 as [|d ds Hd _ IH]; intros Hwt p h; [by eexists _, _|].
  cbn [forallb] in Hwt. apply andb_prop in Hwt as [Hwd Hwds].
  destruct (Hd Hwd p h) as (a & h1 & E1).
  destruct (IH Hwds p h1) as (cs & h2 & E2).
  exists (a :: cs), h2. cbn [load_items]. by rewrite E1, E2.
Qed.

(** [load_item] returns on every record tree whose types are registered. *)
Lemma load_item_total d :
  well_typed d = true → ∀ p h, ∃ a h', load_item slugify d p h = Ok (a, h').
Proof.
  induction d as [ty ti so hi co IH] using data_induction.
  intros Hwt p h. rewrite load_item_unfold. cbn [d_type d_content].
  cbn [well_typed] in Hwt. apply andb_prop in Hwt as [Hty Hco].
  destruct ty as [t|]; [|done].
  apply bool_decide_eq_true in Hty as [c Hc]. rewrite Hc.
  assert (forallb well_typed (default [] co) = true) as Hds
    by (by destruct co).
  destruct (load_items_total _ IH Hds (Some (length h))
              (h ++ [init_item slugify c (mkData (Some t) ti so hi co) p]))
    as (cs & h' & ->).
  by eexists _, _.
Qed.

End Totality.

Section ManifestReturns.

Variable content_tree : heap → addr → pyval.
Variable yaml_dump : dict → result string.
Variable json_dump : dict → result string.

(** [save_manifest] returns when the two keys it deletes are present and
    both writers succeed. *)
Lemma save_manifest_returns c files a s :
  config c !! "args" = Some a →
  config c !! "static_dir" = Some s →
  (∀ m, ∃ y, yaml_dump m = Ok y) →
  (∀ m, ∃ j, json_dump m = Ok j) →
  ∃ c' files', save_manifest content_tree yaml_dump json_dump c files
               = Ok (c', files').
Proof.
  intros Ha Hs Hy Hj. unfold save_manifest, manifest_of, del, dict_update.
  cbn [fold_left fst snd]. rewrite lookup_insert_ne, Ha by done.
  cbn [mbind result_bind]. rewrite lookup_delete_ne, lookup_insert_ne, Hs by done.
  cbn [mbind result_bind].
  destruct (Hy (delete "static_dir" (delete "args"
     (<["structure" := PyList (content_tree (store c) <$> structure c)]> (config c)))))
    as [y ->].
  cbn [mbind result_bind].
  destruct (Hj (delete "static_dir" (delete "args"
     (<["structure" := PyList (content_tree (store c) <$> structure c)]> (config c)))))
    as [j ->].
  by eexists _, _.
Qed.

End ManifestReturns.

(** ** The scan of [re.sub] has fuel enough *)

Lemma strip_prefix_length l s s' :
  strip_prefix l s = Some s' →
  String.length s = (String.length l + String.length s')%nat.
Proof.
  revert s. induction l as [|a l IH]; intros s H; cbn in H.
  - by inversion H.
  - destruct s as [|b s]; [done|]. destruct (Ascii.eqb a b); [|done].
    cbn. by rewrite (IH _ H).
Qed.

(** A match consumes what it moves past. *)
Lemma match_here_consumes flags p pos s pos' s' :
  re.match_here flags p pos s = Some (pos', s') →
  (pos ≤ pos')%nat ∧ String.length s = (pos' - pos + String.length s')%nat.
Proof.
  revert pos s. induction p as [|a p IH]; intros pos s H; cbn [re.match_here] in H.
  - inversion H; subst. lia.
  - destruct a as [|l|].
    + destruct pos; [|done]. by apply IH.
    + destruct (strip_prefix l s) as [s1|] eqn:E; [|done].
      apply strip_prefix_length in E. apply IH in H. lia.
    + revert pos H. induction s as [|c s IHs]; intros pos H.
      * destruct (re.match_here flags p pos "") as [r|] eqn:E; [|done].
        inversion H; subst r. by apply IH.
      * destruct (re.match_here flags p pos (String c s)) as [r|] eqn:E.
        -- inversion H; subst r. by apply IH.
        -- destruct (re.dot_matches flags c); [|done].
           apply IHs in H. cbn [String.length]. lia.
Qed.

Lemma sub_scan_fuel flags p repl limited fuel1 fuel2 left pos s :
  (String.length s < fuel1)%nat → (String.length s < fuel2)%nat →
  re.sub_scan fuel1 flags p repl limited left pos s
  = re.sub_scan fuel2 flags p repl limited left pos s.
Proof.
  revert fuel2 left pos s.
  induction fuel1 as [|fuel1 IH]; intros fuel2 left pos s H1 H2; [lia|].
  destruct fuel2 as [|fuel2]; [lia|]. cbn [re.sub_scan].
  destruct (limited && Nat.eqb left 0); [done|].
  destruct (re.match_here flags p pos s) as [[pos' s']|] eqn:E.
  - apply match_here_consumes in E as [Hle Hlen].
    destruct (Nat.eqb_spec pos' pos) as [->|Hne].
    + destruct s as [|c s]; [done|]. cbn [String.length] in *.
      f_equal. f_equal. apply IH; lia.
    + f_equal. apply IH; lia.
  - destruct s as [|c s]; [done|]. cbn [String.length] in *.
    f_equal. apply IH; lia.
Qed.

(** More fuel does not change what [re.sub] returns. *)
Lemma sub_fuel_enough p repl s count flags fuel :
  (String.length s < fuel)%nat →
  re.sub_scan fuel flags p repl (negb (count =? 0)) (Z.to_nat count) 0 s
  = re.sub p repl s count flags.
Proof. intros H. unfold re.sub. apply sub_scan_fuel; lia. Qed.

(** * Further properties of the code *)

(** ** The loader: when it fails, and what it builds *)

Section LoaderMore.

Variable slugify : string → string.

Lemma load_items_well_typed ds :
  Forall (fun d => ∀ p h a h', load_item slugify d p h = Ok (a, h') →
                     well_typed d = true) ds →
  ∀ p h cs h', load_items slugify ds p h = Ok (cs, h') →
    forallb well_typed ds = true.
Proof.
  induction 1 as [|d ds Hd _ IH]; intros p h cs h' Hload; [done|].
  cbn [load_items] in Hload.
  destruct (load_item slugify d p h) as [[a h1]|e] eqn:E1; [|done].
  destruct (load_items slugify ds p h1) as [[cs' h2]|e] eqn:E2; [|done].
  cbn [forallb]. by rewrite (Hd _ _ _ _ E1), (IH _ _ _ _ E2).
Qed.

Lemma load_item_well_typed d p h a h' :
  load_item slugify d p h = Ok (a, h') → well_typed d = true.
Proof.
  revert p h a h'. induction d as [ty ti so hi co IH] using data_induction.
  intros p h a h'. rewrite load_item_unfold. cbn [d_type d_content well_typed].
  destruct ty as [t|]; [|done].
  destruct (item_types !! t) as [c|] eqn:Hc; [|done].
  destruct (load_items slugify (default [] co) (Some (length h)) _)
    as [[cs h1]|e] eqn:E; [|done].
  intros _. apply andb_true_intro. split.
  - apply bool_decide_eq_true. by exists c.
  - apply (load_items_well_typed _ IH) in E. by destruct co.
Qed.

(** [load_item] returns exactly on the record trees in which every record
    names a registered type, whatever the parent and the store. *)
Theorem load_item_returns_iff (d : data) (p : option addr) (h : heap) :
  (∃ a h', load_item slugify d p h = Ok (a, h')) ↔ well_typed d = true.
Proof.
  split.
  - intros (a & h' & H). by eapply load_item_well_typed.
  - intros H. by apply load_item_total.
Qed.

Lemma records_unfold d :
  records d = d :: concat (map records (default [] (d_content d))).
Proof. by destruct d as [ty ti so hi [ds|]]. Qed.

Lemma well_typed_registered d :
  well_typed d = true → forallb registered (records d) = true.
Proof.
  induction d as [ty ti so hi co IH] using data_induction.
  rewrite records_unfold. cbn [well_typed d_content forallb].
  intros [Hty Hco]%andb_prop. apply andb_true_intro. split; [exact Hty|].
  assert (forallb well_typed (default [] co) = true) as Hall
    by (by destruct co).
  clear Hco Hty. induction IH as [|d ds Hd _ IHds]; [done|].
  cbn [forallb] in Hall. apply andb_prop in Hall as [H1 H2].
  cbn [map concat]. rewrite forallb_app, (Hd H1), (IHds H2). done.
Qed.

Lemma load_items_first_unregistered ds :
  Forall (fun d => ∀ p h e, load_item slugify d p h = Raise e →
            ∃ before r after,
              records d = before ++ r :: after
              ∧ forallb registered before = true
              ∧ registered r = false
              ∧ e = KeyError (default "type" (d_type r))) ds →
  ∀ p h e, load_items slugify ds p h = Raise e →
    ∃ before r after,
      concat (map records ds) = before ++ r :: after
      ∧ forallb registered before = true
      ∧ registered r = false
      ∧ e = KeyError (default "type" (d_type r)).
Proof.
  induction 1 as [|d ds Hd _ IH]; intros p h e Hload; [done|].
  cbn [load_items] in Hload. cbn [map concat].
  destruct (load_item slugify d p h) as [[a h1]|e1] eqn:E1.
  - destruct (load_items slugify ds p h1) as [[cs' h2]|e2] eqn:E2; [done|].
    injection Hload as <-.
    destruct (IH _ _ _ E2) as (before & r & after & Heq & Hb & Hr & He).
    exists (records d ++ before), r, after. split_and!; [|  |done|done].
    + by rewrite Heq, app_assoc.
    + rewrite forallb_app, Hb.
      by rewrite (well_typed_registered _ (load_item_well_typed _ _ _ _ _ E1)).
  - injection Hload as <-.
    destruct (Hd _ _ _ E1) as (before & r & after & Heq & Hb & Hr & He).
    exists before, r, (after ++ concat (map records ds)).
    split_and!; [|done|done|done].
    by rewrite Heq, <- app_assoc.
Qed.

(** The only exception [load_item] raises is [KeyError], and it is raised
    for the first record, in loading order, that does not name a
    registered type: with the key [type] when the record has no type,
    with the type itself when it is not a key of [item_types]. *)
Theorem load_item_raises_KeyError (d : data) (p : option addr) (h : heap) (e : exn) :
  load_item slugify d p h = Raise e →
  ∃ before r after,
    records d = before ++ r :: after
    ∧ forallb registered before = true
    ∧ registered r = false
    ∧ e = KeyError (default "type" (d_type r)).
Proof.
  revert p h e. induction d as [ty ti so hi co IH] using data_induction.
  intros p h e. rewrite load_item_unfold, records_unfold. cbn [d_type d_content].
  destruct ty as [t|];
    [|intros [= <-]; by exists [], (mkData None ti so hi co), (concat (map records (default [] co)))].
  destruct (item_types !! t) as [c|] eqn:Hc.
  - destruct (load_items slugify (default [] co) (Some (length h)) _)
      as [[cs h1]|e1] eqn:E; [done|].
    intros [= <-].
    destruct (load_items_first_unregistered _ IH _ _ _ E)
      as (before & r & after & Heq & Hb & Hr & He).
    exists (mkData (Some t) ti so hi co :: before), r, after.
    split_and!; [by rewrite Heq| |done|done].
    cbn [forallb]. rewrite Hb. unfold registered. cbn [d_type]. rewrite Hc.
    done.
  - intros [= <-].
    exists [], (mkData (Some t) ti so hi co), (concat (map records (default [] co))).
    split_and!; [done|done| |done].
    unfold registered. cbn [d_type]. rewrite Hc. apply bool_decide_eq_false.
    by intros [? ?].
Qed.

Lemma load_items_size ds :
  Forall (fun d => ∀ p h a h', load_item slugify d p h = Ok (a, h') →
                     ∃ new, h' = h ++ new ∧ length new = data_size d) ds →
  ∀ p h cs h', load_items slugify ds p h = Ok (cs, h') →
    ∃ new, h' = h ++ new ∧ length new = list_sum (map data_size ds)
           ∧ length cs = length ds.
Proof.
  induction 1 as [|d ds Hd _ IH]; intros p h cs h' Hload; cbn [load_items] in Hload.
  - inversion Hload; subst. exists []. by rewrite app_nil_r.
  - destruct (load_item slugify d p h) as [[a h1]|e] eqn:E1; [|done].
    destruct (load_items slugify ds p h1) as [[cs' h2]|e] eqn:E2; [|done].
    inversion Hload; subst; clear Hload.
    destruct (Hd _ _ _ _ E1) as (new1 & -> & Hlen1).
    destruct (IH _ _ _ _ E2) as (new2 & -> & Hlen2 & Hcs).
    exists (new1 ++ new2). rewrite <- app_assoc, length_app.
    simpl. split_and!; [done|lia|lia].
Qed.

(** [load_item] only appends to the store: the objects already there are
    left as they are, the new item takes the next address, and one object
    is created per record of the tree. *)
Theorem load_item_appends (d : data) (p : option addr) (h : heap)
    (a : addr) (h' : heap) :
  load_item slugify d p h = Ok (a, h') →
  a = length h ∧ ∃ new, h' = h ++ new ∧ length new = data_size d.
Proof.
  intros H. split; [by destruct (load_item_spec _ _ _ _ _ _ H)|].
  revert p h a h' H. induction d as [ty ti so hi co IH] using data_induction.
  intros p h a h'. rewrite load_item_unfold. cbn [d_type d_content].
  destruct ty as [t|]; [|done].
  destruct (item_types !! t) as [c|] eqn:Hc; [|done].
  destruct (load_items slugify (default [] co) (Some (length h)) _)
    as [[cs h1]|e] eqn:E; [|done].
  intros [= <- <-].
  destruct (load_items_size _ IH _ _ _ _ E) as (new & -> & Hlen & _).
  eexists (_ :: new). split.
  - rewrite <- app_assoc. cbn [app]. rewrite insert_app_r_alt by lia.
    rewrite Nat.sub_diag. reflexivity.
  - cbn [length data_size]. f_equal. rewrite Hlen. by destruct co.
Qed.

(** The children of a loaded item mirror the sub-records of its record,
    one for one and in order, hidden ones included; each has the item as
    its parent, and the item itself carries the attributes [__init__]
    derives from the record (title or class default, slug of the title). *)
Theorem load_item_children (d : data) (p : option addr) (h : heap)
    (a : addr) (h' : heap) :
  load_item slugify d p h = Ok (a, h') →
  ∃ c cs,
    h' !! a = Some (set_content cs (init_item slugify c d p))
    ∧ Forall2 (fun ch d' => ∃ it, h' !! ch = Some it
                              ∧ loaded_as slugify d' (Some a) it)
              cs (default [] (d_content d)).
Proof.
  rewrite load_item_unfold.
  destruct (d_type d) as [t|]; [|done].
  destruct (item_types !! t) as [c|] eqn:Hc; [|done].
  destruct (load_items slugify (default [] (d_content d)) (Some (length h)) _)
    as [[cs h1]|e] eqn:E; [|done].
  intros [= <- <-].
  destruct (load_items_ok _ _ _ _ _ _ E) as (new & -> & _ & Hall).
  exists c, cs. split.
  - rewrite <- app_assoc. cbn [app]. rewrite insert_app_r_alt by lia.
    rewrite Nat.sub_diag. rewrite lookup_app_r by lia. by rewrite Nat.sub_diag.
  - eapply Forall2_impl; [exact Hall|].
    intros ch d' (k & it & -> & Hk & Hl). exists it. split; [|done].
    rewrite length_app. cbn [length].
    rewrite <- app_assoc. cbn [app].
    rewrite list_lookup_insert_ne by lia.
    rewrite lookup_app_r by lia.
    replace (length h + 1 + k - length h)%nat with (S k) by lia. done.
Qed.

End LoaderMore.

(** ** The loaded structure *)

Section StructureMore.

Variable slugify : string → string.

#[local] Arguments load_item : simpl never.
#[local] Arguments load_items : simpl never.

(** [load_structure] changes nothing of the course but its structure and
    its store, and in the store it only appends; without a [structure]
    key in the configuration it raises [KeyError]. *)
Theorem load_structure_frame (c : Course) :
  (∀ c', load_structure slugify c = Ok c' →
         c' = with_structure (structure c') (store c') c
         ∧ ∃ new, store c' = store c ++ new)
  ∧ (config c !! "structure" = None →
       load_structure slugify c = Raise (KeyError "structure")).
Proof.
  split.
  - intros c'. unfold load_structure, subscript.
    destruct (config c !! "structure") as [v|]; [|done]. cbn.
    destruct v as [| | | |objs| | |]; try done.
    destruct (for_each as_record objs) as [records|]; [|done]. cbn.
    destruct (load_items slugify records None (store c)) as [[st h]|] eqn:Hload;
      [|done]. cbn.
    destruct (load_items_ok _ _ _ _ _ _ Hload) as (new & -> & _ & _).
    destruct (deref_all _ st) as [items|]; [|done]. cbn.
    destruct (existsb _ items).
    + intros [= <-]. split; [done|]. by exists new.
    + rewrite load_index_record. cbn. intros [= <-]. split; [done|].
      cbn [store with_structure]. rewrite <- app_assoc. by eexists.
  - intros H. unfold load_structure, subscript. by rewrite H.
Qed.

End StructureMore.

(** ** More on the YAML mappings *)

Lemma for_each_Forall2 {A B} (f : A → result B) l ys :
  for_each f l = Ok ys → Forall2 (fun x y => f x = Ok y) l ys.
Proof.
  revert ys. induction l as [|x l IH]; intros ys H; cbn [for_each] in H.
  - inversion H. constructor.
  - destruct (f x) as [y|] eqn:E; [|done]. cbn in H.
    destruct (for_each f l) as [ys'|]; [|done]. cbn in H.
    inversion H; subst. constructor; [done|by apply IH].
Qed.

Lemma deref_all_inv (h : heap) (l : list addr) items :
  deref_all h l = Ok items →
  Forall2 (fun j item => item.1 = j ∧ h !! j = Some item.2) l items.
Proof.
  intros H. apply for_each_Forall2 in H.
  eapply Forall2_impl; [exact H|]. intros j [j' it]. unfold deref.
  destruct (h !! j) as [it'|]; [|done]. cbn. by intros [= <- <-].
Qed.

Lemma filter_items (f : Item → bool) (h : heap) (l : list addr) items :
  Forall2 (fun j item => item.1 = j ∧ h !! j = Some item.2) l items →
  Forall2 (fun j item => item.1 = j ∧ h !! j = Some item.2)
    (List.filter (fun j => match h !! j with Some it => f it | None => false end) l)
    (List.filter (fun item => f item.2) items).
Proof.
  induction 1 as [|j item l items [Hj Hit] _ IH]; [constructor|].
  cbn [List.filter]. rewrite Hit. destruct (f item.2); [|done].
  by constructor.
Qed.

(** A comprehension over the objects of [l] that pass [f]. *)
Lemma comprehension_entries (f : Item → bool) (g : addr → result dict)
    (h : heap) (l : list addr) items ys :
  deref_all h l = Ok items →
  for_each (fun item => g item.1) (List.filter (fun item => f item.2) items) = Ok ys →
  Forall2 (fun j y => g j = Ok y)
    (List.filter (fun j => match h !! j with Some it => f it | None => false end) l)
    ys.
Proof.
  intros Hitems Hys. apply deref_all_inv in Hitems.
  apply (filter_items f) in Hitems. apply for_each_Forall2 in Hys.
  revert ys Hys. induction Hitems as [|j item l' items' [Hj _] _ IH]; intros ys Hys.
  - inversion Hys. constructor.
  - inversion Hys as [|? y ? ys' Hy Hrest]; subst. constructor; [done|by apply IH].
Qed.

Lemma Item_yaml_active c self active base :
  Item_yaml c self active = Ok base →
  base !! "active" = if active then Some (PyInt 1) else None.
Proof.
  unfold Item_yaml, subscript.
  destruct (config c !! "author") as [author|]; [|done].
  destruct (config c !! "code") as [code|]; [|done].
  destruct (config c !! "year") as [year|]; [|done].
  cbn [mbind result_bind]. intros [= <-]. destruct active.
  - apply lookup_insert_eq.
  - unfold dict_of, dict_update. cbn [fold_left fst snd].
    repeat (rewrite lookup_insert_ne by done). apply lookup_empty.
Qed.

Ltac other_keys := repeat (first [apply List.Forall_nil | apply List.Forall_cons]); done.

Lemma Chapter_yaml_fields c self active m :
  Chapter_yaml c self active = Ok m →
  ∃ base b u,
    Item_yaml c self active = Ok base
    ∧ config c !! "build_pdf" = Some b
    ∧ url (store c) self = Ok u
    ∧ m = dict_update base [
            ("build_pdf", b); ("file", PyStr (u +:+ ".html"));
            ("pdf", PyStr (u +:+ ".pdf")); ("sidebar", PyBool true)].
Proof.
  unfold Chapter_yaml, subscript.
  destruct (Item_yaml c self active) as [base|]; [|done]. cbn [mbind result_bind].
  destruct (config c !! "build_pdf") as [b|]; [|done]. cbn [mbind result_bind].
  destruct (url (store c) self) as [u|]; [|done]. cbn [mbind result_bind].
  intros [= <-]. by exists base, b, u.
Qed.

Section YamlMore.

Variables (depth : nat) (c : Course) (i : addr) (self : Item).
Hypothesis Hself : store c !! i = Some self.

Lemma yaml_active_lookup (active : bool) (m : dict) :
  yaml depth c i active = Ok m →
  m !! "active"
  = if active && negb (bool_decide (cls self = Url)) then Some (PyInt 1) else None.
Proof using Hself.
  destruct depth as [|depth']; [done|]. cbn [yaml].
  unfold deref. rewrite Hself. cbn [mbind result_bind].
  destruct (cls self) eqn:Hc; cbn [bool_decide decide_rel negb andb].
  - intros H. rewrite (Item_yaml_active _ _ _ _ H).
    by destruct active.
  - destruct (Item_yaml c self active) as [base|] eqn:Hb; [|done].
    cbn [mbind result_bind].
    destruct (deref_all (store c) (content self)) as [items|]; [|done].
    cbn [mbind result_bind]. destruct (for_each _ _) as [ys|]; [|done].
    cbn [mbind result_bind]. intros [= <-].
    rewrite dict_update_lookup_fresh by other_keys.
    rewrite (Item_yaml_active _ _ _ _ Hb). by destruct active.
  - intros H. apply Chapter_yaml_fields in H as (base & b & u & Hb & _ & _ & ->).
    rewrite dict_update_lookup_fresh by other_keys.
    rewrite (Item_yaml_active _ _ _ _ Hb). by destruct active.
  - unfold Url_yaml. intros [= <-]. by destruct active.
  - unfold Slides_yaml.
    destruct (Chapter_yaml c self active) as [cy|] eqn:Hcy; [|done].
    cbn [mbind result_bind]. destruct (url (store c) self) as [u'|]; [|done].
    cbn [mbind result_bind]. intros [= <-].
    apply Chapter_yaml_fields in Hcy as (base & b & u & Hb & _ & _ & ->).
    rewrite !dict_update_lookup_fresh by other_keys.
    rewrite (Item_yaml_active _ _ _ _ Hb). by destruct active.
  - unfold Recap_yaml.
    destruct (Chapter_yaml c self active) as [cy|] eqn:Hcy; [|done].
    cbn [mbind result_bind]. destruct (url (store c) self) as [u'|]; [|done].
    cbn [mbind result_bind]. intros [= <-].
    apply Chapter_yaml_fields in Hcy as (base & b & u & Hb & _ & _ & ->).
    rewrite !dict_update_lookup_fresh by other_keys.
    rewrite (Item_yaml_active _ _ _ _ Hb). by destruct active.
Qed.

(** The [active] marker is in the mapping exactly when [yaml] is called
    with [active] true on an item that is not a [Url]; no override adds or
    removes it. *)
Theorem yaml_active_marker (active : bool) (m : dict) :
  yaml depth c i active = Ok m →
  m !! "active"
  = if active && negb (bool_decide (cls self = Url)) then Some (PyInt 1) else None.
Proof using Hself. apply yaml_active_lookup. Qed.

(** An exception of [Item.yaml] comes out of [yaml] for every class that
    calls it. *)
Lemma yaml_raises_with_base (active : bool) (e : exn) :
  Item_yaml c self active = Raise e →
  cls self ≠ Url →
  yaml (S depth) c i active = Raise e.
Proof using Hself.
  intros He Hc. cbn [yaml]. unfold deref. rewrite Hself.
  cbn [mbind result_bind].
  destruct (cls self); try done; unfold Slides_yaml, Recap_yaml, Chapter_yaml;
    by rewrite He.
Qed.

End YamlMore.

Section YamlByClass.

Variables (depth : nat) (c : Course) (i : addr) (self : Item).
Hypothesis Hself : store c !! i = Some self.

(** [Part.yaml]: [part-slug] is the slug of the part, and [chapters] has
    one entry per child that is not hidden, in the order of [content],
    each the child's own [yaml()] (inactive); hidden children are left
    out. *)
Theorem Part_yaml_chapters (active : bool) (m : dict) :
  cls self = Part →
  yaml (S depth) c i active = Ok m →
  m !! "part-slug" = Some (PyStr (slug self))
  ∧ ∃ ys, m !! "chapters" = Some (PyList (PyDict <$> ys))
          ∧ Forall2 (fun j y => yaml depth c j false = Ok y)
                    (visible (store c) (content self)) ys.
Proof using Hself.
  intros Hc. cbn [yaml]. unfold deref. rewrite Hself. cbn [mbind result_bind].
  rewrite Hc.
  destruct (Item_yaml c self active) as [base|] eqn:Hb; [|done].
  cbn [mbind result_bind].
  destruct (deref_all (store c) (content self)) as [items|] eqn:Hitems; [|done].
  cbn [mbind result_bind].
  destruct (for_each _ _) as [ys|] eqn:Hys; [|done].
  cbn [mbind result_bind]. intros [= <-].
  unfold dict_update. cbn [fold_left fst snd]. split.
  - rewrite lookup_insert_ne by done. apply lookup_insert_eq.
  - exists ys. split; [apply lookup_insert_eq|].
    exact (comprehension_entries (fun it => negb (is_hidden it))
             (fun j => yaml depth c j false) _ _ _ _ Hitems Hys).
Qed.

(** [Chapter.yaml] and [Slides.yaml]: the output names are the item's URL
    with the suffixes [.html] and [.pdf] ([.slides.html] too for slides),
    [sidebar] is true and [build_pdf] is the course's setting. *)
Theorem Chapter_yaml_names (active : bool) (m : dict) :
  cls self = Chapter ∨ cls self = Slides →
  yaml (S depth) c i active = Ok m →
  ∃ u, url (store c) self = Ok u
       ∧ m !! "file" = Some (PyStr (u +:+ ".html"))
       ∧ m !! "pdf" = Some (PyStr (u +:+ ".pdf"))
       ∧ m !! "sidebar" = Some (PyBool true)
       ∧ m !! "build_pdf" = config c !! "build_pdf"
       ∧ m !! "slides"
         = if bool_decide (cls self = Slides)
           then Some (PyStr (u +:+ ".slides.html")) else None.
Proof using Hself.
  intros Hc. cbn [yaml]. unfold deref. rewrite Hself. cbn [mbind result_bind].
  destruct Hc as [Hc|Hc]; rewrite Hc; cbn [bool_decide decide_rel].
  - intros H. apply Chapter_yaml_fields in H as (base & b & u & Hb & Hpdf & Hu & ->).
    exists u. rewrite Hpdf. unfold dict_update. cbn [fold_left fst snd].
    split_and!; [done|..].
    + rewrite lookup_insert_ne by done. rewrite lookup_insert_ne by done.
      apply lookup_insert_eq.
    + rewrite lookup_insert_ne by done. apply lookup_insert_eq.
    + apply lookup_insert_eq.
    + repeat (rewrite lookup_insert_ne by done). apply lookup_insert_eq.
    + repeat (rewrite lookup_insert_ne by done).
      apply (Item_yaml_fresh _ _ _ _ _ Hb), not_base_field. done.
  - unfold Slides_yaml.
    destruct (Chapter_yaml c self active) as [cy|] eqn:Hcy; [|done].
    cbn [mbind result_bind].
    apply Chapter_yaml_fields in Hcy as (base & b & u & Hb & Hpdf & Hu & ->).
    rewrite Hu. cbn [mbind result_bind]. intros [= <-].
    exists u. rewrite Hpdf. unfold dict_update. cbn [fold_left fst snd].
    split_and!; [done|..].
    + repeat (rewrite lookup_insert_ne by done). apply lookup_insert_eq.
    + rewrite lookup_insert_ne by done. apply lookup_insert_eq.
    + apply lookup_insert_eq.
    + repeat (rewrite lookup_insert_ne by done). apply lookup_insert_eq.
    + rewrite lookup_insert_ne by done. rewrite lookup_insert_ne by done.
      apply lookup_insert_eq.
Qed.

(** [Recap.yaml] switches [build_pdf] and [sidebar] off whatever the
    configuration says, and still carries the [pdf] name that
    [Chapter.yaml] put there. *)
Theorem Recap_yaml_overrides (active : bool) (m : dict) :
  cls self = Recap →
  yaml (S depth) c i active = Ok m →
  ∃ u, url (store c) self = Ok u
       ∧ m !! "build_pdf" = Some (PyBool false)
       ∧ m !! "sidebar" = Some (PyBool false)
       ∧ m !! "file" = Some (PyStr (u +:+ ".html"))
       ∧ m !! "pdf" = Some (PyStr (u +:+ ".pdf")).
Proof using Hself.
  intros Hc. cbn [yaml]. unfold deref. rewrite Hself. cbn [mbind result_bind].
  rewrite Hc. unfold Recap_yaml.
  destruct (Chapter_yaml c self active) as [cy|] eqn:Hcy; [|done].
  cbn [mbind result_bind].
  apply Chapter_yaml_fields in Hcy as (base & b & u & Hb & Hpdf & Hu & ->).
  rewrite Hu. cbn [mbind result_bind]. intros [= <-].
  exists u. unfold dict_update. cbn [fold_left fst snd].
  split_and!; [done|..].
  + repeat (rewrite lookup_insert_ne by done). apply lookup_insert_eq.
  + apply lookup_insert_eq.
  + rewrite lookup_insert_ne by done. apply lookup_insert_eq.
  + repeat (rewrite lookup_insert_ne by done). apply lookup_insert_eq.
Qed.

(** Every class but [Url] reads [author], [code] and [year] from the
    configuration, in that order, and raises [KeyError] for the first
    that is missing; [Url.yaml] reads nothing of the configuration. *)
Theorem yaml_missing_config_key (active : bool) :
  (cls self ≠ Url →
     (config c !! "author" = None →
        yaml (S depth) c i active = Raise (KeyError "author"))
     ∧ (is_Some (config c !! "author") → config c !! "code" = None →
          yaml (S depth) c i active = Raise (KeyError "code"))
     ∧ (is_Some (config c !! "author") → is_Some (config c !! "code") →
        config c !! "year" = None →
          yaml (S depth) c i active = Raise (KeyError "year")))
  ∧ (cls self = Url → ∃ m, yaml (S depth) c i active = Ok m).
Proof using Hself.
  pose proof (fun e => yaml_raises_with_base depth c i self Hself active e) as Hraise.
  split.
  - intros Hc. split_and!.
    + intros Ha. apply Hraise; [|done]. unfold Item_yaml, subscript. by rewrite Ha.
    + intros [a Ha] Hco. apply Hraise; [|done].
      unfold Item_yaml, subscript. by rewrite Ha, Hco.
    + intros [a Ha] [co Hco] Hy. apply Hraise; [|done].
      unfold Item_yaml, subscript. by rewrite Ha, Hco, Hy.
  - intros Hc. cbn [yaml]. unfold deref. rewrite Hself. cbn [mbind result_bind].
    rewrite Hc. by eexists.
Qed.

End YamlByClass.

(** ** Navigation in the headers *)

Section Headers.

Variables (depth : nat) (c : Course) (i : addr) (self : Item).
Hypothesis Hself : store c !! i = Some self.

Lemma Chapter_header_siblings (p : addr) (pobj : Item) (header : dict) :
  parent self = Some p →
  store c !! p = Some pobj →
  Chapter_header depth c i = Ok header →
  header !! "part" = Some (PyStr (title pobj))
  ∧ header !! "part-slug" = Some (PyStr (slug pobj))
  ∧ ∃ ys, header !! "chapters" = Some (PyList (PyDict <$> ys))
          ∧ Forall2 (fun j y => yaml depth c j (Nat.eqb j i) = Ok y)
                    (visible (store c) (content pobj)) ys.
Proof using Hself.
  intros Hp Hpobj. unfold Chapter_header, deref. rewrite Hself.
  cbn [mbind result_bind].
  destruct (yaml depth c i false) as [h0|]; [|done]. cbn [mbind result_bind].
  rewrite Hp, Hpobj. cbn [mbind result_bind].
  destruct (deref_all (store c) (content pobj)) as [items|] eqn:Hitems; [|done].
  cbn [mbind result_bind]. destruct (for_each _ _) as [ys|] eqn:Hys; [|done].
  cbn [mbind result_bind]. intros [= <-]. split_and!.
  - repeat (rewrite lookup_insert_ne by done). apply lookup_insert_eq.
  - rewrite lookup_insert_ne by done. apply lookup_insert_eq.
  - exists ys. split; [apply lookup_insert_eq|].
    exact (comprehension_entries (fun it => negb (is_hidden it))
             (fun j => yaml depth c j (Nat.eqb j i)) _ _ _ _ Hitems Hys).
Qed.

(** The header of a chapter under a part: [part] and [part-slug] come
    from the parent, and [chapters] has one entry per sibling that is not
    hidden, in the parent's order, the chapter's own entry being the one
    computed with [active] true. *)
Theorem Chapter_header_in_part (p : addr) (pobj : Item) (header : dict) :
  parent self = Some p →
  store c !! p = Some pobj →
  Chapter_header depth c i = Ok header →
  header !! "part" = Some (PyStr (title pobj))
  ∧ header !! "part-slug" = Some (PyStr (slug pobj))
  ∧ ∃ ys, header !! "chapters" = Some (PyList (PyDict <$> ys))
          ∧ Forall2 (fun j y => yaml depth c j (Nat.eqb j i) = Ok y)
                    (visible (store c) (content pobj)) ys.
Proof using Hself. apply Chapter_header_siblings. Qed.

(** The header of a top-level chapter: [chapters] lists the top-level
    items that are neither an introduction nor hidden, in the order of the
    structure, and nothing is said of a part. *)
Theorem Chapter_header_top_level (header : dict) :
  parent self = None →
  cls self = Chapter ∨ cls self = Slides ∨ cls self = Recap →
  Chapter_header depth c i = Ok header →
  header !! "part" = None
  ∧ header !! "part-slug" = None
  ∧ ∃ ys, header !! "chapters" = Some (PyList (PyDict <$> ys))
          ∧ Forall2 (fun j y => yaml depth c j (Nat.eqb j i) = Ok y)
                    (navigable c) ys.
Proof using Hself.
  intros Hp Hc. unfold Chapter_header, deref. rewrite Hself.
  cbn [mbind result_bind].
  destruct (yaml depth c i false) as [h0|] eqn:Hh0; [|done].
  cbn [mbind result_bind]. rewrite Hp.
  destruct (deref_all (store c) (structure c)) as [items|] eqn:Hitems; [|done].
  cbn [mbind result_bind]. destruct (for_each _ _) as [ys|] eqn:Hys; [|done].
  cbn [mbind result_bind]. intros [= <-].
  assert (h0 !! "part" = None ∧ h0 !! "part-slug" = None) as [Hpart Hslug].
  { destruct depth as [|depth']; [done|]. cbn [yaml] in Hh0.
    unfold deref in Hh0. rewrite Hself in Hh0. cbn [mbind result_bind] in Hh0.
    destruct Hc as [Hc|[Hc|Hc]]; rewrite Hc in Hh0.
    - apply Chapter_yaml_fields in Hh0 as (base & b & u & Hb & _ & _ & ->).
      rewrite !dict_update_lookup_fresh by other_keys.
      split; apply (Item_yaml_fresh _ _ _ _ _ Hb), not_base_field; done.
    - unfold Slides_yaml in Hh0.
      destruct (Chapter_yaml c self false) as [cy|] eqn:Hcy; [|done].
      cbn [mbind result_bind] in Hh0.
      destruct (url (store c) self) as [u'|]; [|done].
      cbn [mbind result_bind] in Hh0. injection Hh0 as <-.
      apply Chapter_yaml_fields in Hcy as (base & b & u & Hb & _ & _ & ->).
      rewrite !dict_update_lookup_fresh by other_keys.
      split; apply (Item_yaml_fresh _ _ _ _ _ Hb), not_base_field; done.
    - unfold Recap_yaml in Hh0.
      destruct (Chapter_yaml c self false) as [cy|] eqn:Hcy; [|done].
      cbn [mbind result_bind] in Hh0.
      destruct (url (store c) self) as [u'|]; [|done].
      cbn [mbind result_bind] in Hh0. injection Hh0 as <-.
      apply Chapter_yaml_fields in Hcy as (base & b & u & Hb & _ & _ & ->).
      rewrite !dict_update_lookup_fresh by other_keys.
      split; apply (Item_yaml_fresh _ _ _ _ _ Hb), not_base_field; done. }
  split_and!.
  - by rewrite lookup_insert_ne.
  - by rewrite lookup_insert_ne.
  - exists ys. split; [apply lookup_insert_eq|].
    exact (comprehension_entries
             (fun it => negb (String.eqb (type (cls it)) "introduction")
                        && negb (is_hidden it))
             (fun j => yaml depth c j (Nat.eqb j i)) _ _ _ _ Hitems Hys).
Qed.

End Headers.

Lemma visible_not_hidden (h : heap) (l : list addr) j :
  j ∈ visible h l → ∃ it, h !! j = Some it ∧ is_hidden it = false.
Proof.
  unfold visible. rewrite list_elem_of_In, List.filter_In. intros [_ H].
  destruct (h !! j) as [it|]; [|done]. exists it. split; [done|].
  by destruct (is_hidden it).
Qed.

(** A hidden chapter is not among the chapters of its own header, and no
    entry of that list carries the [active] marker. *)
Theorem hidden_chapter_no_active_entry (depth : nat) (c : Course) (i p : addr)
    (self pobj : Item) (header : dict) :
  store c !! i = Some self →
  is_hidden self = true →
  parent self = Some p →
  store c !! p = Some pobj →
  Chapter_header depth c i = Ok header →
  (i ∉ visible (store c) (content pobj))
  ∧ ∃ ys, header !! "chapters" = Some (PyList (PyDict <$> ys))
          ∧ Forall (fun y => y !! "active" = None) ys.
Proof.
  intros Hself Hhid Hp Hpobj Hheader.
  assert (i ∉ visible (store c) (content pobj)) as Hnot.
  { intros Hin. apply visible_not_hidden in Hin as (it & Hit & Hvis).
    rewrite Hself in Hit. injection Hit as <-. congruence. }
  split; [done|].
  destruct (Chapter_header_siblings depth c i self Hself p pobj header Hp Hpobj Hheader)
    as (_ & _ & ys & Hch & Hall).
  exists ys. split; [done|].
  pose proof (visible_not_hidden (store c) (content pobj)) as Hvis.
  clear Hch. revert Hnot Hvis Hall.
  generalize (visible (store c) (content pobj)). intros vs Hnot Hvis Hall.
  induction Hall as [|j y l ys Hy _ IH]; [constructor|].
  assert (j ≠ i) as Hji.
  { intros ->. apply Hnot. apply elem_of_cons. by left. }
  constructor.
  - apply Nat.eqb_neq in Hji. rewrite Hji in Hy.
    destruct (Hvis j) as (it & Hit & _); [apply elem_of_cons; by left|].
    by rewrite (yaml_active_lookup depth c j it Hit false y Hy).
  - apply IH.
    + intros Hin. apply Hnot. apply elem_of_cons. by right.
    + intros j' Hj'. apply Hvis. apply elem_of_cons. by right.
Qed.

Section IntroductionHeader.

Variables (depth : nat) (c : Course) (i : addr) (self : Item).
Hypothesis Hself : store c !! i = Some self.

(** The header of the introduction: [links] has one entry per top-level
    item that is neither an introduction nor hidden, in order, and
    [isPart] is set exactly when the first of them is a part. *)
Theorem Introduction_header_links (header : dict) :
  cls self = Introduction →
  Introduction_header depth c i = Ok header →
  (∃ ys, header !! "links" = Some (PyList (PyDict <$> ys))
         ∧ Forall2 (fun j y => yaml depth c j false = Ok y) (navigable c) ys)
  ∧ (header !! "isPart" = Some (PyInt 1) ↔
       ∃ j it rest, navigable c = j :: rest ∧ store c !! j = Some it
                    ∧ cls it = Part)
  ∧ (header !! "isPart" = Some (PyInt 1) ∨ header !! "isPart" = None).
Proof using Hself.
  intros Hc. unfold Introduction_header.
  destruct (yaml depth c i false) as [h0|] eqn:Hh0; [|done].
  cbn [mbind result_bind].
  destruct (deref_all (store c) (structure c)) as [items|] eqn:Hitems; [|done].
  cbn [mbind result_bind]. destruct (for_each _ _) as [ys|] eqn:Hys; [|done].
  cbn [mbind result_bind].
  assert (h0 !! "isPart" = None) as HisPart.
  { destruct depth as [|depth']; [done|]. cbn [yaml] in Hh0.
    unfold deref in Hh0. rewrite Hself in Hh0. cbn [mbind result_bind] in Hh0.
    rewrite Hc in Hh0. apply (Item_yaml_fresh _ _ _ _ _ Hh0), not_base_field. done. }
  assert (Forall2 (fun j y => yaml depth c j false = Ok y) (navigable c) ys)
    as Hlinks
    by exact (comprehension_entries
                (fun it => negb (String.eqb (type (cls it)) "introduction")
                           && negb (is_hidden it))
                (fun j => yaml depth c j false) _ _ _ _ Hitems Hys).
  assert (Forall2 (fun j item => item.1 = j ∧ store c !! j = Some item.2)
            (navigable c)
            (List.filter
               (fun item => negb (String.eqb (type (cls item.2)) "introduction")
                            && negb (is_hidden item.2)) items)) as Hnav
    by exact (filter_items
                (fun it => negb (String.eqb (type (cls it)) "introduction")
                           && negb (is_hidden it)) _ _ _
                (deref_all_inv _ _ _ Hitems)).
  remember (navigable c) as nav eqn:Hnavdef.
  destruct (List.filter _ items) as [|[j it] struct] eqn:Hstruct.
  - destruct nav as [|j0 nav']; [|inversion Hnav].
    intros [= <-]. split_and!.
    + exists ys. split; [apply lookup_insert_eq|done].
    + rewrite lookup_insert_ne by done. rewrite HisPart. split; [done|].
      by intros (j & it & rest & Heq & _).
    + right. by rewrite lookup_insert_ne.
  - destruct nav as [|j' l']; [inversion Hnav|].
    apply Forall2_cons_1 in Hnav as [[Hj Hit] _]. cbn [fst snd] in *. subst j'.
    destruct (String.eqb_spec (type (cls it)) "part") as [Hpart|Hpart].
    + intros [= <-]. split_and!.
      * exists ys. split; [|done]. rewrite lookup_insert_ne by done.
        apply lookup_insert_eq.
      * rewrite lookup_insert_eq. split; [|done]. intros _.
        exists j, it, l'. split_and!; [done|done|]. by destruct (cls it).
      * left. apply lookup_insert_eq.
    + intros [= <-]. split_and!.
      * exists ys. split; [apply lookup_insert_eq|done].
      * rewrite lookup_insert_ne by done. rewrite HisPart. split; [done|].
        intros (j0 & it0 & rest & Heq & Hit0 & Hcls).
        injection Heq as <- _.
        rewrite Hit in Hit0. injection Hit0 as <-.
        rewrite Hcls in Hpart. done.
      * right. by rewrite lookup_insert_ne.
Qed.

End IntroductionHeader.

(** ** What [get_content] strips, reads and returns *)

Lemma match_here_lazy_unfold flags p pos s :
  re.match_here flags (re.LazyDotStar :: p) pos s
  = match re.match_here flags p pos s with
    | Some r => Some r
    | None =>
        match s with
        | EmptyString => None
        | String c s' =>
            if re.dot_matches flags c
            then re.match_here flags (re.LazyDotStar :: p) (S pos) s'
            else None
        end
    end.
Proof. by destruct s. Qed.

Lemma strip_prefix_app l s : strip_prefix l (l +:+ s) = Some s.
Proof.
  induction l as [|a l IH]; [done|].
  rewrite str_app_cons. cbn [strip_prefix]. by rewrite Ascii.eqb_refl.
Qed.

Lemma single_line_cons c s :
  single_line (String c s) = true →
  Ascii.eqb (ascii_of_nat 10) c = false ∧ single_line s = true.
Proof.
  unfold single_line. cbn [list_ascii_of_string forallb].
  intros [Hc Hs]%andb_prop. split; [|done].
  rewrite Ascii.eqb_sym. by destruct (Ascii.eqb c _).
Qed.

(** Inside a line, the closing delimiter is not found before its place. *)
Lemma delimiter_not_inside c mid rest :
  single_line (String c mid) = true →
  strip_prefix ("---" +:+ nl) (String c (mid +:+ "---" +:+ nl +:+ rest)) = None.
Proof.
  intros [_ H1]%single_line_cons. cbn [strip_prefix String.append nl].
  change ("---" +:+ nl) with (String "-" (String "-" (String "-" nl))).
  cbn [strip_prefix]. destruct (Ascii.eqb "-" c); [|done].
  destruct mid as [|c2 mid]; [done|].
  apply single_line_cons in H1 as [_ H2]. rewrite str_app_cons.
  destruct (Ascii.eqb "-" c2); [|done].
  destruct mid as [|c3 mid]; [done|].
  apply single_line_cons in H2 as [_ H3]. rewrite str_app_cons.
  destruct (Ascii.eqb "-" c3); [|done].
  destruct mid as [|c4 mid]; [done|].
  apply single_line_cons in H3 as [H4 _]. rewrite str_app_cons.
  unfold nl. cbn [strip_prefix]. by rewrite H4.
Qed.

Lemma match_here_lit flags l pos s :
  re.match_here flags [re.Lit l] pos s
  = match strip_prefix l s with
    | Some s' => Some ((pos + String.length l)%nat, s')
    | None => None
    end.
Proof. reflexivity. Qed.

Lemma lazy_star_single_line mid rest pos :
  single_line mid = true →
  re.match_here 0 [re.LazyDotStar; re.Lit ("---" +:+ nl)] pos
    (mid +:+ "---" +:+ nl +:+ rest)
  = Some ((pos + String.length mid + 4)%nat, rest).
Proof.
  revert pos. induction mid as [|c mid IH]; intros pos Hmid.
  - rewrite match_here_lazy_unfold, match_here_lit, str_app_nil.
    change ("---" +:+ nl +:+ rest) with (("---" +:+ nl) +:+ rest).
    rewrite strip_prefix_app. cbn [String.length]. do 2 f_equal.
    change (String.length ("---" +:+ nl)) with 4%nat. lia.
  - rewrite (str_app_cons c mid), match_here_lazy_unfold, match_here_lit.
    rewrite (delimiter_not_inside _ _ _ Hmid).
    apply single_line_cons in Hmid as [Hc Hmid].
    unfold re.dot_matches. rewrite Ascii.eqb_sym, Hc.
    change (re.dotall 0 || negb false) with true. cbv iota.
    rewrite (IH _ Hmid). cbn [String.length]. do 2 f_equal. lia.
Qed.

(** What the stripping of [get_content] does remove: a header that opens
    and closes on the first line, [---...---], with the newline after it.
    (A header spread over several lines is kept, see
    [strip_front_matter_delimiter_line].) *)
Theorem strip_front_matter_one_line (mid rest : string) :
  single_line mid = true →
  strip_front_matter ("---" +:+ mid +:+ "---" +:+ nl +:+ rest) = rest.
Proof.
  intros Hmid. unfold strip_front_matter, re.sub.
  change (slice_to ("---" +:+ mid +:+ "---" +:+ nl +:+ rest) 3) with "---".
  rewrite String.eqb_refl. cbn [re.sub_scan].
  change (negb (re.S =? 0) && Nat.eqb (Z.to_nat re.S) 0) with false. cbv iota.
  assert (re.match_here 0 front_matter_re 0
            ("---" +:+ mid +:+ "---" +:+ nl +:+ rest)
          = Some (S (6 + String.length mid), rest)) as ->.
  { change (re.match_here 0 front_matter_re 0
              ("---" +:+ mid +:+ "---" +:+ nl +:+ rest))
      with (re.match_here 0 [re.LazyDotStar; re.Lit ("---" +:+ nl)] 3
              (mid +:+ "---" +:+ nl +:+ rest)).
    rewrite (lazy_star_single_line mid rest 3 Hmid). do 2 f_equal. lia. }
  cbn [Nat.eqb]. cbv iota. unfold front_matter_re.
  by rewrite sub_scan_off_start.
Qed.

(** ** More on the web root and relative URLs *)

Lemma parents_length (p : PurePath) : length (parents p) = length p.
Proof. unfold parents. by rewrite length_map, length_rev, length_seq. Qed.

Lemma str_join_dotdots_nil n :
  str_join "/" (repeat ".." (S n)) +:+ "/" = dotdots (S n).
Proof.
  induction n as [|n IH]; [done|].
  change (repeat ".." (S (S n))) with (".." :: repeat ".." (S n)).
  change (str_join "/" (".." :: repeat ".." (S n)))
    with (".." +:+ "/" +:+ str_join "/" (repeat ".." (S n))).
  rewrite !str_app_assoc, IH. reflexivity.
Qed.

Section WebMore.

Variable resolve : string → string → string.
Variable str_of_object : pyval → string.
Variable str_format : string → list (string * pyval) → result string.

(** A replacement field with a format specification, as in a root
    template [/{base}/{year:d}/]: the plain field before it is filled in
    here, and the template from the field with the specification on is
    formatted by [str_format]. *)
Lemma format_scan_format_spec (kwargs : list (string * pyval)) (b : pyval) :
  List.find (fun kv => String.eqb kv.1 "base") kwargs = Some ("base", b) →
  format_scan str_of_object str_format kwargs None "/{base}/{year:d}/"
  = rest ← str_format "{year:d}/" kwargs;
    Ok ("/" +:+ py_str str_of_object b +:+ "/" +:+ rest).
Proof.
  intros Hb.
  change (format_scan str_of_object str_format kwargs None "/{base}/{year:d}/")
    with (rest ← match List.find (fun kv => String.eqb kv.1 "base") kwargs with
                 | Some kv =>
                     rest ← (rest ← str_format "{year:d}/" kwargs;
                             Ok (String "/" rest));
                     Ok (py_str str_of_object kv.2 +:+ rest)
                 | None => Raise (KeyError "base")
                 end;
          Ok (String "/" rest)).
  rewrite Hb. cbn [snd]. by destruct (str_format _ _).
Qed.

(** Absolute mode with a configured root template that has a format
    specification: [get_web_root] returns whenever Python's formatter
    does, the course unchanged. *)
Lemma get_web_root_format_spec (c : Course) :
  args_absolute c = true →
  force_relative_build c = false →
  config c !! "root_url" = Some (PyStr "/{base}/{year:d}/") →
  get_web_root resolve str_of_object str_format c
  = rest ← str_format "{year:d}/"
             [("base", dict_get (config c) "base_dir");
              ("code", dict_get (config c) "code");
              ("year", dict_get (config c) "year");
              ("theme", PyStr (theme_path c))];
    Ok ("/" +:+ py_str str_of_object (dict_get (config c) "base_dir") +:+ "/"
        +:+ rest, c).
Proof.
  intros Habs Hforce Hroot. unfold get_web_root. rewrite Hroot.
  cbn [mbind result_bind]. rewrite Habs, Hforce. cbn [negb orb].
  unfold dict_get at 1. rewrite Hroot. cbn [default from_option id].
  rewrite (format_scan_format_spec _ (dict_get (config c) "base_dir"))
    by reflexivity.
  by destruct (str_format _ _).
Qed.


(** Outside absolute mode, or when a relative build is forced, the web
    root is the resolved build directory followed by a slash, whatever
    [root_url] says. *)
Theorem get_web_root_relative (c c' : Course) (root : string) :
  args_absolute c = false ∨ force_relative_build c = true →
  get_web_root resolve str_of_object str_format c = Ok (root, c') →
  root = resolve (build_dir c) (theme_path c) +:+ "/".
Proof.
  intros Hmode. unfold get_web_root.
  assert (negb (args_absolute c) || force_relative_build c = true) as Hrel.
  { destruct Hmode as [-> | ->]; [done|]. by destruct (args_absolute c). }
  destruct (config c !! "root_url") as [v|].
  - cbn [mbind result_bind]. rewrite Hrel. by intros [= <- _].
  - destruct (subscript (config c) "themes") as [themes|]; [|done].
    cbn [mbind result_bind]. destruct (len themes) as [n|]; [|done].
    cbn [mbind result_bind].
    match goal with |- context [with_config ?cfg c] => set (c1 := with_config cfg c) end.
    change (args_absolute c1) with (args_absolute c).
    change (force_relative_build c1) with (force_relative_build c).
    rewrite Hrel. by intros [= <- _].
Qed.

(** Relative mode in full, for an item whose [out_file] has at least one
    part: the root prefix (without its first character) is cut off when
    the URL has it, and the result climbs one [../] per directory of
    [out_file]; under a forced theme it climbs one more and descends into
    the theme's path. *)
Theorem make_relative_url_levels (c c' : Course) (out_file : PurePath)
    (root url : string) :
  get_web_root resolve str_of_object str_format c = Ok (root, c') →
  args_absolute c = false →
  out_file ≠ [] →
  let stripped :=
    if String.eqb (slice_to url (py_len root - 1)) (slice_from root 1)
    then slice_from url (py_len root - 1) else url in
  make_relative_url resolve str_of_object str_format c out_file url
  = Ok (match force_theme c with
        | Some t => dotdots (length out_file) +:+ path t +:+ "/" +:+ stripped
        | None => dotdots (length out_file - 1) +:+ stripped
        end, c').
Proof.
  intros Hroot Habs Hne stripped. unfold make_relative_url. rewrite Hroot.
  cbn [mbind result_bind].
  destruct (get_web_root_frame _ _ _ _ _ _ Hroot) as [-> ->]. rewrite Habs.
  rewrite parents_length. fold stripped.
  destruct out_file as [|seg out_file]; [done|]. cbn [length].
  replace (Z.of_nat (S (length out_file)) - 1)%Z
    with (Z.of_nat (length out_file)) by lia.
  destruct (force_theme c) as [t|].
  - unfold list_times.
    replace (Z.of_nat (length out_file) + 1)%Z
      with (Z.of_nat (S (length out_file))) by lia.
    rewrite Nat2Z.id. rewrite <- str_join_dotdots_nil.
    by rewrite !str_app_assoc.
  - replace (S (length out_file) - 1)%nat with (length out_file) by lia.
    destruct (length out_file) as [|n].
    + reflexivity.
    + destruct (Z.ltb_spec 0 (Z.of_nat (S n))); [|lia].
      unfold list_times. rewrite Nat2Z.id. by rewrite str_join_dotdots.
Qed.

End WebMore.


Section RootTemplate.

Variable resolve : string → string → string.
Variable str_of_object : pyval → string.
Variable str_format : string → list (string * pyval) → result string.


End RootTemplate.

(** ** More on the pipeline *)

Section PipelineMore.

Variable World : Type.
Variable num_runs : processor_class → Z.
Variable visit : processor_class → addr → World → result World.

Lemma run_visits_raise vs1 p item vs2 w w1 e :
  run_visits World visit vs1 w = Ok w1 →
  visit p item w1 = Raise e →
  run_visits World visit (vs1 ++ (p, item) :: vs2) w = Raise e.
Proof.
  intros H1 He. rewrite run_visits_app, H1. cbn [mbind result_bind run_visits].
  by rewrite He.
Qed.

(** A visit that raises stops the pipeline: [process] raises the same
    exception, and none of the visits scheduled after it is made. *)
Theorem process_stops_at_failure (c : Course) (w w1 : World)
    (done_ rest : list (processor_class * addr)) (p : processor_class)
    (item : addr) (e : exn) :
  visit_schedule num_runs c = done_ ++ (p, item) :: rest →
  run_visits World visit done_ w = Ok w1 →
  visit p item w1 = Raise e →
  process World num_runs visit c w = Raise e.
Proof.
  intros Hsched Hdone He. unfold process. rewrite run_processors_run.
  change (processor_classes ≫= _) with (visit_schedule num_runs c).
  rewrite Hsched. by eapply run_visits_raise.
Qed.

Lemma run_visits_ok vs w :
  (∀ p item w0, ∃ w1, visit p item w0 = Ok w1) →
  ∃ w', run_visits World visit vs w = Ok w'.
Proof.
  intros Hok. revert w. induction vs as [|[p item] vs IH]; intros w.
  - by exists w.
  - cbn [run_visits]. destruct (Hok p item w) as [w1 ->]. apply IH.
Qed.

(** [process] returns when no visit raises; and when there is nothing to
    visit (an empty structure, or no processor with a positive number of
    runs) it returns the world as it was, without a single visit. *)
Theorem process_returns (c : Course) (w : World) :
  ((∀ p item w0, ∃ w1, visit p item w0 = Ok w1) →
     ∃ w', process World num_runs visit c w = Ok w')
  ∧ (structure c = [] ∨ (∀ p, num_runs p ≤ 0) →
       visit_schedule num_runs c = []
       ∧ process World num_runs visit c w = Ok w).
Proof.
  split.
  - intros Hok. unfold process. rewrite run_processors_run. by apply run_visits_ok.
  - intros Hnone.
    assert (visit_schedule num_runs c = []) as Hs.
    { change (visit_schedule num_runs c)
        with (p ← processor_classes;
              passes p (Z.to_nat (num_runs p)) (structure c)).
      unfold processor_classes. cbn [mbind list_bind]. rewrite !passes_concat.
      destruct Hnone as [-> | Hruns].
      - assert (∀ (p : processor_class) k,
                  concat (replicate k ((p,.) <$> ([] : list addr))) = []) as Hnil.
        { intros p k. induction k as [|k IH]; [done|]. cbn. exact IH. }
        by rewrite !Hnil.
      - assert (∀ p, Z.to_nat (num_runs p) = 0%nat) as Hz
          by (intros p; specialize (Hruns p); lia).
        by rewrite !Hz. }
    split; [done|]. unfold process. rewrite run_processors_run.
    change (processor_classes ≫= _) with (visit_schedule num_runs c).
    by rewrite Hs.
Qed.

End PipelineMore.

(** ** More on the manifest *)

Lemma str_length_app (a b : string) :
  String.length (a +:+ b) = (String.length a + String.length b)%nat.
Proof.
  induction a as [|ch a IH]; [done|].
  rewrite str_app_cons. cbn [String.length]. by rewrite IH.
Qed.

Section ManifestMore.

Variable content_tree : heap → addr → pyval.
Variable yaml_dump : dict → result string.
Variable json_dump : dict → result string.

(** [save_manifest] deletes [args] and then [static_dir] from the
    configuration and raises [KeyError] for the first that is not there;
    so it cannot be run a second time on the course it has returned. *)
Theorem save_manifest_missing_key (c : Course) (files : gmap string string) :
  (config c !! "args" = None →
     save_manifest content_tree yaml_dump json_dump c files
     = Raise (KeyError "args"))
  ∧ (is_Some (config c !! "args") → config c !! "static_dir" = None →
       save_manifest content_tree yaml_dump json_dump c files
       = Raise (KeyError "static_dir"))
  ∧ (∀ c' files',
       save_manifest content_tree yaml_dump json_dump c files = Ok (c', files') →
       ∀ files'', save_manifest content_tree yaml_dump json_dump c' files''
                  = Raise (KeyError "args")).
Proof.
  assert (∀ c0 files0, config c0 !! "args" = None →
            save_manifest content_tree yaml_dump json_dump c0 files0
            = Raise (KeyError "args")) as Hargs.
  { intros c0 files0 Ha. unfold save_manifest, manifest_of, del, dict_update.
    cbn [fold_left fst snd]. by rewrite lookup_insert_ne, Ha. }
  split_and!.
  - apply Hargs.
  - intros [a Ha] Hs. unfold save_manifest, manifest_of, del, dict_update.
    cbn [fold_left fst snd]. rewrite lookup_insert_ne, Ha by done.
    cbn [mbind result_bind].
    by rewrite lookup_delete_ne, lookup_insert_ne, Hs.
  - intros c' files' H files''. apply Hargs.
    unfold save_manifest in H.
    destruct (manifest_of content_tree c) as [manifest|] eqn:Hm; [|done].
    cbn [mbind result_bind] in H.
    destruct (yaml_dump manifest) as [y|]; [|done]. cbn [mbind result_bind] in H.
    destruct (json_dump manifest) as [j|]; [|done]. cbn [mbind result_bind] in H.
    injection H as <- _. apply manifest_of_ok in Hm as (-> & _ & _).
    cbn [config with_config]. rewrite lookup_delete_ne by done.
    apply lookup_delete_eq.
Qed.

(** The two files [save_manifest] writes, [MANIFEST.yml] and
    [MANIFEST.json] in the build directory, are the two dumps of one and
    the same mapping, the configuration it leaves in the course; every
    other file is untouched. *)
Theorem save_manifest_files (c c' : Course) (files files' : gmap string string) :
  save_manifest content_tree yaml_dump json_dump c files = Ok (c', files') →
  ∃ y j,
    yaml_dump (config c') = Ok y
    ∧ json_dump (config c') = Ok j
    ∧ files' !! os_path.join (build_dir c) ["MANIFEST.yml"] = Some y
    ∧ files' !! os_path.join (build_dir c) ["MANIFEST.json"] = Some j
    ∧ ∀ f, f ≠ os_path.join (build_dir c) ["MANIFEST.yml"] →
           f ≠ os_path.join (build_dir c) ["MANIFEST.json"] →
           files' !! f = files !! f.
Proof.
  unfold save_manifest.
  destruct (manifest_of content_tree c) as [manifest|] eqn:Hm; [|done].
  cbn [mbind result_bind].
  destruct (yaml_dump manifest) as [y|] eqn:Hy; [|done]. cbn [mbind result_bind].
  destruct (json_dump manifest) as [j|] eqn:Hj; [|done]. cbn [mbind result_bind].
  intros [= <- <-]. cbn [config with_config build_dir].
  exists y, j. split_and!; [done|done| |apply lookup_insert_eq|].
  - rewrite lookup_insert_ne; [apply lookup_insert_eq|].
    unfold os_path.join. cbn [fold_left]. intros Heq.
    apply (f_equal String.length) in Heq.
    revert Heq. unfold os_path.join2. cbv beta iota.
    change (os_path.is_sep "M") with false. cbv iota.
    destruct ((String.length (build_dir c) =? 0)%nat
              || os_path.ends_with_sep (build_dir c));
      rewrite ?str_length_app; cbn [String.length]; lia.
  - intros f Hf1 Hf2. by rewrite !lookup_insert_ne.
Qed.

End ManifestMore.

(** ** The configuration *)

Section ConfigFacts.

Variable path_object : Path → pyval.
Variable args_object : Args → pyval.
Variable current_year : Z.
Variable exists_ : Path → bool.
Variable load_yaml : Path → pyval.
Variable str_of_path : Path → string.
Variable update_from_iterable : dict → pyval → result dict.

Abbreviation defaults := (default_config path_object current_year).
Abbreviation load :=
  (load_config path_object args_object current_year exists_ load_yaml
     str_of_path update_from_iterable).

(** The keys [default_config] sets. *)
Lemma default_config_keys args k :
  k ∈ ["static_dir"; "build_pdf"; "num_pdf_runs"; "year"; "format_version";
       "mathjax_url"; "themes"] →
  is_Some (defaults args !! k).
Proof.
  intros Hk. unfold default_config, dict_of, dict_update.
  cbn [fold_left fst snd].
  repeat (apply elem_of_cons in Hk as [->|Hk];
            [repeat (rewrite lookup_insert_ne by done);
             rewrite lookup_insert_eq; by eexists|]).
  by apply elem_of_nil in Hk.
Qed.

(** With a configuration file that holds a mapping, and no single file:
    every key of the file wins over the default of the same name, the
    defaults fill in the rest, and [args] is the argument object even if
    the file has a key of that name. *)
Theorem load_config_merges (args : Args) (m : dict) :
  exists_ (get_config_file args) = true →
  load_yaml (get_config_file args) = PyDict m →
  given (args_single_file args) = false →
  ∃ cfg, load args = Ok cfg
         ∧ cfg !! "args" = Some (args_object args)
         ∧ ∀ k, k ≠ "args" →
             cfg !! k = match m !! k with
                        | Some v => Some v
                        | None => defaults args !! k
                        end.
Proof.
  intros Hex Hload Hsingle. unfold load_config. rewrite Hex, Hload, Hsingle.
  cbn [update mbind result_bind]. eexists. split; [done|]. split.
  - apply lookup_insert_eq.
  - intros k Hk. rewrite lookup_insert_ne by done. rewrite lookup_union.
    destruct (m !! k), (defaults args !! k); done.
Qed.

(** Without a configuration file: the build stops with an exception that
    names the file, unless a single file was asked for; then the defaults
    are the configuration, with the single file as the whole structure,
    or with no structure at all when the file name given is empty. *)
Theorem load_config_missing_file (args : Args) :
  exists_ (get_config_file args) = false →
  (args_single_file args = None →
     load args = Raise (Exception ("The config file "
                                   +:+ str_of_path (get_config_file args)
                                   +:+ " does not exist.")))
  ∧ (∀ s, args_single_file args = Some s →
       ∃ cfg, load args = Ok cfg
              ∧ cfg !! "args" = Some (args_object args)
              ∧ cfg !! "structure"
                = (if String.eqb s "" then None
                   else Some (PyList [standalone_entry s]))
              ∧ ∀ k, k ≠ "args" → k ≠ "structure" →
                  cfg !! k = defaults args !! k).
Proof.
  intros Hex. split.
  - intros Hs. unfold load_config. by rewrite Hex, Hs.
  - intros s Hs. unfold load_config. rewrite Hex, Hs.
    cbn [mbind result_bind given default from_option id].
    eexists. split; [done|]. split; [apply lookup_insert_eq|].
    destruct (String.eqb s ""); cbn [negb].
    + split.
      * rewrite lookup_insert_ne by done.
        unfold default_config, dict_of, dict_update. cbn [fold_left fst snd].
        repeat (rewrite lookup_insert_ne by done). apply lookup_empty.
      * intros k Hk _. by rewrite lookup_insert_ne.
    + split.
      * rewrite lookup_insert_ne by done. unfold dict_update.
        cbn [fold_left fst snd]. apply lookup_insert_eq.
      * intros k Hk Hst. rewrite lookup_insert_ne by done. unfold dict_update.
        cbn [fold_left fst snd]. by rewrite lookup_insert_ne.
Qed.

(** When a single file is asked for, the structure of the configuration
    is that one stand-alone entry, whatever the configuration file says. *)
Theorem load_config_single_file (args : Args) (s : string) (cfg : dict) :
  args_single_file args = Some s →
  s ≠ "" →
  load args = Ok cfg →
  cfg !! "structure" = Some (PyList [standalone_entry s])
  ∧ cfg !! "args" = Some (args_object args).
Proof.
  intros Hs Hne. unfold load_config. rewrite Hs.
  cbn [given default from_option id].
  destruct (String.eqb_spec s "") as [?|_]; [done|]. cbn [negb].
  destruct (if exists_ (get_config_file args) then _ else _) as [config|]; [|done].
  cbn [mbind result_bind]. intros [= <-]. split; [|apply lookup_insert_eq].
  rewrite lookup_insert_ne by done. unfold dict_update. cbn [fold_left fst snd].
  apply lookup_insert_eq.
Qed.

Lemma load_config_has_keys (args : Args) (cfg : dict) :
  load args = Ok cfg →
  (exists_ (get_config_file args) = false
   ∨ ∃ m, load_yaml (get_config_file args) = PyDict m) →
  is_Some (cfg !! "args")
  ∧ ∀ k, k ∈ ["static_dir"; "build_pdf"; "num_pdf_runs"; "year";
              "format_version"; "mathjax_url"; "themes"] →
         is_Some (cfg !! k).
Proof.
  intros Hload Hfile. unfold load_config in Hload.
  assert (∃ config,
            (if exists_ (get_config_file args)
             then update update_from_iterable (defaults args)
                    (load_yaml (get_config_file args))
             else match args_single_file args with
                  | Some _ => Ok (defaults args)
                  | None =>
                      Raise (Exception ("The config file "
                                        +:+ str_of_path (get_config_file args)
                                        +:+ " does not exist."))
                  end) = Ok config
            ∧ ∀ k, is_Some (defaults args !! k) → is_Some (config !! k))
    as (config & Hcfg & Hkeys).
  { destruct (exists_ (get_config_file args)) eqn:Hex.
    - destruct Hfile as [?|[m Hm]]; [done|]. rewrite Hm. cbn [update].
      eexists. split; [done|]. intros k Hk. apply lookup_union_is_Some. by right.
    - destruct (args_single_file args); [|done]. by eexists. }
  rewrite Hcfg in Hload. cbn [mbind result_bind] in Hload.
  injection Hload as <-. split; [rewrite lookup_insert_eq; by eexists|].
  intros k Hk. apply lookup_insert_is_Some'. right.
  pose proof (Hkeys k (default_config_keys args k Hk)) as Hc.
  destruct (given (args_single_file args)); [|done].
  unfold dict_update. cbn [fold_left fst snd].
  apply lookup_insert_is_Some'. by right.
Qed.

(** A configuration that [load_config] has built has the two keys
    [save_manifest] deletes: for a course with that configuration the
    manifest is written whenever the two writers succeed. *)
Theorem load_config_then_save_manifest (args : Args) (cfg : dict) (c : Course)
    (content_tree : heap → addr → pyval)
    (yaml_dump json_dump : dict → result string) (files : gmap string string) :
  load args = Ok cfg →
  (exists_ (get_config_file args) = false
   ∨ ∃ m, load_yaml (get_config_file args) = PyDict m) →
  config c = cfg →
  (∀ m, ∃ y, yaml_dump m = Ok y) →
  (∀ m, ∃ j, json_dump m = Ok j) →
  ∃ c' files', save_manifest content_tree yaml_dump json_dump c files
               = Ok (c', files').
Proof.
  intros Hload Hfile <- Hy Hj.
  destruct (load_config_has_keys _ _ Hload Hfile) as [[a Ha] Hkeys].
  destruct (Hkeys "static_dir") as [s Hs]; [apply elem_of_cons; by left|].
  by eapply save_manifest_returns.
Qed.

End ConfigFacts.

(** ** Themes *)

Section ThemeFacts.

Variable exists_ : Path → bool.
Variable module_dir : Path.
Variable package_dir : Path.

Lemma first_existing_found name dirs p :
  first_existing exists_ name dirs = Some p →
  ∃ before d after,
    dirs = before ++ d :: after ∧ p = Path_div d name ∧ exists_ p = true
    ∧ Forall (fun d' => exists_ (Path_div d' name) = false) before.
Proof.
  induction dirs as [|d dirs IH]; [done|]. cbn [first_existing].
  destruct (exists_ (Path_div d name)) eqn:Hd.
  - intros [= <-]. exists [], d, dirs. by split_and!.
  - intros H. destruct (IH H) as (before & d' & after & -> & -> & Hp & Hall).
    exists (d :: before), d', after. split_and!; [done|done|done|]. by constructor.
Qed.

Lemma first_existing_none name dirs :
  first_existing exists_ name dirs = None →
  Forall (fun d => exists_ (Path_div d name) = false) dirs.
Proof.
  induction dirs as [|d dirs IH]; [constructor|]. cbn [first_existing].
  destruct (exists_ (Path_div d name)) eqn:Hd; [done|].
  intros H. constructor; [done|by apply IH].
Qed.

(** [find_theme] returns the theme's directory under the first of the
    candidate directories that has it (so the result exists, and no
    earlier candidate has the theme); a configured [themes_dir] is the
    first candidate; and when no candidate has the theme the exception
    names the theme. *)
Theorem find_theme_first (args : Args) (config : dict) (name : string) :
  (∀ p, find_theme exists_ module_dir package_dir args config (PyStr name) = Ok p →
     ∃ dirs before d after,
       theme_directories module_dir package_dir args config = Ok dirs
       ∧ dirs = before ++ d :: after
       ∧ p = Path_div d name ∧ exists_ p = true
       ∧ Forall (fun d' => exists_ (Path_div d' name) = false) before)
  ∧ (∀ s, config !! "themes_dir" = Some (PyStr s) →
       exists_ (Path_div (Path_of s) name) = true →
       find_theme exists_ module_dir package_dir args config (PyStr name)
       = Ok (Path_div (Path_of s) name))
  ∧ (∀ dirs, theme_directories module_dir package_dir args config = Ok dirs →
       Forall (fun d => exists_ (Path_div d name) = false) dirs →
       find_theme exists_ module_dir package_dir args config (PyStr name)
       = Raise (Exception ("Couldn't find theme " +:+ name))).
Proof.
  split_and!.
  - intros p. unfold find_theme.
    destruct (theme_directories module_dir package_dir args config) as [dirs|];
      [|done].
    cbn [mbind result_bind].
    destruct (first_existing exists_ name dirs) as [p'|] eqn:Hf; [|done].
    intros [= <-]. destruct (first_existing_found _ _ _ Hf)
      as (before & d & after & ? & ? & ? & ?).
    by exists dirs, before, d, after.
  - intros s Hs Hex. unfold find_theme, theme_directories. rewrite Hs.
    cbn [to_path mbind result_bind app first_existing]. by rewrite Hex.
  - intros dirs Hdirs Hnone. unfold find_theme. rewrite Hdirs.
    cbn [mbind result_bind].
    destruct (first_existing exists_ name dirs) as [p|] eqn:Hf; [|done].
    destruct (first_existing_found _ _ _ Hf) as (before & d & after & -> & -> & Hp & _).
    apply Forall_app in Hnone as [_ Hd]. apply Forall_cons in Hd as [Hd _].
    congruence.
Qed.

End ThemeFacts.

(** ** Output file, URL and file names *)

Lemma rfind_from_shift f i s :
  os_path.rfind_from f i s = (fun j => (i + j)%nat) <$> os_path.rfind_from f 0 s.
Proof.
  revert i. induction s as [|c s IH]; intros i; [done|].
  cbn [os_path.rfind_from]. rewrite (IH (S i)), (IH 1%nat).
  destruct (os_path.rfind_from f 0 s) as [j|]; cbn.
  - f_equal. lia.
  - destruct (f c); cbn; [f_equal; lia|done].
Qed.

Lemma rfind_cons f c s :
  os_path.rfind f (String c s)
  = match os_path.rfind f s with
    | Some j => Some (S j)
    | None => if f c then Some 0%nat else None
    end.
Proof.
  unfold os_path.rfind. cbn [os_path.rfind_from]. rewrite rfind_from_shift.
  by destruct (os_path.rfind_from f 0 s).
Qed.

Lemma rfind_drop f n s :
  os_path.rfind f (str_drop n s)
  = match os_path.rfind f s with
    | Some j => if (n <=? j)%nat then Some (j - n)%nat else None
    | None => None
    end.
Proof.
  revert n. induction s as [|c s IH]; intros n.
  - by destruct n.
  - destruct n as [|n].
    + cbn [str_drop]. destruct (os_path.rfind f (String c s)) as [j|]; [|done].
      cbn. f_equal. lia.
    + cbn [str_drop]. rewrite IH, rfind_cons.
      destruct (os_path.rfind f s) as [j|]; [done|]. by destruct (f c).
Qed.

Lemma str_drop_drop n m s : str_drop n (str_drop m s) = str_drop (m + n) s.
Proof.
  revert s. induction m as [|m IH]; intros s; [done|].
  destruct s as [|c s]; [by destruct n|]. cbn [str_drop Nat.add]. apply IH.
Qed.

Lemma str_take_drop n s : str_take n s +:+ str_drop n s = s.
Proof.
  revert s. induction n as [|n IH]; intros s; [by destruct s|].
  destruct s as [|c s]; [done|]. cbn [str_take str_drop].
  rewrite str_app_cons. by rewrite IH.
Qed.

Lemma str_drop_0 s : str_drop 0 s = s.
Proof. by destruct s. Qed.

Lemma str_app_nil_r (s : string) : s +:+ "" = s.
Proof. induction s as [|c s IH]; [done|]. by rewrite str_app_cons, IH. Qed.

(** [url] joins the parts of [out_path] with a slash and [url_clean] with
    a hyphen.  [out_file] joins them as [os.path.join] does: for two
    parts [a] and [b] it is [b] alone when [b] starts with a slash, [a]
    followed by [b] when [a] is empty or ends with a slash, and [a/b]
    otherwise; so the output file is the URL exactly when [a] is not
    empty and does not end with a slash and [b] does not start with
    one. *)
Theorem out_file_and_url (h : heap) (self : Item) :
  (∀ a, out_path h self = Ok [a] →
        out_file h self = Ok a ∧ url h self = Ok a ∧ url_clean h self = Ok a)
  ∧ (∀ a b, out_path h self = Ok [a; b] →
        url h self = Ok (a +:+ "/" +:+ b)
        ∧ url_clean h self = Ok (a +:+ "-" +:+ b)
        ∧ out_file h self
          = Ok (match strip_prefix "/" b with
                | Some _ => b
                | None =>
                    if String.eqb a "" || os_path.ends_with_sep a then a +:+ b
                    else a +:+ "/" +:+ b
                end)
        ∧ (out_file h self = url h self
           ↔ strip_prefix "/" b = None ∧ a ≠ ""
             ∧ os_path.ends_with_sep a = false)).
Proof.
  split.
  - intros a Ha. unfold out_file, url, url_clean. rewrite Ha. by split_and!.
  - intros a b Hab.
    assert (out_file h self
            = Ok (match strip_prefix "/" b with
                  | Some _ => b
                  | None =>
                      if String.eqb a "" || os_path.ends_with_sep a then a +:+ b
                      else a +:+ "/" +:+ b
                  end)) as Hfile.
    { unfold out_file. rewrite Hab.
      cbn [mbind result_bind os_path.join fold_left]. f_equal.
      assert ((String.length a =? 0)%nat = String.eqb a "") as Hlen
        by (by destruct a).
      unfold os_path.join2. rewrite Hlen. destruct b as [|c b].
      - cbn [strip_prefix]. rewrite !str_app_nil_r.
        by destruct (String.eqb a "" || os_path.ends_with_sep a).
      - cbn [strip_prefix]. unfold os_path.is_sep. rewrite Ascii.eqb_sym.
        destruct (Ascii.eqb "/" c); [by destruct b|done]. }
    assert (url h self = Ok (a +:+ "/" +:+ b)) as Hurl
      by (unfold url; by rewrite Hab).
    split_and!; [done|unfold url_clean; by rewrite Hab|done|].
    rewrite Hfile, Hurl. split.
    + assert (∀ x, x = a +:+ "/" +:+ b →
                String.length x = S (String.length a + String.length b)) as Hlen.
      { intros x ->. rewrite !str_length_app. cbn [String.length]. lia. }
      destruct (strip_prefix "/" b); [intros [= Heq%Hlen]; lia|].
      destruct (String.eqb_spec a "") as [->|Ha]; cbn [orb].
      * intros [= Heq%Hlen]. rewrite str_length_app in Heq. lia.
      * destruct (os_path.ends_with_sep a); [|done].
        intros [= Heq%Hlen]. rewrite str_length_app in Heq. lia.
    + intros (-> & Ha & ->). by destruct (String.eqb_spec a "").
Qed.

(** The file name of an item's source holds no directory separator; its
    extension is the one [get_content] decides on, the directories of the
    source playing no part; and [base_file] is the file name without that
    extension. *)
Theorem in_file_extension (self : Item) :
  os_path.rfind os_path.is_sep (in_file self) = None
  ∧ (os_path.splitext (in_file self)).2 = (os_path.splitext (source self)).2
  ∧ base_file self +:+ (os_path.splitext (source self)).2 = in_file self.
Proof.
  assert (os_path.rfind os_path.is_sep (in_file self) = None) as Hsep.
  { unfold in_file, basename.
    destruct (os_path.rfind os_path.is_sep (source self)) as [i|] eqn:Hi; [|done].
    rewrite rfind_drop, Hi. destruct (Nat.leb_spec (S i) i); [lia|done]. }
  assert ((os_path.splitext (in_file self)).2 = (os_path.splitext (source self)).2)
    as Hext.
  { unfold os_path.splitext at 1. rewrite Hsep. clear Hsep.
    unfold in_file, basename, os_path.splitext.
    destruct (os_path.rfind os_path.is_sep (source self)) as [i|] eqn:Hi; [|done].
    rewrite rfind_drop.
    destruct (os_path.rfind os_path.is_dot (source self)) as [d|]; [|done].
    destruct (Nat.leb_spec (S i) d) as [Hle|Hlt]; [|done].
    cbn [Nat.leb andb]. unfold os_path.has_non_dot.
    rewrite Nat.sub_0_r, str_drop_0.
    destruct (existsb _ _); cbn [snd]; [|done].
    rewrite str_drop_drop. f_equal. lia. }
  split_and!; [done|done|].
  rewrite <- Hext. unfold base_file, os_path.splitext.
  destruct (os_path.rfind os_path.is_dot (in_file self)) as [d|].
  - destruct (_ && _); cbn [fst snd]; [apply str_take_drop|apply str_app_nil_r].
  - cbn [fst snd]. apply str_app_nil_r.
Qed.

(** ** The further properties on the sample course *)

Example load_structure_rich :
  load_structure sample_slugify (sample_course false rich_structure)
  = Ok rich_course.
Proof. vm_compute. reflexivity. Qed.

(** A call that evaluates to a result returns it. *)
Lemma returns_of_check {A} (r : result A) :
  match r with Ok _ => True | Raise _ => False end → ∃ x, r = Ok x.
Proof. destruct r; [by eexists|done]. Qed.

Ltac returned r x H :=
  destruct (returns_of_check r) as [x H]; [vm_compute; exact I|].

Lemma load_item_raises_KeyError_witness :
  ∃ e,
    load_item sample_slugify part_with_standalone None [] = Raise e
    ∧ ∃ before r after,
        records part_with_standalone = before ++ r :: after
        ∧ forallb registered before = true
        ∧ registered r = false
        ∧ e = KeyError (default "type" (d_type r))
        ∧ e = KeyError "standalone".
Proof.
  exists (KeyError "standalone").
  assert (load_item sample_slugify part_with_standalone None []
          = Raise (KeyError "standalone")) as Hload by reflexivity.
  split; [exact Hload|].
  destruct (load_item_raises_KeyError sample_slugify part_with_standalone None []
              (KeyError "standalone") Hload)
    as (before & r & after & H1 & H2 & H3 & H4).
  exists before, r, after. by split_and!.
Defined.

Lemma load_item_appends_witness :
  0%nat = length ([] : heap)
  ∧ ∃ new, part_with_chapter_store = [] ++ new
           ∧ length new = data_size part_with_chapter.
Proof.
  apply (load_item_appends sample_slugify part_with_chapter None [] 0%nat
           part_with_chapter_store).
  reflexivity.
Defined.

Lemma load_item_children_witness :
  ∃ c cs,
    part_with_chapter_store !! 0%nat
    = Some (set_content cs (init_item sample_slugify c part_with_chapter None))
    ∧ Forall2 (fun ch d' => ∃ it, part_with_chapter_store !! ch = Some it
                              ∧ loaded_as sample_slugify d' (Some 0%nat) it)
              cs (default [] (d_content part_with_chapter)).
Proof.
  apply (load_item_children sample_slugify part_with_chapter None [] 0%nat
           part_with_chapter_store).
  reflexivity.
Defined.

Lemma load_structure_frame_witness :
  loaded_course
  = with_structure (structure loaded_course) (store loaded_course)
      (sample_course false [part_with_chapter])
  ∧ ∃ new, store loaded_course
           = store (sample_course false [part_with_chapter]) ++ new.
Proof.
  apply (proj1 (load_structure_frame sample_slugify
                  (sample_course false [part_with_chapter])) loaded_course).
  vm_compute. reflexivity.
Defined.

Lemma yaml_active_marker_witness :
  ∃ self m, store rich_course !! 1%nat = Some self
            ∧ yaml 1 rich_course 1 true = Ok m
            ∧ m !! "active" = Some (PyInt 1).
Proof.
  returned (yaml 1 rich_course 1 true) m Hm.
  eexists _, m. split; [reflexivity|]. split; [exact Hm|].
  exact (yaml_active_marker 1 rich_course 1 _ eq_refl true m Hm).
Defined.

Lemma Part_yaml_chapters_witness :
  ∃ self m, store rich_course !! 0%nat = Some self
            ∧ cls self = Part
            ∧ yaml 2 rich_course 0 false = Ok m
            ∧ m !! "part-slug" = Some (PyStr "unit-1")
            ∧ ∃ ys, m !! "chapters" = Some (PyList (PyDict <$> ys))
                    ∧ Forall2 (fun j y => yaml 1 rich_course j false = Ok y)
                              [1; 3; 4]%nat ys.
Proof.
  returned (yaml 2 rich_course 0 false) m Hm.
  eexists _, m. split; [reflexivity|]. split; [reflexivity|]. split; [exact Hm|].
  exact (Part_yaml_chapters 1 rich_course 0 _ eq_refl false m eq_refl Hm).
Defined.

Lemma Chapter_yaml_names_witness :
  ∃ self m, store rich_course !! 2%nat = Some self
            ∧ cls self = Slides
            ∧ yaml 1 rich_course 2 false = Ok m
            ∧ ∃ u, url (store rich_course) self = Ok u
                   ∧ m !! "file" = Some (PyStr (u +:+ ".html"))
                   ∧ m !! "pdf" = Some (PyStr (u +:+ ".pdf"))
                   ∧ m !! "sidebar" = Some (PyBool true)
                   ∧ m !! "build_pdf" = Some (PyBool true)
                   ∧ m !! "slides" = Some (PyStr (u +:+ ".slides.html")).
Proof.
  returned (yaml 1 rich_course 2 false) m Hm.
  eexists _, m. split; [reflexivity|]. split; [reflexivity|]. split; [exact Hm|].
  exact (Chapter_yaml_names 0 rich_course 2 _ eq_refl false m
           (or_intror eq_refl) Hm).
Defined.

Lemma Recap_yaml_overrides_witness :
  ∃ self m, store rich_course !! 3%nat = Some self
            ∧ cls self = Recap
            ∧ yaml 1 rich_course 3 false = Ok m
            ∧ ∃ u, url (store rich_course) self = Ok u
                   ∧ m !! "build_pdf" = Some (PyBool false)
                   ∧ m !! "sidebar" = Some (PyBool false)
                   ∧ m !! "file" = Some (PyStr (u +:+ ".html"))
                   ∧ m !! "pdf" = Some (PyStr (u +:+ ".pdf")).
Proof.
  returned (yaml 1 rich_course 3 false) m Hm.
  eexists _, m. split; [reflexivity|]. split; [reflexivity|]. split; [exact Hm|].
  exact (Recap_yaml_overrides 0 rich_course 3 _ eq_refl false m eq_refl Hm).
Defined.

Lemma yaml_missing_config_key_witness :
  ∃ self, store (with_config ∅ rich_course) !! 1%nat = Some self
          ∧ cls self ≠ Url
          ∧ config (with_config ∅ rich_course) !! "author" = None
          ∧ yaml 1 (with_config ∅ rich_course) 1 true = Raise (KeyError "author").
Proof.
  eexists. split; [reflexivity|]. split; [discriminate|]. split; [reflexivity|].
  refine (proj1 (proj1 (yaml_missing_config_key 0 (with_config ∅ rich_course) 1 _
                          eq_refl true) _) eq_refl).
  discriminate.
Defined.

Lemma Chapter_header_in_part_witness :
  ∃ self pobj header,
    store rich_course !! 1%nat = Some self
    ∧ parent self = Some 0%nat
    ∧ store rich_course !! 0%nat = Some pobj
    ∧ Chapter_header 1 rich_course 1 = Ok header
    ∧ header !! "part" = Some (PyStr "Unit 1")
    ∧ header !! "part-slug" = Some (PyStr "unit-1")
    ∧ ∃ ys, header !! "chapters" = Some (PyList (PyDict <$> ys))
            ∧ Forall2 (fun j y => yaml 1 rich_course j (Nat.eqb j 1) = Ok y)
                      [1; 3; 4]%nat ys.
Proof.
  returned (Chapter_header 1 rich_course 1) header Hh.
  eexists _, _, header. split; [reflexivity|]. split; [reflexivity|].
  split; [reflexivity|]. split; [exact Hh|].
  exact (Chapter_header_in_part 1 rich_course 1 _ eq_refl 0%nat _ header
           eq_refl eq_refl Hh).
Defined.

Lemma Chapter_header_top_level_witness :
  ∃ self header,
    store rich_course !! 5%nat = Some self
    ∧ parent self = None
    ∧ cls self = Chapter
    ∧ Chapter_header 2 rich_course 5 = Ok header
    ∧ header !! "part" = None
    ∧ header !! "part-slug" = None
    ∧ ∃ ys, header !! "chapters" = Some (PyList (PyDict <$> ys))
            ∧ Forall2 (fun j y => yaml 2 rich_course j (Nat.eqb j 5) = Ok y)
                      [0; 5]%nat ys.
Proof.
  returned (Chapter_header 2 rich_course 5) header Hh.
  eexists _, header. split; [reflexivity|]. split; [reflexivity|].
  split; [reflexivity|]. split; [exact Hh|].
  exact (Chapter_header_top_level 2 rich_course 5 _ eq_refl header
           eq_refl (or_introl eq_refl) Hh).
Defined.

Lemma hidden_chapter_no_active_entry_witness :
  ∃ self pobj header,
    store rich_course !! 2%nat = Some self
    ∧ is_hidden self = true
    ∧ parent self = Some 0%nat
    ∧ store rich_course !! 0%nat = Some pobj
    ∧ Chapter_header 1 rich_course 2 = Ok header
    ∧ (2%nat ∉ visible (store rich_course) (content pobj))
    ∧ ∃ ys, header !! "chapters" = Some (PyList (PyDict <$> ys))
            ∧ Forall (fun y => y !! "active" = None) ys.
Proof.
  returned (Chapter_header 1 rich_course 2) header Hh.
  eexists _, _, header. split; [reflexivity|]. split; [reflexivity|].
  split; [reflexivity|]. split; [reflexivity|]. split; [exact Hh|].
  exact (hidden_chapter_no_active_entry 1 rich_course 2 0 _ _ header
           eq_refl eq_refl eq_refl eq_refl Hh).
Defined.

Lemma Introduction_header_links_witness :
  ∃ self header,
    store rich_course !! 6%nat = Some self
    ∧ cls self = Introduction
    ∧ Introduction_header 2 rich_course 6 = Ok header
    ∧ (∃ ys, header !! "links" = Some (PyList (PyDict <$> ys))
             ∧ Forall2 (fun j y => yaml 2 rich_course j false = Ok y)
                       [0; 5]%nat ys)
    ∧ (header !! "isPart" = Some (PyInt 1) ↔
         ∃ j it rest, navigable rich_course = j :: rest
                      ∧ store rich_course !! j = Some it ∧ cls it = Part)
    ∧ (header !! "isPart" = Some (PyInt 1) ∨ header !! "isPart" = None).
Proof.
  returned (Introduction_header 2 rich_course 6) header Hh.
  eexists _, header. split; [reflexivity|]. split; [reflexivity|].
  split; [exact Hh|].
  exact (Introduction_header_links 2 rich_course 6 _ eq_refl header eq_refl Hh).
Defined.

Lemma strip_front_matter_one_line_witness :
  single_line " title: x " = true
  ∧ strip_front_matter ("--- title: x ---" +:+ nl +:+ "Body") = "Body".
Proof.
  split; [reflexivity|].
  exact (strip_front_matter_one_line " title: x " "Body" eq_refl).
Defined.


Lemma get_web_root_relative_witness :
  ∃ root c',
    args_absolute (sample_course_rooted false) = false
    ∧ get_web_root sample_resolve sample_str_of_object sample_str_format (sample_course_rooted false)
      = Ok (root, c')
    ∧ root = "/base/code/".
Proof.
  returned (get_web_root sample_resolve sample_str_of_object sample_str_format
              (sample_course_rooted false)) r Hr.
  destruct r as [root c']. exists root, c'. split; [reflexivity|].
  split; [exact Hr|].
  exact (get_web_root_relative sample_resolve sample_str_of_object sample_str_format
           (sample_course_rooted false) c' root (or_introl eq_refl) Hr).
Defined.

Lemma make_relative_url_levels_witness :
  ∃ root c',
    get_web_root sample_resolve sample_str_of_object sample_str_format (sample_course false [])
    = Ok (root, c')
    ∧ args_absolute (sample_course false []) = false
    ∧ two_levels_deep ≠ []
    ∧ make_relative_url sample_resolve sample_str_of_object sample_str_format (sample_course false [])
        two_levels_deep "static/x.css"
      = Ok ("../../static/x.css", c').
Proof.
  assert (get_web_root sample_resolve sample_str_of_object sample_str_format (sample_course false [])
          = Ok ("/base/code/", sample_course_rooted false)) as Hr
    by (vm_compute; reflexivity).
  exists "/base/code/", (sample_course_rooted false).
  split; [exact Hr|]. split; [reflexivity|]. split; [discriminate|].
  assert (two_levels_deep ≠ []) as Hne by discriminate.
  exact (make_relative_url_levels sample_resolve sample_str_of_object sample_str_format
           (sample_course false []) (sample_course_rooted false) two_levels_deep
           "/base/code/" "static/x.css" Hr eq_refl Hne).
Defined.


Lemma process_stops_at_failure_witness :
  visit_schedule (fun _ => 1) loaded_course
  = [(SlugCollisionProcess, 0%nat); (SlugCollisionProcess, 2%nat);
     (LastBuiltProcess, 0%nat); (LastBuiltProcess, 2%nat)]
    ++ (PDFProcess, 0%nat)
       :: [(PDFProcess, 2%nat); (NotebookProcess, 0%nat); (NotebookProcess, 2%nat);
           (RenderProcess, 0%nat); (RenderProcess, 2%nat)]
  ∧ failing_pdf_visit PDFProcess 0%nat 4%nat = Raise (Exception "pdf")
  ∧ process nat (fun _ => 1) failing_pdf_visit loaded_course 0%nat
    = Raise (Exception "pdf").
Proof.
  split; [reflexivity|]. split; [reflexivity|].
  exact (process_stops_at_failure nat (fun _ => 1) failing_pdf_visit loaded_course
           0%nat 4%nat
           [(SlugCollisionProcess, 0%nat); (SlugCollisionProcess, 2%nat);
            (LastBuiltProcess, 0%nat); (LastBuiltProcess, 2%nat)]
           [(PDFProcess, 2%nat); (NotebookProcess, 0%nat); (NotebookProcess, 2%nat);
            (RenderProcess, 0%nat); (RenderProcess, 2%nat)]
           PDFProcess 0%nat (Exception "pdf") eq_refl eq_refl eq_refl).
Defined.

Lemma process_returns_witness :
  (∃ w', process nat (fun _ => 2) counting_visit loaded_course 0%nat = Ok w')
  ∧ process nat (fun _ => 0) failing_pdf_visit loaded_course 7%nat = Ok 7%nat.
Proof.
  split.
  - apply (proj1 (process_returns nat (fun _ => 2) counting_visit loaded_course
                    0%nat)).
    intros p item w0. by eexists.
  - apply (proj2 (process_returns nat (fun _ => 0) failing_pdf_visit loaded_course
                    7%nat)).
    right. intros p. lia.
Defined.

Lemma save_manifest_missing_key_witness :
  config (with_config ∅ loaded_course) !! "args" = None
  ∧ save_manifest sample_content_tree (fun _ => Ok "yaml") (fun _ => Ok "json")
      (with_config ∅ loaded_course) ∅
    = Raise (KeyError "args").
Proof.
  split; [reflexivity|].
  exact (proj1 (save_manifest_missing_key sample_content_tree (fun _ => Ok "yaml")
                  (fun _ => Ok "json") (with_config ∅ loaded_course) ∅) eq_refl).
Defined.

Lemma save_manifest_files_witness :
  ∃ c' files',
    save_manifest sample_content_tree (fun _ => Ok "yaml") (fun _ => Ok "json")
      loaded_course ∅ = Ok (c', files')
    ∧ files' !! "/base/code/MANIFEST.yml" = Some "yaml"
    ∧ files' !! "/base/code/MANIFEST.json" = Some "json".
Proof.
  returned (save_manifest sample_content_tree (fun _ => Ok "yaml")
              (fun _ => Ok "json") loaded_course ∅) r Hr.
  destruct r as [c' files']. exists c', files'. split; [exact Hr|].
  destruct (save_manifest_files sample_content_tree (fun _ => Ok "yaml")
              (fun _ => Ok "json") loaded_course c' ∅ files' Hr)
    as (y & j & Hy & Hj & Hfy & Hfj & _).
  injection Hy as <-. injection Hj as <-. split; [exact Hfy|exact Hfj].
Defined.

Lemma load_config_merges_witness :
  given (args_single_file sample_args) = false
  ∧ ∃ cfg,
      load_config sample_path_object sample_args_object 2024 (fun _ => true)
        (fun _ => PyDict sample_loaded_yaml) sample_str_of_path sample_update
        sample_args = Ok cfg
      ∧ cfg !! "args" = Some (PyObj "Namespace()")
      ∧ cfg !! "build_pdf" = Some (PyBool false)
      ∧ cfg !! "num_pdf_runs"
        = default_config sample_path_object 2024 sample_args !! "num_pdf_runs".
Proof.
  split; [reflexivity|].
  destruct (load_config_merges sample_path_object sample_args_object 2024
              (fun _ => true) (fun _ => PyDict sample_loaded_yaml)
              sample_str_of_path sample_update sample_args sample_loaded_yaml
              eq_refl eq_refl eq_refl) as (cfg & Hcfg & Hargs & Hkeys).
  exists cfg. split; [exact Hcfg|]. split; [exact Hargs|]. split.
  - rewrite (Hkeys "build_pdf") by discriminate. reflexivity.
  - rewrite (Hkeys "num_pdf_runs") by discriminate. reflexivity.
Defined.

Lemma load_config_missing_file_witness :
  args_single_file sample_args = None
  ∧ load_config sample_path_object sample_args_object 2024 (fun _ => false)
      (fun _ => PyNone) sample_str_of_path sample_update sample_args
    = Raise (Exception "The config file course/config.yml does not exist.").
Proof.
  split; [reflexivity|].
  exact (proj1 (load_config_missing_file sample_path_object sample_args_object 2024
                  (fun _ => false) (fun _ => PyNone) sample_str_of_path
                  sample_update sample_args eq_refl) eq_refl).
Defined.

Lemma load_config_single_file_witness :
  ∃ cfg,
    args_single_file sample_single_args = Some "notes.md"
    ∧ load_config sample_path_object sample_args_object 2024 (fun _ => true)
        (fun _ => PyDict sample_loaded_yaml) sample_str_of_path sample_update
        sample_single_args = Ok cfg
    ∧ cfg !! "structure" = Some (PyList [standalone_entry "notes.md"])
    ∧ cfg !! "args" = Some (PyObj "Namespace()").
Proof.
  returned (load_config sample_path_object sample_args_object 2024 (fun _ => true)
              (fun _ => PyDict sample_loaded_yaml) sample_str_of_path sample_update
              sample_single_args) cfg Hcfg.
  exists cfg. split; [reflexivity|]. split; [exact Hcfg|].
  assert ("notes.md" ≠ "") as Hne by discriminate.
  exact (load_config_single_file sample_path_object sample_args_object 2024
           (fun _ => true) (fun _ => PyDict sample_loaded_yaml) sample_str_of_path
           sample_update sample_single_args "notes.md" cfg eq_refl Hne Hcfg).
Defined.

Lemma load_config_then_save_manifest_witness :
  ∃ cfg c' files',
    load_config sample_path_object sample_args_object 2024 (fun _ => true)
      (fun _ => PyDict sample_loaded_yaml) sample_str_of_path sample_update
      sample_args = Ok cfg
    ∧ save_manifest sample_content_tree (fun _ => Ok "yaml") (fun _ => Ok "json")
        (with_config cfg (sample_course false [])) ∅ = Ok (c', files').
Proof.
  returned (load_config sample_path_object sample_args_object 2024 (fun _ => true)
              (fun _ => PyDict sample_loaded_yaml) sample_str_of_path sample_update
              sample_args) cfg Hcfg.
  exists cfg.
  destruct (load_config_then_save_manifest sample_path_object sample_args_object
              2024 (fun _ => true) (fun _ => PyDict sample_loaded_yaml)
              sample_str_of_path sample_update sample_args cfg
              (with_config cfg (sample_course false [])) sample_content_tree
              (fun _ => Ok "yaml") (fun _ => Ok "json") ∅ Hcfg
              (or_intror (ex_intro _ sample_loaded_yaml eq_refl)) eq_refl
              (fun _ => ex_intro _ "yaml" eq_refl)
              (fun _ => ex_intro _ "json" eq_refl)) as (c' & files' & H).
  exists c', files'. split; [exact Hcfg|exact H].
Defined.

Lemma find_theme_first_witness :
  sample_loaded_yaml !! "themes_dir" = Some (PyStr "my-themes")
  ∧ find_theme (fun _ => true) (Path_of "module") (Path_of "package") sample_args
      sample_loaded_yaml (PyStr "default")
    = Ok (Path_div (Path_of "my-themes") "default").
Proof.
  split; [reflexivity|].
  exact (proj1 (proj2 (find_theme_first (fun _ => true) (Path_of "module")
                         (Path_of "package") sample_args sample_loaded_yaml
                         "default"))
           "my-themes" eq_refl eq_refl).
Defined.

Lemma out_file_and_url_witness :
  ∃ self,
    rich_store !! 1%nat = Some self
    ∧ out_path rich_store self = Ok ["unit-1"; "intro"]
    ∧ url rich_store self = Ok "unit-1/intro"
    ∧ url_clean rich_store self = Ok "unit-1-intro"
    ∧ out_file rich_store self = Ok "unit-1/intro".
Proof.
  eexists. split; [reflexivity|]. split; [reflexivity|].
  match goal with |- url _ ?s = _ ∧ _ =>
    destruct (proj2 (out_file_and_url rich_store s) "unit-1" "intro" eq_refl)
      as (Hu & Hc & Hf & _)
  end.
  split; [exact Hu|]. split; [exact Hc|]. exact Hf.
Defined.
